(** * VRChat auto-invite: log watcher, eligibility filter and invite dispatch

    A shallow embedding of [AutoInviteApp/logic.py].

    - [Text]: the characters, the regular expressions and the timestamp
      parser the log watcher uses ([re.search], [datetime.strptime]).
    - [Model]: the objects' state ([VRChatLogWatcher], [VRChatLogic]), the
      insertion-ordered dictionaries and the message sink.
    - [Callbacks]: the methods of [VRChatLogic] the watcher calls back.
    - [Watcher]: the methods of [VRChatLogWatcher].
    - [Logic]: the methods of [VRChatLogic] (start of the watcher, the
      eligibility filter, logout).
    - [Dispatch]: the worker pool of [_invite_thread_pool] as a transition
      system over program points.
    - [Spec]: the notions the specification uses and the source does not
      name; [Samples]: log lines and states to evaluate on.
    - [Further]: further methods of [VRChatLogic] (the group of an
      instance, the current instance, the members of a group, the one-time
      parse of the log, the choice of the log file, cleanup).
    - [Sequential]: [invite_players] and the loop of
      [_invite_players_thread]; [Instance]:
      [invite_instance_players_to_group] as a whole.
    - [FurtherSpec], [FurtherSamples]: notions and samples for the
      properties X1 to X30.
    The lemmas and the theorems on the claims C1 to C10 follow, and then
    the properties X1 to X30.

    Modelling conventions.  A line is a [string] whose characters are the
    code points U+0000..U+00FF; file offsets count characters, which is the
    byte offset for ASCII logs.  A Python exception is a value of an error
    alternative.  The thread of [_watch_log] is modelled by one iteration of
    its loop, a function of the state and of what the file system shows at
    that moment.  The callbacks into the user interface
    ([on_invite_progress], [on_login_status_change],
    [on_log_watcher_status_change]) change nothing here and are left out;
    every message they carry is also given to [self.log].  A point of time
    is an integer of microseconds; the float that [total_seconds] makes of
    a difference is the double nearest to the quotient by 10^6, held as a
    mantissa and an exponent. *)

From Stdlib Require Import List Bool Arith Lia Ascii String ZArith.
From Stdlib Require Import Permutation Sorted.
Import ListNotations.
Open Scope string_scope.

(* ================================================================== *)
(** * Text: characters, regular expressions, timestamps                *)
(* ================================================================== *)

Module Text.

Local Open Scope Z_scope.

(** Code point of a character. *)
Definition code (c : ascii) : Z := Z.of_N (N_of_ascii c).

(** [\d] of a Python 3 [str] pattern: the decimal digits; below U+0100
    these are 0..9 only. *)
Definition is_digit (c : ascii) : bool :=
  (48 <=? code c) && (code c <=? 57).

(** [\s] of a Python 3 [str] pattern, which is also [str.isspace] on one
    character: below U+0100 these are U+0009..U+000D, U+001C..U+0020,
    U+0085 and U+00A0. *)
Definition is_space (c : ascii) : bool :=
  ((9 <=? code c) && (code c <=? 13))
  || ((28 <=? code c) && (code c <=? 32))
  || (code c =? 133) || (code c =? 160).

(** A literal piece of a pattern, matched at the current position; the
    result is the rest of the subject. *)
Fixpoint literal (p s : string) : option string :=
  match p with
  | EmptyString => Some s
  | String a p' =>
      match s with
      | EmptyString => None
      | String b s' => if Ascii.eqb a b then literal p' s' else None
      end
  end.

(** [re.search]: the anchored matcher [m] is tried at every position from
    the left (the end of the subject included); the leftmost success wins. *)
Fixpoint re_search {A : Type} (m : string -> option A) (s : string)
  : option A :=
  match m s with
  | Some r => Some r
  | None =>
      match s with
      | EmptyString => None
      | String _ s' => re_search m s'
      end
  end.

(** [sub in line]. *)
Definition contains (sub line : string) : bool :=
  match re_search (literal sub) line with
  | Some _ => true
  | None => false
  end.

(** One position of the timestamp pattern: a digit or a fixed character. *)
Inductive cls : Type :=
| Dg : cls
| Ch : ascii -> cls.

Definition cls_ok (k : cls) (c : ascii) : bool :=
  match k with
  | Dg => is_digit c
  | Ch a => Ascii.eqb a c
  end.

(** A fixed-width pattern matched at the current position; the result is
    the matched text. *)
Fixpoint shape (p : list cls) (s : string) : option string :=
  match p with
  | [] => Some EmptyString
  | k :: p' =>
      match s with
      | EmptyString => None
      | String c s' =>
          if cls_ok k c then
            match shape p' s' with
            | Some t => Some (String c t)
            | None => None
            end
          else None
      end
  end.

(** [(\d{4}\.\d{2}\.\d{2} \d{2}:\d{2}:\d{2})] *)
Definition timestamp_pattern : list cls :=
  [Dg; Dg; Dg; Dg; Ch "."; Dg; Dg; Ch "."; Dg; Dg; Ch " ";
   Dg; Dg; Ch ":"; Dg; Dg; Ch ":"; Dg; Dg]%char.

(** [re.search(r'(\d{4}\.\d{2}\.\d{2} \d{2}:\d{2}:\d{2})', line)], with
    [group(1)] as the result. *)
Definition timestamp_match (line : string) : option string :=
  re_search (shape timestamp_pattern) line.

(** The longest run of characters satisfying [f] at the current position,
    and the rest. *)
Fixpoint span (f : ascii -> bool) (s : string) : string * string :=
  match s with
  | EmptyString => (EmptyString, EmptyString)
  | String c s' =>
      if f c then let (r, t) := span f s' in (String c r, t)
      else (EmptyString, s)
  end.

(** [\s+] followed by something that cannot start with white space: all the
    white space is consumed, and there must be some. *)
Definition spaces1 (s : string) : option string :=
  match span is_space s with
  | (EmptyString, _) => None
  | (_, t) => Some t
  end.

(** [(\S+)] followed by white space or by the end of the pattern: the whole
    run of non-space characters, which must not be empty. *)
Definition nonspace1 (s : string) : option (string * string) :=
  match span (fun c => negb (is_space c)) s with
  | (EmptyString, _) => None
  | (r, t) => Some (r, t)
  end.

(** [lit\s+(\S+)] at the current position, with [group(1)] as the result:
    the shape of the four instance patterns. *)
Definition room_pattern (lit : string) (s : string) : option string :=
  match literal lit s with
  | None => None
  | Some s1 =>
      match spaces1 s1 with
      | None => None
      | Some s2 =>
          match nonspace1 s2 with
          | None => None
          | Some (tok, _) => Some tok
          end
      end
  end.

(** The literals of [instance_patterns], in the order of the source. *)
Definition instance_patterns : list string :=
  ["Joining or Creating Room:"; "Joining Room:"; "Room:"; "Joining"].

(** The loop over [instance_patterns]: the first pattern found anywhere in
    the line gives [instance_id_found].  ([.strip()] changes nothing on a
    run of non-space characters.) *)
Fixpoint first_instance_match (pats : list string) (line : string)
  : option string :=
  match pats with
  | [] => None
  | p :: ps =>
      match re_search (room_pattern p) line with
      | Some tok => Some tok
      | None => first_instance_match ps line
      end
  end.

Definition instance_id_found (line : string) : option string :=
  first_instance_match instance_patterns line.

(** The longest prefix [p] of [s], possibly empty, with [s = p ++ ")" ++ _]. *)
Fixpoint upto_last_paren (s : string) : option string :=
  match s with
  | EmptyString => None
  | String c s' =>
      match upto_last_paren s' with
      | Some p => Some (String c p)
      | None => if Ascii.eqb c ")" then Some EmptyString else None
      end
  end.

(** [(\S+)\)] at the current position: within the run of non-space
    characters, the greedy group gives back characters until a [)]
    follows it; the group must not be empty. *)
Definition id_in_parens (s : string) : option string :=
  match upto_last_paren (fst (span (fun c => negb (is_space c)) s)) with
  | Some (String c p) => Some (String c p)
  | _ => None
  end.

(** [lit\s+(\S+)\s+\((\S+)\)] at the current position, with
    [(group(1), group(2))] as the result: the pattern of the join and leave
    lines ([lit] is [OnPlayerJoined] or [OnPlayerLeft]). *)
Definition player_pattern (lit : string) (s : string)
  : option (string * string) :=
  match literal lit s with
  | None => None
  | Some s1 =>
      match spaces1 s1 with
      | None => None
      | Some s2 =>
          match nonspace1 s2 with
          | None => None
          | Some (nm, s3) =>
              match spaces1 s3 with
              | Some (String "(" s4) =>
                  match id_in_parens s4 with
                  | Some i => Some (nm, i)
                  | None => None
                  end
              | _ => None
              end
          end
      end
  end.

Definition player_match (lit line : string) : option (string * string) :=
  re_search (player_pattern lit) line.

(** ** datetime *)

Record datetime : Type := mkdt {
  year : Z; month : Z; day : Z; hour : Z; minute : Z; second : Z
}.

Definition is_leap (y : Z) : bool :=
  ((y mod 4 =? 0) && negb (y mod 100 =? 0)) || (y mod 400 =? 0).

Definition days_in_month (y m : Z) : Z :=
  if m =? 2 then (if is_leap y then 29 else 28)
  else if (m =? 4) || (m =? 6) || (m =? 9) || (m =? 11) then 30
  else 31.

(** The field ranges a [datetime] object accepts. *)
Definition valid_datetime (d : datetime) : bool :=
  (1 <=? year d) && (year d <=? 9999)
  && (1 <=? month d) && (month d <=? 12)
  && (1 <=? day d) && (day d <=? days_in_month (year d) (month d))
  && (0 <=? hour d) && (hour d <=? 23)
  && (0 <=? minute d) && (minute d <=? 59)
  && (0 <=? second d) && (second d <=? 59).

Definition digit (c : ascii) : Z := code c - 48.
Definition two (a b : ascii) : Z := 10 * digit a + digit b.

(** [datetime.strptime(s, '%Y.%m.%d %H:%M:%S')] on a text of the timestamp
    shape; [None] is [ValueError] (a field out of range, a day the month
    does not have). *)
Definition strptime (s : string) : option datetime :=
  match shape timestamp_pattern s with
  | Some t =>
      if String.eqb t s then
        match list_ascii_of_string s with
        | [y1; y2; y3; y4; _; m1; m2; _; d1; d2; _;
           h1; h2; _; n1; n2; _; s1; s2] =>
            let d := mkdt (100 * two y1 y2 + two y3 y4) (two m1 m2)
                          (two d1 d2) (two h1 h2) (two n1 n2) (two s1 s2) in
            if valid_datetime d then Some d else None
        | _ => None
        end
      else None
  | None => None
  end.

(** The order of [datetime] values is the lexicographic order of their
    fields; on the field ranges of [valid_datetime] that is the order of
    this mixed-radix number. *)
Definition rank (d : datetime) : Z :=
  ((((year d * 13 + month d) * 32 + day d) * 24 + hour d) * 60
   + minute d) * 60 + second d.

(** The comparison of two [datetime] values, field by field. *)
Definition dt_compare (a b : datetime) : comparison :=
  match year a ?= year b with
  | Eq =>
      match month a ?= month b with
      | Eq =>
          match day a ?= day b with
          | Eq =>
              match hour a ?= hour b with
              | Eq =>
                  match minute a ?= minute b with
                  | Eq => second a ?= second b
                  | o => o
                  end
              | o => o
              end
          | o => o
          end
      | o => o
      end
  | o => o
  end.

Definition dt_ltb (a b : datetime) : bool := rank a <? rank b.
Definition dt_leb (a b : datetime) : bool := rank a <=? rank b.

(** [max(l)] on a non-empty list: the first of the greatest elements. *)
Fixpoint max_from (m : datetime) (l : list datetime) : datetime :=
  match l with
  | [] => m
  | x :: l' => max_from (if dt_ltb m x then x else m) l'
  end.

(** [max(l)]; [None] is the [ValueError] of an empty argument. *)
Definition py_max (l : list datetime) : option datetime :=
  match l with
  | [] => None
  | x :: l' => Some (max_from x l')
  end.

End Text.


(* ================================================================== *)
(** * Model: dictionaries, objects, messages                           *)
(* ================================================================== *)

Module Model.

Import Text.

(** ** Python [dict] with [str] keys: insertion-ordered, one entry per key *)

Section Dict.

Context {V : Type}.

Definition dict : Type := list (string * V).

(** [d.get(k)]; [k in d] is [dict_mem]. *)
Fixpoint dict_get (k : string) (d : dict) : option V :=
  match d with
  | [] => None
  | (k', v) :: d' => if String.eqb k k' then Some v else dict_get k d'
  end.

Definition dict_mem (k : string) (d : dict) : bool :=
  match dict_get k d with
  | Some _ => true
  | None => false
  end.

(** [d[k] = v]: an existing key keeps its place, a new one goes last. *)
Fixpoint dict_set (k : string) (v : V) (d : dict) : dict :=
  match d with
  | [] => [(k, v)]
  | (k', v') :: d' =>
      if String.eqb k k' then (k, v) :: d' else (k', v') :: dict_set k v d'
  end.

(** [del d[k]] for a key that is present. *)
Fixpoint dict_del (k : string) (d : dict) : dict :=
  match d with
  | [] => []
  | (k', v') :: d' =>
      if String.eqb k k' then d' else (k', v') :: dict_del k d'
  end.

Definition keys (d : dict) : list string := map fst d.

End Dict.

Arguments dict V : clear implicits.

(** The value of [player_events[player_id]]:
    [{'name': ..., 'joins': [...], 'leaves': [...]}]. *)
Record events : Type := mkEvents {
  name : string;
  joins : list datetime;
  leaves : list datetime
}.

(** [SimpleNamespace(id=..., display_name=...)]. *)
Record player : Type := mkPlayer {
  id : string;
  display_name : string
}.

(** What [self.log] receives.  One constructor per message of the source,
    carrying the values the message interpolates; [exn] stands for the text
    of a caught exception. *)
Inductive exn : Type :=
| ValueError : string -> exn       (* strptime on this text *)
| OSError : exn                    (* open() failed *)
| QueueEmpty : exn                 (* queue.Empty *)
| ApiException : nat -> option string -> exn
                                   (* vrchatapi ApiException: status, body *)
| OtherError : exn.

Inductive log_msg : Type :=
(* start_watching *)
| AlreadyWatching                  (* "Already watching log file" *)
| CouldNotFindLogToWatch           (* "Could not find VRChat log file to watch" *)
| StartingToWatch (path : string)  (* "Starting to watch log file: {log_path}" *)
| PerformingFullScan               (* "Performing full scan of existing log file..." *)
| WatcherStarted                   (* "Log watcher started successfully" *)
(* _position_at_end *)
| PositionedAtEnd (pos : nat)      (* "Positioned at end of log file (position {})" *)
| ErrorPositioning (e : exn)       (* "Error positioning at end of log file: {}" *)
(* _scan_entire_log *)
| ScanningEntireLog                (* "Scanning entire log file for instance and player information..." *)
| NoInstanceMonitorOnly            (* "Could not find current instance in logs, will only monitor new entries" *)
| ScanningForPlayers (inst : option string)
                                   (* "Scanning for player events in instance {}..." *)
| MostRecentInstance (inst : string) (t : datetime)
                                   (* "Most recent instance: {} (changed at {})" *)
| InitialScanFound (n : nat) (inst : option string)
                                   (* "Initial scan found {} active players in instance {}" *)
| InitialScanPlayer (p : player) (joined : datetime)
                                   (* "  - {} ({}): in instance for {:.1f} seconds" *)
| InitialScanNone (inst : option string)
                                   (* "Initial scan found no active players in instance {}" *)
| ErrorScanning (e : exn)          (* "Error scanning log file: {}" *)
| ExceptionDetails                 (* "Exception details: {traceback}" *)
(* stop_watching *)
| StoppedWatching                  (* "Stopped watching log file" *)
(* _find_current_instance *)
| FoundCurrentInstance (inst ts : string)
                                   (* "Found current instance in logs: {} (from {})" *)
| CouldNotFindInstance             (* "Could not find current instance in logs" *)
| ErrorFindingInstance (e : exn)   (* "Error finding current instance: {}" *)
(* _watch_log *)
| ErrorWatching (e : exn)          (* "Error watching log file: {}" *)
(* _process_log_line *)
| InstanceChangedTo (inst ts : string)
                                   (* "Instance changed to: {} (at {})" *)
| PlayerJoined (nm pid ts : string)(* "Player joined: {} ({}) at {}" *)
| PlayerLeft (nm pid ts : string)  (* "Player left: {} ({}) at {}" *)
| ErrorProcessingLine (e : exn)    (* "Error processing log line: {}" *)
(* VRChatLogic.on_instance_change *)
| CurrentInstanceChangedTo (inst : string)
                                   (* "Current instance changed to: {}" *)
(* VRChatLogic.start_log_watching *)
| WatcherAlreadyRunning            (* "Log watcher is already running" *)
| CouldNotFindLog                  (* "Could not find VRChat log file" *)
(* VRChatLogic.logout *)
| NotLoggedIn                      (* "Not logged in" *)
| ClearedSavedLogin                (* "Cleared saved login information" *)
| ErrorDuringLogout (e : exn)      (* "Error during logout: {}" *)
| LoggedOut                        (* "Logged out successfully" *)
(* VRChatLogic.invite_instance_players_to_group *)
| NoEligiblePlayers                (* "No eligible players to invite" *)
| StartingInvitation (n : nat)     (* "Starting invitation process for {} eligible players:" *)
| WillInvite (p : player)          (* "  - Will invite: {} ({})" *)
(* VRChatLogic.stop_inviting *)
| NoInvitationRunning              (* "No invitation process is running" *)
| StoppingInvitation               (* "Stopping invitation process..." *)
(* VRChatLogic._invite_thread_pool *)
| StartingPool (total : nat) (group : string)
                                   (* "Starting invitation thread pool for {} players to group {}" *)
| StartingWorker (i n : nat)       (* "Starting worker thread {}/{}" *)
| ProcessingPlayer (p : player)    (* "Processing player: {} ({})" *)
| CheckingMembership (p : player) (group : string)
                                   (* "Checking if {} is already in group {}..." *)
| SkippedAlreadyInGroup (p : player) (invited total : nat)
                                   (* "Skipped {} - already in group ({}/{})" *)
| ErrorCheckingMembership (p : player) (e : exn)
                                   (* "Error checking membership for {}: {}" *)
| NotInGroup (p : player) (group : string)
                                   (* "{} is not in group {} (404 response, which is expected)" *)
| CheckingPending (p : player) (group : string)
                                   (* "Checking if {} already has a pending invite to group {}..." *)
| SkippedPendingInvite (p : player) (invited total : nat)
                                   (* "Skipped {} - already has pending invite ({}/{})" *)
| NoPendingInvite (p : player) (group : string)
                                   (* "{} does not have a pending invite to group {}" *)
| ErrorCheckingPending (p : player) (e : exn)
                                   (* "Error checking pending invites for {}: {}" *)
| SendingInvite (p : player) (group : string)
                                   (* "Sending invite to {} ({}) for group {}..." *)
| InviteResponse                   (* "Invite API response: {}" *)
| Invited (p : player) (invited total : nat)
                                   (* "Invited {} ({}/{})" *)
| ApiExceptionInviting (p : player) (e : exn)
                                   (* "API Exception when inviting {}: {}" *)
| FailedToInvite (p : player) (e : exn)
                                   (* "Failed to invite {}: {}" *)
| ApiExceptionStatus (status : nat)(* "API Exception details - Status: {}, Reason: {}" *)
| ResponseBody (body : string)     (* "Response body: {}" *)
| UnexpectedErrorInviting (p : player) (e : exn)
                                   (* "Unexpected error inviting {}: {}" *)
| WaitingBeforeNext (delay : nat)  (* "Waiting {} seconds before processing next player..." *)
| WorkerThreadError (e : exn)      (* "Worker thread error: {}" *)
| WaitingForWorker (i n : nat)     (* "Waiting for worker thread {}/{} to complete..." *)
| WorkerCompleted (i n : nat)      (* "Worker thread {}/{} completed" *)
| InvitationStopped (invited total failed skipped : nat)
                                   (* "Invitation process stopped. Invited {}/{} players. Failed: {}, Skipped: {}" *)
| InvitationCompleted (invited total failed skipped : nat).
                                   (* "Invitation process completed. Invited {}/{} players. Failed: {}, Skipped: {}" *)

(** ** The objects *)

(** The attributes of [VRChatLogWatcher] ([observer] stays [None] and
    [watch_thread] is the thread of [_watch_log]; neither is state here). *)
Record watcher : Type := mkWatcher {
  log_path : option string;
  file_position : nat;
  is_watching : bool;
  current_instance : option string;
  player_events : dict events
}.

(** A reference to an object of the API client library. *)
Definition handle : Type := nat.

(** The attributes of [VRChatLogic] that the modelled methods read or
    write, and the messages [self.log] has received, the latest first. *)
Record logic : Type := mkLogic {
  api_client : option handle;
  auth_api : option handle;
  groups_api : option handle;
  users_api : option handle;
  worlds_api : option handle;
  current_user : option string;      (* the user object, by its id *)
  is_logged_in : bool;
  is_inviting : bool;
  log_watcher : watcher;
  _player_join_times : dict datetime;
  logged : list log_msg
}.

(** [VRChatWatcher.__init__] and [VRChatLogic.__init__]. *)
Definition watcher_init : watcher := mkWatcher None 0 false None [].

Definition logic_init : logic :=
  mkLogic None None None None None None false false watcher_init [] [].

(** Attribute assignments. *)
Definition with_watcher (f : watcher -> watcher) (L : logic) : logic :=
  mkLogic (api_client L) (auth_api L) (groups_api L) (users_api L)
          (worlds_api L) (current_user L) (is_logged_in L) (is_inviting L)
          (f (log_watcher L)) (_player_join_times L) (logged L).

Definition set_log_path (p : option string) (w : watcher) : watcher :=
  mkWatcher p (file_position w) (is_watching w) (current_instance w)
            (player_events w).

Definition set_file_position (n : nat) (w : watcher) : watcher :=
  mkWatcher (log_path w) n (is_watching w) (current_instance w)
            (player_events w).

Definition set_is_watching (b : bool) (w : watcher) : watcher :=
  mkWatcher (log_path w) (file_position w) b (current_instance w)
            (player_events w).

Definition set_current_instance (i : option string) (w : watcher) : watcher :=
  mkWatcher (log_path w) (file_position w) (is_watching w) i
            (player_events w).

Definition set_player_events (d : dict events) (w : watcher) : watcher :=
  mkWatcher (log_path w) (file_position w) (is_watching w)
            (current_instance w) d.

Definition set_join_times (d : dict datetime) (L : logic) : logic :=
  mkLogic (api_client L) (auth_api L) (groups_api L) (users_api L)
          (worlds_api L) (current_user L) (is_logged_in L) (is_inviting L)
          (log_watcher L) d (logged L).

Definition set_is_inviting (b : bool) (L : logic) : logic :=
  mkLogic (api_client L) (auth_api L) (groups_api L) (users_api L)
          (worlds_api L) (current_user L) (is_logged_in L) b
          (log_watcher L) (_player_join_times L) (logged L).

(** [self.log(message)]. *)
Definition log (m : log_msg) (L : logic) : logic :=
  mkLogic (api_client L) (auth_api L) (groups_api L) (users_api L)
          (worlds_api L) (current_user L) (is_logged_in L) (is_inviting L)
          (log_watcher L) (_player_join_times L) (m :: logged L).

(** What the file system shows of the log file at one moment:
    [os.path.exists] is false; the file exists with this size and [open]
    fails; the file exists with this content. *)
Inductive file_status : Type :=
| Missing : file_status
| Unreadable : nat -> file_status
| Readable : string -> file_status.

(** [f.readlines()] of a file opened in text mode: universal newlines, each
    line keeps its end as ["\n"]. *)
Fixpoint readlines (s : string) : list string :=
  match s with
  | EmptyString => []
  | String c s' =>
      if Ascii.eqb c "010" then String "010" EmptyString :: readlines s'
      else if Ascii.eqb c "013" then
        match s' with
        | String c' s'' =>
            if Ascii.eqb c' "010"
            then String "010" EmptyString :: readlines s''
            else String "010" EmptyString :: readlines s'
        | EmptyString => [String "010" EmptyString]
        end
      else
        match readlines s' with
        | [] => [String c EmptyString]
        | l :: ls => String c l :: ls
        end
  end.

(** [f.seek(n)]: the content from offset [n] on. *)
Fixpoint seek (n : nat) (s : string) : string :=
  match n, s with
  | O, _ => s
  | S n', String _ s' => seek n' s'
  | S _, EmptyString => EmptyString
  end.

End Model.

(* ================================================================== *)
(** * The methods of [VRChatLogic] that the watcher calls back          *)
(* ================================================================== *)

Module Callbacks.

Import Text Model.

(** [VRChatLogic.on_instance_change] *)
Definition on_instance_change (instance_id : string) (L : logic) : logic :=
  log (CurrentInstanceChangedTo instance_id) L.

(** [VRChatLogic.on_player_join] *)
Definition on_player_join (player_id player_name : string)
    (timestamp : datetime) (L : logic) : logic :=
  set_join_times (dict_set player_id timestamp (_player_join_times L)) L.

(** [VRChatLogic.on_player_leave] *)
Definition on_player_leave (player_id player_name : string)
    (timestamp : datetime) (L : logic) : logic :=
  if dict_mem player_id (_player_join_times L)
  then set_join_times (dict_del player_id (_player_join_times L)) L
  else L.

End Callbacks.

(* ================================================================== *)
(** * class VRChatLogWatcher                                           *)
(* ================================================================== *)

Module Watcher.

Import Text Model Callbacks.

(** [self._position_at_end()], on what [open(self.log_path)] shows. *)
Definition _position_at_end (f : file_status) (L : logic) : logic :=
  match f with
  | Readable c =>
      log (PositionedAtEnd (String.length c))
          (with_watcher (set_file_position (String.length c)) L)
  | _ => log (ErrorPositioning OSError) L
  end.

(** ["Joining" in line and "Room" in line] *)
Definition is_instance_line (line : string) : bool :=
  contains "Joining" line && contains "Room" line.

(** [timestamp_match and instance_id_found], with [(timestamp_str,
    instance_id_found)] as the result. *)
Definition instance_change (line : string) : option (string * string) :=
  match timestamp_match line, instance_id_found line with
  | Some ts, Some i => Some (ts, i)
  | _, _ => None
  end.

(** The record a first join or leave of a player creates. *)
Definition new_events (player_name : string) : events :=
  mkEvents player_name [] [].

(** [if player_id not in self.player_events: self.player_events[player_id]
    = {...}]. *)
Definition ensure_events (player_id player_name : string) (d : dict events)
  : dict events :=
  if dict_mem player_id d then d
  else dict_set player_id (new_events player_name) d.

(** [d[player_id]['joins'].append(timestamp)] and the same for
    ['leaves'], on a key that is present. *)
Definition append_join (player_id : string) (t : datetime) (d : dict events)
  : dict events :=
  match dict_get player_id d with
  | Some e =>
      dict_set player_id (mkEvents (name e) (joins e ++ [t])%list (leaves e)) d
  | None => d
  end.

Definition append_leave (player_id : string) (t : datetime) (d : dict events)
  : dict events :=
  match dict_get player_id d with
  | Some e =>
      dict_set player_id (mkEvents (name e) (joins e) (leaves e ++ [t])%list) d
  | None => d
  end.

(** [self._process_log_line(line)].  A [ValueError] of [strptime] is caught
    by the method's own [except] and logged. *)
Definition _process_log_line (line : string) (L : logic) : logic :=
  if is_instance_line line then
    match instance_change line with
    | Some (timestamp_str, inst) =>
        let L1 := with_watcher (set_current_instance (Some inst)) L in
        let L2 := log (InstanceChangedTo inst timestamp_str) L1 in
        let L3 := with_watcher (set_player_events []) L2 in
        on_instance_change inst L3
    | None => L
    end
  else if contains "[Behaviour] OnPlayerJoined" line then
    match timestamp_match line, player_match "OnPlayerJoined" line with
    | Some timestamp_str, Some (player_name, player_id) =>
        match strptime timestamp_str with
        | None => log (ErrorProcessingLine (ValueError timestamp_str)) L
        | Some timestamp =>
            let d := player_events (log_watcher L) in
            let d1 := ensure_events player_id player_name d in
            let d2 := append_join player_id timestamp d1 in
            let L1 := with_watcher (set_player_events d2) L in
            let L2 := log (PlayerJoined player_name player_id timestamp_str)
                          L1 in
            on_player_join player_id player_name timestamp L2
        end
    | _, _ => L
    end
  else if contains "[Behaviour] OnPlayerLeft" line then
    match timestamp_match line, player_match "OnPlayerLeft" line with
    | Some timestamp_str, Some (player_name, player_id) =>
        match strptime timestamp_str with
        | None => log (ErrorProcessingLine (ValueError timestamp_str)) L
        | Some timestamp =>
            let d := player_events (log_watcher L) in
            let d1 := ensure_events player_id player_name d in
            let d2 := append_leave player_id timestamp d1 in
            let L1 := with_watcher (set_player_events d2) L in
            let L2 := log (PlayerLeft player_name player_id timestamp_str)
                          L1 in
            on_player_leave player_id player_name timestamp L2
        end
    | _, _ => L
    end
  else L.

(** The loop of [get_active_players] over [self.player_events.items()],
    with [(active_players, player_join_times)] as the accumulator. *)
Fixpoint active_from (d : dict events)
    (acc : list player * dict datetime) : list player * dict datetime :=
  match d with
  | [] => acc
  | (player_id, ev) :: d' =>
      active_from d'
        (if (List.length (leaves ev) <? List.length (joins ev))%nat then
           match py_max (joins ev) with
           | Some latest_join =>
               ((fst acc ++ [mkPlayer player_id (name ev)])%list,
                dict_set player_id latest_join (snd acc))
           | None => acc      (* not reached: [joins] is not empty here *)
           end
         else acc)
  end.

(** [self.get_active_players()] *)
Definition get_active_players (L : logic) : list player * dict datetime :=
  active_from (player_events (log_watcher L)) ([], []).

(** The loop of [_find_current_instance] over [reversed(lines)]. *)
Fixpoint first_instance_line (lines : list string) : option (string * string) :=
  match lines with
  | [] => None
  | line :: rest =>
      if is_instance_line line then
        match instance_change line with
        | Some r => Some r
        | None => first_instance_line rest
        end
      else first_instance_line rest
  end.

(** [self._find_current_instance()] *)
Definition _find_current_instance (f : file_status) (L : logic) : logic :=
  match f with
  | Readable c =>
      match first_instance_line (rev (readlines c)) with
      | Some (timestamp_str, inst) =>
          log (FoundCurrentInstance inst timestamp_str)
              (with_watcher (set_current_instance (Some inst)) L)
      | None => log CouldNotFindInstance L
      end
  | _ => log (ErrorFindingInstance OSError) L
  end.

(** First pass of [_scan_entire_log]: the list [instance_changes], or the
    [ValueError] of the first timestamp [strptime] refuses. *)
Fixpoint instance_changes (lines : list string)
  : exn + list (datetime * string) :=
  match lines with
  | [] => inr []
  | line :: rest =>
      if is_instance_line line then
        match instance_change line with
        | Some (timestamp_str, inst) =>
            match strptime timestamp_str with
            | None => inl (ValueError timestamp_str)
            | Some t =>
                match instance_changes rest with
                | inl e => inl e
                | inr cs => inr ((t, inst) :: cs)
                end
            end
        | None => instance_changes rest
        end
      else instance_changes rest
  end.

(** [instance_changes.sort(key=lambda x: x[0])]: a stable sort, here by
    insertion.  An element goes before the first one that is not earlier. *)
Fixpoint insert_by_time (x : datetime * string)
    (l : list (datetime * string)) : list (datetime * string) :=
  match l with
  | [] => [x]
  | y :: l' =>
      if dt_ltb (fst y) (fst x) then y :: insert_by_time x l'
      else x :: y :: l'
  end.

Fixpoint sort_by_time (l : list (datetime * string))
  : list (datetime * string) :=
  match l with
  | [] => []
  | x :: l' => insert_by_time x (sort_by_time l')
  end.

(** Second pass of [_scan_entire_log]: the state reached, and the
    [ValueError] that stopped the loop if there was one. *)
Fixpoint replay (instance_change_time : datetime) (lines : list string)
    (L : logic) : logic * option exn :=
  match lines with
  | [] => (L, None)
  | line :: rest =>
      match timestamp_match line with
      | None => replay instance_change_time rest L
      | Some timestamp_str =>
          match strptime timestamp_str with
          | None => (L, Some (ValueError timestamp_str))
          | Some timestamp =>
              if dt_ltb timestamp instance_change_time
              then replay instance_change_time rest L
              else replay instance_change_time rest
                          (_process_log_line line L)
          end
      end
  end.

(** The summary at the end of [_scan_entire_log]. *)
Definition log_active_summary (L : logic) : logic :=
  let inst := current_instance (log_watcher L) in
  match fst (get_active_players L) with
  | [] => log (InitialScanNone inst) L
  | p :: ps =>
      fold_left
        (fun L' q =>
           match dict_get (id q) (_player_join_times L') with
           | Some join_time => log (InitialScanPlayer q join_time) L'
           | None => L'
           end)
        (p :: ps)
        (log (InitialScanFound (List.length (p :: ps)) inst) L)
  end.

(** The [except] branch of [_scan_entire_log]. *)
Definition scan_failed (e : exn) (f : file_status) (L : logic) : logic :=
  _position_at_end f (log ExceptionDetails (log (ErrorScanning e) L)).

(** [self._scan_entire_log()]; the file shows the same [f] at each of its
    three [open] calls. *)
Definition _scan_entire_log (f : file_status) (L : logic) : logic :=
  let L1 := _find_current_instance f (log ScanningEntireLog L) in
  match current_instance (log_watcher L1) with
  | None => _position_at_end f (log NoInstanceMonitorOnly L1)
  | Some inst =>
      let L2 := log (ScanningForPlayers (Some inst)) L1 in
      match f with
      | Readable c =>
          let lines := readlines c in
          match instance_changes lines with
          | inl e => scan_failed e f L2
          | inr cs =>
              match sort_by_time cs with
              | [] => log_active_summary (_position_at_end f L2)
              | x :: xs =>
                  let most_recent := last (x :: xs) x in
                  let L3 := with_watcher
                              (set_current_instance (Some (snd most_recent)))
                              L2 in
                  let L4 := log (MostRecentInstance (snd most_recent)
                                                    (fst most_recent)) L3 in
                  match replay (fst most_recent) lines L4 with
                  | (L5, Some e) => scan_failed e f L5
                  | (L5, None) => log_active_summary (_position_at_end f L5)
                  end
              end
          end
      | _ => scan_failed OSError f L2
      end
  end.

(** One iteration of the loop of [_watch_log], without its [sleep]: [f] is
    what [os.path.exists], [os.path.getsize] and [open] show of
    [self.log_path].  An [open] that fails is caught by the [except] around
    the loop, which clears [is_watching]. *)
Definition watch_log_iteration (f : file_status) (L : logic) : logic :=
  match f with
  | Missing => L
  | Unreadable current_size =>
      if (file_position (log_watcher L) <? current_size)%nat
      then with_watcher (set_is_watching false) (log (ErrorWatching OSError) L)
      else L
  | Readable c =>
      let current_size := String.length c in
      if (file_position (log_watcher L) <? current_size)%nat then
        let new_lines := readlines (seek (file_position (log_watcher L)) c) in
        let L1 := with_watcher (set_file_position (String.length c)) L in
        fold_left (fun L' line => _process_log_line line L') new_lines L1
      else L
  end.

(** [self._watch_log()] against the successive states of the file: the loop
    runs while [self.is_watching]. *)
Fixpoint _watch_log (polls : list file_status) (L : logic) : logic :=
  match polls with
  | [] => L
  | f :: rest =>
      if is_watching (log_watcher L)
      then _watch_log rest (watch_log_iteration f L)
      else L
  end.

(** [self.stop_watching()] *)
Definition stop_watching (L : logic) : logic :=
  if is_watching (log_watcher L)
  then log StoppedWatching (with_watcher (set_is_watching false) L)
  else L.

Section StartWatching.

(** [self.logic._get_vrchat_log_path()], which reads the log directory:
    its result and the state it leaves. *)
Variable _get_vrchat_log_path : logic -> option string * logic.

(** The file system, by path. *)
Variable fs : string -> file_status.

(** [not log_path] *)
Definition falsy_path (p : option string) : bool :=
  match p with
  | None => true
  | Some EmptyString => true
  | Some _ => false
  end.

(** [self.start_watching(log_path, scan_existing)] *)
Definition start_watching (log_path : option string) (scan_existing : bool)
    (L : logic) : bool * logic :=
  if is_watching (log_watcher L) then (false, log AlreadyWatching L)
  else
    let (log_path1, L1) :=
      if falsy_path log_path then _get_vrchat_log_path L
      else (log_path, L) in
    match log_path1 with
    | None => (false, log CouldNotFindLogToWatch L1)
    | Some p =>
        match p, fs p with
        | EmptyString, _ => (false, log CouldNotFindLogToWatch L1)
        | _, Missing => (false, log CouldNotFindLogToWatch L1)
        | _, f =>
            let L2 := log (StartingToWatch p)
                          (with_watcher (set_log_path (Some p)) L1) in
            let L3 :=
              if scan_existing
              then _scan_entire_log f (log PerformingFullScan L2)
              else _position_at_end f L2 in
            let L4 := with_watcher (set_is_watching true) L3 in
            (true, log WatcherStarted L4)
        end
    end.

End StartWatching.

End Watcher.

(* ================================================================== *)
(** * class VRChatLogic                                                *)
(* ================================================================== *)

Module Logic.

Import Text Model Callbacks.

Section StartLogWatching.

Variable _get_vrchat_log_path : logic -> option string * logic.
Variable fs : string -> file_status.

(** [self.start_log_watching(scan_existing)]; [self.log_watcher] exists
    since [__init__]. *)
Definition start_log_watching (scan_existing : bool) (L : logic)
  : bool * logic :=
  if is_watching (log_watcher L) then (true, log WatcherAlreadyRunning L)
  else
    let (log_path, L1) := _get_vrchat_log_path L in
    if Watcher.falsy_path log_path then (false, log CouldNotFindLog L1)
    else
      Watcher.start_watching _get_vrchat_log_path fs log_path
                             scan_existing L1.

End StartLogWatching.

(** [self.is_log_watching()] *)
Definition is_log_watching (L : logic) : bool := is_watching (log_watcher L).

(** How a call into a collaborator ends. *)
Inductive answer (A : Type) : Type :=
| Returned : A -> answer A
| Raised : exn -> answer A.

Arguments Returned {A} _.
Arguments Raised {A} _.

(** The [finally] block of [logout]. *)
Definition reset_client (L : logic) : logic :=
  mkLogic None None None None None None false (is_inviting L)
          (log_watcher L) (_player_join_times L) (logged L).

(** [self.logout(clear_saved_credentials)].  [remote_logout] is how
    [self.auth_api.logout()] ends; [config_manager] is [None] when
    [self.config_manager] is, and else how its [clear_saved_login()] ends. *)
Definition logout (remote_logout : answer unit)
    (config_manager : option (answer unit)) (clear_saved_credentials : bool)
    (L : logic) : logic :=
  if negb (is_logged_in L) then log NotLoggedIn L
  else
    let clear (L' : logic) : logic :=
      match clear_saved_credentials, config_manager with
      | true, Some (Returned _) => log ClearedSavedLogin L'
      | true, Some (Raised e) => log (ErrorDuringLogout e) L'
      | _, _ => L'
      end in
    let L1 :=
      match auth_api L with
      | Some _ =>
          match remote_logout with
          | Returned _ => clear L
          | Raised e => log (ErrorDuringLogout e) L
          end
      | None => clear L
      end in
    log LoggedOut (reset_client L1).

(** A [datetime] as a point of the time line, in microseconds. *)
Definition instant : Type := Z.

(** ** The float of [total_seconds]

    [timedelta.total_seconds()] is the true division of two [int]s, the
    microseconds of the difference by 10^6: the double nearest to the
    quotient, ties to even.  A positive double is held as [(m, e)] for
    m * 2^e, with m an integer of 53 bits.  The microseconds between two
    [datetime]s are below 2^59, so that the quotient is neither subnormal
    nor out of range. *)

(** The integer nearest to [a / b], ties to even; [0 <= a], [0 < b]. *)
Definition round_half_even (a b : Z) : Z :=
  let q := (a / b)%Z in
  let r := (a mod b)%Z in
  if (2 * r <? b)%Z then q
  else if (b <? 2 * r)%Z then (q + 1)%Z
  else if Z.even q then q else (q + 1)%Z.

(** [n / (k * 2^e)] as a fraction of integers. *)
Definition scaled (n k e : Z) : Z * Z :=
  if (0 <=? e)%Z then (n, (k * 2 ^ e)%Z) else ((n * 2 ^ (- e))%Z, k).

(** [n / k] on [int]s, [0 < n] and [0 < k]: the exponent [e] is the one at
    which the quotient by 2^e lies from 2^52 to 2^53, the mantissa is that
    quotient rounded. *)
Definition true_divide (n k : Z) : Z * Z :=
  let e0 := (Z.log2 n - Z.log2 k - 53)%Z in
  let e := if (fst (scaled n k e0) <? snd (scaled n k e0) * 2 ^ 53)%Z
           then e0 else (e0 + 1)%Z in
  (round_half_even (fst (scaled n k e)) (snd (scaled n k e)), e).

(** [x < d] and [x > d] for a positive float [x] and an [int] [d]: Python
    compares the two values exactly. *)
Definition float_ltb (x : Z * Z) (d : Z) : bool :=
  if (0 <=? snd x)%Z then (fst x * 2 ^ snd x <? d)%Z
  else (fst x <? d * 2 ^ (- snd x))%Z.

Definition float_gtb (x : Z * Z) (d : Z) : bool :=
  if (0 <=? snd x)%Z then (d <? fst x * 2 ^ snd x)%Z
  else (d * 2 ^ (- snd x) <? fst x)%Z.

(** [(current_time - join_time).total_seconds() < delay], for [delay] an
    [int] of seconds (the [IntVar] of the user interface gives one, of any
    size).  The difference in microseconds is divided by 10^6 into a
    float, and the float is compared with [delay]; a negative difference
    gives the opposite of the float of its opposite. *)
Definition too_recent (current_time join_time : instant) (delay : Z) : bool :=
  let n := (current_time - join_time)%Z in
  if (n =? 0)%Z then (0 <? delay)%Z
  else if (0 <? n)%Z then float_ltb (true_divide n 1000000) delay
  else float_gtb (true_divide (- n) 1000000) (- delay).

Section Filter.

Variable current_user_id : string.         (* self.current_user.id *)
Variable member_ids : list string.
Variable pending_invites : list string.
Variable current_time : instant.
Variable delay : Z.

(** [x in l] on a list of [str]. *)
Definition py_in (x : string) (l : list string) : bool :=
  existsb (String.eqb x) l.

(** The loop that builds [filtered_players] in
    [invite_instance_players_to_group]. *)
Fixpoint filtered_players (players_with_times : list (player * instant))
  : list player :=
  match players_with_times with
  | [] => []
  | (p, join_time) :: rest =>
      if String.eqb (id p) current_user_id then filtered_players rest
      else if py_in (id p) member_ids then filtered_players rest
      else if py_in (id p) pending_invites then filtered_players rest
      else if too_recent current_time join_time delay
           then filtered_players rest
      else p :: filtered_players rest
  end.

(** The end of [invite_instance_players_to_group], from the filter on:
    the result, the state, and the players handed to
    [_invite_thread_pool] if the thread is started. *)
Definition invite_filtered (players_with_times : list (player * instant))
    (L : logic) : bool * logic * option (list player) :=
  match filtered_players players_with_times with
  | [] => (false, log NoEligiblePlayers L, None)
  | p :: ps =>
      let L1 := log (StartingInvitation (List.length (p :: ps))) L in
      let L2 := fold_left (fun L' q => log (WillInvite q) L') (p :: ps) L1 in
      (true, set_is_inviting true L2, Some (p :: ps))
  end.

End Filter.

(** [self.stop_inviting()], without the wait for the thread. *)
Definition stop_inviting (L : logic) : bool * logic :=
  if is_inviting L
  then (true, set_is_inviting false (log StoppingInvitation L))
  else (false, log NoInvitationRunning L).

End Logic.

(* ================================================================== *)
(** * VRChatLogic._invite_thread_pool                                  *)
(* ================================================================== *)

Module Dispatch.

Import Text Model Logic.

(** The remote service, as the answers it gives when asked:
    [groups_api.get_group_member(group_id, user_id)], with the truth value
    of the membership returned; [groups_api.get_group_invites(group_id)],
    with the user ids of [response.data] ([None] for a falsy response or
    one without [data]); [groups_api.create_group_invite(...)]. *)
Record remote : Type := mkRemote {
  get_group_member : string -> answer bool;
  get_group_invites : answer (option (list string));
  create_group_invite : string -> answer unit
}.

(** The calls a worker has issued. *)
Inductive call : Type :=
| GetGroupMember (group_id user_id : string)
| GetGroupInvites (group_id : string)
| CreateGroupInvite (group_id user_id : string).

(** What the workers of one run share: the object ([self.is_inviting],
    the message sink), the queue, the three counters, and the calls
    issued so far, the latest first. *)
Record shared : Type := mkShared {
  self : logic;
  player_queue : list player;
  invited_count : nat;
  failed_count : nat;
  skipped_count : nat;
  calls : list call
}.

Definition say (m : log_msg) (S : shared) : shared :=
  mkShared (log m (self S)) (player_queue S) (invited_count S)
           (failed_count S) (skipped_count S) (calls S).

Definition issue (c : call) (S : shared) : shared :=
  mkShared (self S) (player_queue S) (invited_count S) (failed_count S)
           (skipped_count S) (c :: calls S).

Definition set_queue (q : list player) (S : shared) : shared :=
  mkShared (self S) q (invited_count S) (failed_count S) (skipped_count S)
           (calls S).

Definition incr_invited (S : shared) : shared :=
  mkShared (self S) (player_queue S) (1 + invited_count S) (failed_count S)
           (skipped_count S) (calls S).

Definition incr_failed (S : shared) : shared :=
  mkShared (self S) (player_queue S) (invited_count S) (1 + failed_count S)
           (skipped_count S) (calls S).

Definition incr_skipped (S : shared) : shared :=
  mkShared (self S) (player_queue S) (invited_count S) (failed_count S)
           (1 + skipped_count S) (calls S).

Definition set_self (L : logic) (S : shared) : shared :=
  mkShared L (player_queue S) (invited_count S) (failed_count S)
           (skipped_count S) (calls S).

Section Worker.

Variable group_id : string.
Variable total_players : nat.
Variable delay : nat.

(** The messages that follow an [ApiException] of the invite call. *)
Definition api_exception_details (e : exn) (S : shared) : shared :=
  match e with
  | ApiException status (Some (String c b)) =>
      say (ResponseBody (String c b)) (say (ApiExceptionStatus status) S)
  | ApiException status _ => say (ApiExceptionStatus status) S
  | _ => S
  end.

(** The outer [except Exception] of the body of the loop. *)
Definition unexpected (p : player) (e : exn) (S : shared) : shared :=
  say ExceptionDetails (say (UnexpectedErrorInviting p e) (incr_failed S)).

Section Body.

Variable r : remote.

(** The membership check; the result is [should_invite], or the
    exception that leaves the inner [try]. *)
Definition check_membership (p : player) (S : shared)
  : shared * (exn + bool) :=
  let S1 := issue (GetGroupMember group_id (id p))
                  (say (CheckingMembership p group_id) S) in
  match get_group_member r (id p) with
  | Returned true =>
      let S2 := incr_skipped S1 in
      (say (SkippedAlreadyInGroup p (invited_count S2) total_players) S2,
       inr false)
  | Returned false => (S1, inr true)
  | Raised (ApiException status body) =>
      if (status =? 404)%nat
      then (say (NotInGroup p group_id) S1, inr true)
      else (say (ErrorCheckingMembership p (ApiException status body)) S1,
            inr true)
  | Raised e => (S1, inl e)
  end.

(** The pending-invite check, made when [should_invite] still holds. *)
Definition check_pending (p : player) (S : shared)
  : shared * (exn + bool) :=
  let S1 := issue (GetGroupInvites group_id)
                  (say (CheckingPending p group_id) S) in
  match get_group_invites r with
  | Returned (Some pending_invites) =>
      if py_in (id p) pending_invites then
        let S2 := incr_skipped S1 in
        (say (SkippedPendingInvite p (invited_count S2) total_players) S2,
         inr false)
      else (say (NoPendingInvite p group_id) S1, inr true)
  | Returned None => (S1, inr true)
  | Raised (ApiException status body) =>
      (say (ErrorCheckingPending p (ApiException status body)) S1,
       inr true)
  | Raised e => (S1, inl e)
  end.

(** The invite itself, sent when [should_invite] still holds. *)
Definition send_invite (p : player) (S : shared) : shared :=
  let S1 := issue (CreateGroupInvite group_id (id p))
                  (say (SendingInvite p group_id) S) in
  match create_group_invite r (id p) with
  | Returned _ =>
      let S2 := incr_invited (say InviteResponse S1) in
      say (Invited p (invited_count S2) total_players) S2
  | Raised (ApiException status body) =>
      let e := ApiException status body in
      let S2 := incr_failed (say (ApiExceptionInviting p e) S1) in
      api_exception_details e (say (FailedToInvite p e) S2)
  | Raised e =>
      let S2 := incr_failed (say (UnexpectedErrorInviting p e) S1) in
      say ExceptionDetails (say (FailedToInvite p e) S2)
  end.

(** The body of the loop for one player taken from the queue: from
    [should_invite = True] to the end of the inner [try]. *)
Definition process_player (p : player) (S : shared) : shared :=
  match check_membership p S with
  | (S1, inl e) => unexpected p e S1
  | (S1, inr false) => S1
  | (S1, inr true) =>
      match check_pending p S1 with
      | (S2, inl e) => unexpected p e S2
      | (S2, inr false) => S2
      | (S2, inr true) => send_invite p S2
      end
  end.

(** The program points of [worker]. *)
Inductive pc : Type :=
| AtWhile                (* while not player_queue.empty() and self.is_inviting *)
| AtCheckBeforeGet       (* if not self.is_inviting: break *)
| AtGet                  (* player = player_queue.get(block=False) *)
| AtCheckBeforeProcess (p : player)
                         (* if not self.is_inviting: put back; break *)
| AtProcess (p : player) (* the inner try *)
| AtCheckBeforeWait      (* if not self.is_inviting: break *)
| AtSleep                (* time.sleep(delay) *)
| Exited.

(** One step of one worker from a program point. *)
Definition worker_step (c : pc) (S : shared) : shared * pc :=
  match c with
  | AtWhile =>
      match player_queue S with
      | [] => (S, Exited)
      | _ :: _ => if is_inviting (self S) then (S, AtCheckBeforeGet)
                  else (S, Exited)
      end
  | AtCheckBeforeGet =>
      if is_inviting (self S) then (S, AtGet) else (S, Exited)
  | AtGet =>
      match player_queue S with
      | [] =>
          (say ExceptionDetails (say (WorkerThreadError QueueEmpty) S),
           Exited)
      | p :: q =>
          (say (ProcessingPlayer p) (set_queue q S),
           AtCheckBeforeProcess p)
      end
  | AtCheckBeforeProcess p =>
      if is_inviting (self S) then (S, AtProcess p)
      else (set_queue (player_queue S ++ [p])%list S, Exited)
  | AtProcess p => (process_player p S, AtCheckBeforeWait)
  | AtCheckBeforeWait =>
      if is_inviting (self S)
      then (say (WaitingBeforeNext delay) S, AtSleep)
      else (S, Exited)
  | AtSleep => (S, AtWhile)
  | Exited => (S, Exited)
  end.

End Body.

(** The pool: what is shared, and the program point of each worker. *)
Definition pool : Type := shared * list pc.

(** [l[i] = c] *)
Fixpoint set_nth (i : nat) (c : pc) (l : list pc) : list pc :=
  match i, l with
  | _, [] => []
  | O, _ :: l' => c :: l'
  | S i', x :: l' => x :: set_nth i' c l'
  end.

(** A move of a worker: one that has not exited makes its next step,
    against whatever the remote service answers at that moment (an answer
    [allowed] by the situation under study). *)
Inductive worker_move (allowed : remote -> Prop) : pool -> pool -> Prop :=
| move_worker : forall (r : remote) (S S' : shared) (ws : list pc)
                       (i : nat) (c c' : pc),
    allowed r ->
    nth_error ws i = Some c ->
    c <> Exited ->
    worker_step r c S = (S', c') ->
    worker_move allowed (S, ws) (S', set_nth i c' ws).

(** A move of a run whose flag other threads clear and set: a move of a
    worker; [stop_inviting] called from another thread; or a new start
    from another thread while the workers of this run are still there.
    [invite_instance_players_to_group] sets the flag at its end whether or
    not a run is going on, when it has players to hand over;
    [invite_players] sets it when it finds it cleared. *)
Inductive step (allowed : remote -> Prop) : pool -> pool -> Prop :=
| step_worker : forall s s', worker_move allowed s s' -> step allowed s s'
| step_stop : forall (S : shared) (ws : list pc),
    step allowed (S, ws) (set_self (snd (stop_inviting (self S))) S, ws)
| step_start : forall (S : shared) (ws : list pc) (uid : string)
                      (members pending : list string) (now : instant)
                      (dwell : Z) (pwt : list (player * instant))
                      (L : logic) (handed : list player),
    invite_filtered uid members pending now dwell pwt (self S)
    = (true, L, Some handed) ->
    step allowed (S, ws) (set_self L S, ws)
| step_start_players : forall (S : shared) (ws : list pc),
    is_inviting (self S) = false ->
    step allowed (S, ws) (set_self (set_is_inviting true (self S)) S, ws).

(** The moves of a run during which no other run is started. *)
Inductive step_of_one_run (allowed : remote -> Prop) : pool -> pool -> Prop :=
| one_run_worker : forall s s',
    worker_move allowed s s' -> step_of_one_run allowed s s'
| one_run_stop : forall (S : shared) (ws : list pc),
    step_of_one_run allowed (S, ws)
                    (set_self (snd (stop_inviting (self S))) S, ws).

(** A run: any number of moves. *)
Inductive run (move : pool -> pool -> Prop) : pool -> pool -> Prop :=
| run_done : forall s, run move s s
| run_move : forall s1 s2 s3,
    move s1 s2 -> run move s2 s3 -> run move s1 s3.

(** The players the workers hold: taken from the queue and not yet past
    the second check of the flag; and those being processed. *)
Definition held (ws : list pc) : list player :=
  flat_map (fun c => match c with
                     | AtCheckBeforeProcess p => [p]
                     | _ => []
                     end) ws.

Definition in_process (ws : list pc) : list player :=
  flat_map (fun c => match c with
                     | AtProcess p => [p]
                     | _ => []
                     end) ws.

(** A worker running alone for at most [fuel] steps. *)
Fixpoint alone (r : remote) (fuel : nat) (c : pc) (S : shared)
  : shared * pc :=
  match fuel with
  | O => (S, c)
  | Datatypes.S fuel' =>
      match c with
      | Exited => (S, c)
      | _ => let (S', c') := worker_step r c S in alone r fuel' c' S'
      end
  end.

(** [range(min(max_threads, total_players))] workers are started. *)
Fixpoint start_workers (i n : nat) (S : shared) : shared :=
  match i with
  | O => S
  | S i' => say (StartingWorker i n) (start_workers i' n S)
  end.

(** The joins at the end: two messages per worker. *)
Fixpoint join_workers (i n : nat) (S : shared) : shared :=
  match i with
  | O => S
  | S i' =>
      say (WorkerCompleted i n)
          (say (WaitingForWorker i n) (join_workers i' n S))
  end.

Definition all_exited (ws : list pc) : bool :=
  forallb (fun c => match c with Exited => true | _ => false end) ws.

(** The call sends an invite. *)
Definition is_create (c : call) : bool :=
  match c with
  | CreateGroupInvite _ _ => true
  | _ => false
  end.

(** The completion message. *)
Definition completion_message (S : shared) : log_msg :=
  if negb (is_inviting (self S))
  then InvitationStopped (invited_count S) total_players (failed_count S)
                         (skipped_count S)
  else InvitationCompleted (invited_count S) total_players (failed_count S)
                           (skipped_count S).

End Worker.

(** [_invite_thread_pool], up to the start of the workers: the pool a run
    starts from.  Each run has counters of its own, at zero. *)
Definition pool_start (group_id : string) (players : list player)
    (max_threads : nat) (L : logic) : pool :=
  let total_players := List.length players in
  let n := Nat.min max_threads total_players in
  let S0 := mkShared (log (StartingPool total_players group_id) L)
                     players 0 0 0 [] in
  (start_workers n n S0, repeat AtWhile n).

(** [_invite_thread_pool], after the joins: the completion message is
    chosen, [self.is_inviting] is cleared, the message is logged. *)
Definition pool_finish (total_players : nat) (s : pool) : shared :=
  let n := List.length (snd s) in
  let S1 := join_workers n n (fst s) in
  let m := completion_message total_players S1 in
  say m (set_self (set_is_inviting false (self S1)) S1).

End Dispatch.

(* ================================================================== *)
(** * The notions of the specification                                 *)
(* ================================================================== *)

(** The specification speaks of an event extractor, of the application of
    an event, of a presence snapshot and of a backfill.  The source has no
    such functions: [_process_log_line] does the first two at once.  The
    definitions below follow the specification's words; the lemmas further
    down compare them with the definitions made from the source. *)

Module Spec.

Import Text Model Callbacks Watcher Logic Dispatch.

(** LogEvent.  [raw] is the timestamp as the line has it. *)
Inductive log_event : Type :=
| SessionChanged (session_id raw : string)
| UserEntered (user_id display_name : string) (at_time : datetime)
              (raw : string)
| UserLeft (user_id display_name : string) (at_time : datetime)
           (raw : string).

(** EventExtractor: zero or one event per line, the three patterns in
    priority order. *)
Definition extract (line : string) : option log_event :=
  if is_instance_line line then
    match instance_change line with
    | Some (raw, inst) => Some (SessionChanged inst raw)
    | None => None
    end
  else if contains "[Behaviour] OnPlayerJoined" line then
    match timestamp_match line, player_match "OnPlayerJoined" line with
    | Some raw, Some (nm, pid) =>
        match strptime raw with
        | Some t => Some (UserEntered pid nm t raw)
        | None => None
        end
    | _, _ => None
    end
  else if contains "[Behaviour] OnPlayerLeft" line then
    match timestamp_match line, player_match "OnPlayerLeft" line with
    | Some raw, Some (nm, pid) =>
        match strptime raw with
        | Some t => Some (UserLeft pid nm t raw)
        | None => None
        end
    | _, _ => None
    end
  else None.

(** PresenceTracker.apply. *)
Definition apply (e : log_event) (L : logic) : logic :=
  match e with
  | SessionChanged inst raw =>
      on_instance_change inst
        (with_watcher (set_player_events [])
           (log (InstanceChangedTo inst raw)
              (with_watcher (set_current_instance (Some inst)) L)))
  | UserEntered pid nm t raw =>
      on_player_join pid nm t
        (log (PlayerJoined nm pid raw)
           (with_watcher
              (set_player_events
                 (append_join pid t
                    (ensure_events pid nm (player_events (log_watcher L)))))
              L))
  | UserLeft pid nm t raw =>
      on_player_leave pid nm t
        (log (PlayerLeft nm pid raw)
           (with_watcher
              (set_player_events
                 (append_leave pid t
                    (ensure_events pid nm (player_events (log_watcher L)))))
              L))
  end.

(** Applying a sequence of lines, in order. *)
Definition process_lines (lines : list string) (L : logic) : logic :=
  fold_left (fun L' line => _process_log_line line L') lines L.

(** What the presence tracker holds: the session, the user records, and
    the join times kept by [on_player_join] and [on_player_leave]. *)
Definition tracker (L : logic)
  : option string * dict events * dict datetime :=
  (current_instance (log_watcher L), player_events (log_watcher L),
   _player_join_times L).

(** A user is present: tracked, with more joins than leaves. *)
Definition present (pid : string) (d : dict events) : bool :=
  match dict_get pid d with
  | Some ev => (List.length (leaves ev) <? List.length (joins ev))%nat
  | None => false
  end.

(** The ids of the snapshot, and the join time it reports for an id. *)
Definition snapshot_ids (L : logic) : list string :=
  map id (fst (get_active_players L)).

Definition joined_at (pid : string) (L : logic) : option datetime :=
  dict_get pid (snd (get_active_players L)).

(** A record keeps the invariant of the specification: no more leaves than
    joins. *)
Definition balanced (ev : events) : Prop :=
  (List.length (leaves ev) <= List.length (joins ev))%nat.

Definition all_balanced (d : dict events) : Prop :=
  Forall (fun kv => balanced (snd kv)) d.

(** The record counts as present. *)
Definition more_joins (ev : events) : bool :=
  (List.length (leaves ev) <? List.length (joins ev))%nat.

(** Every leave line of the sequence names a user who is present when the
    line is applied. *)
Fixpoint leaves_matched (lines : list string) (L : logic) : bool :=
  match lines with
  | [] => true
  | line :: rest =>
      match extract line with
      | Some (UserLeft pid _ _ _) =>
          present pid (player_events (log_watcher L))
      | _ => true
      end
      && leaves_matched rest (_process_log_line line L)
  end.

(** The most recent session change, the last one winning among equals. *)
Fixpoint latest_from (best : datetime * string)
    (cs : list (datetime * string)) : datetime * string :=
  match cs with
  | [] => best
  | c :: cs' => latest_from (if dt_ltb (fst c) (fst best) then best else c)
                            cs'
  end.

Definition latest_change (cs : list (datetime * string))
  : option (datetime * string) :=
  match cs with
  | [] => None
  | c :: cs' => Some (latest_from c cs')
  end.

(** The last element of a list is not earlier than any element of it. *)
Definition last_is_latest (l : list (datetime * string)) : Prop :=
  forall d y, In y l -> dt_ltb (fst (last l d)) (fst y) = false.

(** The order in which a sorted list of changes stands. *)
Definition time_le (a b : datetime * string) : Prop :=
  dt_leb (fst a) (fst b) = true.

(** The changes made at the time [t]. *)
Definition at_time (t : datetime) (c : datetime * string) : bool :=
  (rank (fst c) =? rank t)%Z.

(** The line announces a session change: it has the two words, a text of
    the timestamp shape and a session token. *)
Definition is_change (line : string) : bool :=
  is_instance_line line
  && match instance_change line with
     | Some _ => true
     | None => false
     end.

(** The line carries a timestamp that is not before [since]. *)
Definition not_before (since : datetime) (line : string) : bool :=
  match timestamp_match line with
  | Some raw =>
      match strptime raw with
      | Some t => negb (dt_ltb t since)
      | None => false
      end
  | None => false
  end.

(** Every timestamp a line shows is a date [strptime] accepts. *)
Definition dates_ok (line : string) : bool :=
  match timestamp_match line with
  | Some raw =>
      match strptime raw with
      | Some _ => true
      | None => false
      end
  | None => true
  end.

(** The lines up to the first one that shows a timestamp [strptime]
    refuses. *)
Fixpoint up_to_bad_date (lines : list string) : list string :=
  match lines with
  | [] => []
  | line :: rest => if dates_ok line then line :: up_to_bad_date rest else []
  end.

(** A valid leading timestamp: the line begins with a text of the shape
    YYYY.MM.DD HH:MM:SS that is a date. *)
Definition leading_timestamp (line : string) : option datetime :=
  match shape timestamp_pattern line with
  | Some raw => strptime raw
  | None => None
  end.

(** The first text of the shape YYYY.MM.DD HH:MM:SS in the line, at
    whatever position, when it is a date. *)
Definition first_timestamp (line : string) : option datetime :=
  match timestamp_match line with
  | Some raw => strptime raw
  | None => None
  end.

(** A state of a run in which nothing has been invited, no invite call
    has been issued, and every player in play is [p]. *)
Definition only_skips (p : player) (s : pool) : Prop :=
  invited_count (fst s) = 0%nat
  /\ (forall c, In c (calls (fst s)) -> is_create c = false)
  /\ (forall q, In q (player_queue (fst s)) -> q = p)
  /\ (forall q, In q (held (snd s)) -> q = p)
  /\ (forall q, In q (in_process (snd s)) -> q = p).

(** The remote service answers that [p] is a member of the group. *)
Definition is_member (p : player) (r : remote) : Prop :=
  get_group_member r (id p) = Returned true.

(** The filter as the specification words it: a present player stays
    unless one of the four exclusions applies.  The fourth is on the exact
    time in the instance: less than [min_dwell] seconds, in
    microseconds. *)
Definition excluded (self_id : string) (members pending : list string)
    (now : instant) (min_dwell : Z) (entry : player * instant) : bool :=
  String.eqb (id (fst entry)) self_id
  || py_in (id (fst entry)) members
  || py_in (id (fst entry)) pending
  || (now - snd entry <? min_dwell * 1000000)%Z.

Definition eligible (self_id : string) (members pending : list string)
    (now : instant) (min_dwell : Z) (present_players : list (player * instant))
  : list player :=
  map fst
      (filter (fun e => negb (excluded self_id members pending now min_dwell e))
              present_players).

End Spec.

(* ================================================================== *)
(** * Sample log lines and states                                      *)
(* ================================================================== *)

Module Samples.

Import Text Model Logic Dispatch.

Definition nl : string := String "010" EmptyString.

Definition room1_0900 : string :=
  "2024.01.01 09:00:00 Log        -  [Behaviour] Joining or Creating Room: wrld_1:100" ++ nl.

Definition alice_joins_0930 : string :=
  "2024.01.01 09:30:00 Log        -  [Behaviour] OnPlayerJoined Alice (usr_alice)" ++ nl.

Definition room2_1000 : string :=
  "2024.01.01 10:00:00 Log        -  [Behaviour] Joining or Creating Room: wrld_2:200" ++ nl.

Definition bob_joins_1030 : string :=
  "2024.01.01 10:30:00 Log        -  [Behaviour] OnPlayerJoined Bob (usr_bob)" ++ nl.

Definition bob_joins_1045 : string :=
  "2024.01.01 10:45:00 Log        -  [Behaviour] OnPlayerJoined Bob (usr_bob)" ++ nl.

Definition bob_leaves_1100 : string :=
  "2024.01.01 11:00:00 Log        -  [Behaviour] OnPlayerLeft Bob (usr_bob)" ++ nl.

(** The timestamp is there, but not at the start of the line. *)
Definition bob_joins_stamp_inside : string :=
  "Log        -  2024.01.01 10:30:00 [Behaviour] OnPlayerJoined Bob (usr_bob)" ++ nl.

(** No timestamp at all. *)
Definition bob_joins_no_stamp : string :=
  "Log        -  [Behaviour] OnPlayerJoined Bob (usr_bob)" ++ nl.

(** A session change and a join whose month is 13. *)
Definition room3_bad_month : string :=
  "2024.13.01 12:00:00 Log        -  [Behaviour] Joining or Creating Room: wrld_3:300" ++ nl.

Definition bob_joins_bad_month : string :=
  "2024.13.01 09:15:00 Log        -  [Behaviour] OnPlayerJoined Bob (usr_bob)" ++ nl.

(** The four lines of the backfill example, as one file. *)
Definition two_sessions : string :=
  room1_0900 ++ alice_joins_0930 ++ room2_1000 ++ bob_joins_1030.

Definition t0900 : datetime := mkdt 2024 1 1 9 0 0.
Definition t0930 : datetime := mkdt 2024 1 1 9 30 0.
Definition t1000 : datetime := mkdt 2024 1 1 10 0 0.
Definition t1030 : datetime := mkdt 2024 1 1 10 30 0.
Definition t1045 : datetime := mkdt 2024 1 1 10 45 0.
Definition t1100 : datetime := mkdt 2024 1 1 11 0 0.

(** Five players of an instance with their join times, in microseconds;
    at [now_us] the last one has been there for two seconds. *)
Definition now_us : Z := 100000000.

Definition five_present : list (player * Z) :=
  [(mkPlayer "usr_a" "A", 10000000%Z); (mkPlayer "usr_b" "B", 10000000%Z);
   (mkPlayer "usr_c" "C", 10000000%Z); (mkPlayer "usr_d" "D", 10000000%Z);
   (mkPlayer "usr_e" "E", 98000000%Z)].

(** The log directory holds [output_log.txt]; the answer leaves the state
    as it is but for the messages, which are not modelled here. *)
Definition finds_log (L : logic) : option string * logic :=
  (Some "output_log.txt", L).

(** File systems in which that file is missing, and in which it exists
    but cannot be opened. *)
Definition fs_missing (path : string) : file_status := Missing.

Definition fs_unreadable (path : string) : file_status := Unreadable 320.

(** A watcher that is running and has read 500 characters. *)
Definition watching_at_500 : logic :=
  with_watcher (fun _ => mkWatcher (Some "output_log.txt") 500 true None [])
               logic_init.

(** A remote service for which nobody is a member and nobody has a
    pending invite, and one for which everybody is a member. *)
Definition nobody_member : remote :=
  mkRemote (fun _ => Raised (ApiException 404 None)) (Returned (Some []))
           (fun _ => Returned tt).

Definition everybody_member : remote :=
  mkRemote (fun _ => Returned true) (Returned (Some []))
           (fun _ => Returned tt).

Definition dora : player := mkPlayer "usr_d" "D".

Definition erin : player := mkPlayer "usr_e" "E".

(** Both have been in the instance since the origin of the time line. *)
Definition dora_and_erin : list (player * Z) := [(dora, 0%Z); (erin, 0%Z)].

(** A minimum dwell time above 2^34 seconds, and a player who at
    [long_after] has been in the instance for one microsecond less. *)
Definition long_dwell : Z := 20000000000.

Definition long_after : Z := 19999999999999999.

Definition dora_since_0 : list (player * Z) := [(dora, 0%Z)].

(** A client that is logged in. *)
Definition logged_in : logic :=
  mkLogic (Some 1) (Some 2) (Some 3) (Some 4) (Some 5) (Some "usr_me")
          true false watcher_init [] [].

(** A client in the middle of an invitation run, and what its workers
    share when the queue holds one player and the flag has been cleared. *)
Definition inviting : logic := set_is_inviting true logged_in.

Definition cancelled_with_dora : shared :=
  mkShared logged_in [dora] 0 0 0 [].

End Samples.

(* ================================================================== *)
(** * class VRChatLogic, further methods                               *)
(* ================================================================== *)

(** The methods below log messages the modules above have no constructor
    for.  They go to the same sink; here they are kept in a list of their
    own, [notes], beside the object. *)

Module Further.

Import Text Model Callbacks Watcher Logic.

Inductive note : Type :=
| MustBeLoggedIn                   (* "You must be logged in first" *)
(* is_instance_from_group *)
| NotAGroupInstance (inst : string)(* "Instance {} is not a group instance" *)
| InstanceBelongsTo (inst group : string)
                                   (* "Instance {} belongs to group {}" *)
| InstanceBelongsToOther (inst other group : string)
                                   (* "Instance {} belongs to group {}, not {}" *)
(* get_current_instance *)
| NotInAnyInstance                 (* "User is not in any instance" *)
| InvalidLocation (location : string)
                                   (* "Invalid location format: {}" *)
| CurrentInstanceId (inst : string)(* "Current instance ID: {}" *)
| ErrorGettingInstance (e : exn)   (* "Error getting current instance: {}" *)
(* get_group_members *)
| FoundMembers (n : nat) (group : string)
                                   (* "Found {} members in group {}" *)
| FailedToGetMembers (e : exn)     (* "Failed to get group members: {}" *)
(* is_current_user_in_group *)
| CheckingOwnMembership (user group : string)
                                   (* "Checking if current user ({}) is a member of group {}..." *)
| IsMember (group : string)        (* "Current user is a member of group {}" *)
| IsNotMember (group : string)     (* "Current user is NOT a member of group {}" *)
| ErrorCheckingOwnMembership (e : exn)
                                   (* "Error checking group membership: {}" *)
| OwnMembershipStatus (status : nat)
                                   (* "API Exception details - Status: {}, Reason: {}" *)
| OwnMembershipBody (body : string)(* "Response body: {}" *)
| UnexpectedOwnMembership (e : exn)(* "Unexpected error checking group membership: {}" *)
(* stop_log_watching, cleanup *)
| WatcherNotRunning                (* "Log watcher is not running" *)
| CleaningUp                       (* "Cleaning up resources..." *)
| CleanupComplete                  (* "Cleanup complete" *)
(* get_players_in_instance *)
| UsingOneTimeScan                 (* "Log watcher is not running. Using one-time log scan instead." *)
| NoLogFile                        (* "Could not find VRChat log file" *)
| NoActivePlayers                  (* "No active players found in the current instance" *)
| FoundActivePlayers (n : nat)     (* "Found {} active players in the current instance" *)
| ActivePlayerLine (p : player) (joined : option datetime)
                                   (* "  - {} ({}): in instance for {}" *)
| ErrorGettingPlayers (e : exn)    (* "Error getting players from log watcher: {}" *)
| Traceback                        (* "Exception details: {}" *)
(* get_players_in_instance_with_times *)
| GettingPlayersAndTimes (inst : option string)
                                   (* "Getting players and join times for instance {}" *)
| NoPlayersInLogs                  (* "No players found in the instance logs" *)
| ProcessingJoinTimes (n : nat)    (* "Processing join times for {} players:" *)
| JoinedAt (p : player) (joined : datetime)
                                   (* "  - {} ({}): joined at {}, in instance for {:.1f} seconds" *)
| NoJoinTime (p : player)          (* "  - {} ({}): No join time found, using current time" *)
(* _parse_vrchat_logs_for_players *)
| ParsingLogFile (path : string)   (* "Parsing log file: {}" *)
| LogLastModified                  (* "Log file last modified: {}" *)
| ScanningForInstance              (* "Scanning log file for instance information..." *)
| FoundInstanceChange (ts inst : string)
                                   (* "Found instance change at {}: {}" *)
| NoInstanceInLogs                 (* "Could not find current instance in logs" *)
| InstanceFromLogs (inst : string) (* "Current instance from logs: {}" *)
| InstanceMismatch (given found : string)
                                   (* "Warning: Provided instance ID ({}) doesn't match instance found in logs ({})" *)
| UsingInstanceFromLogs (inst : string)
                                   (* "Using instance from logs: {}" *)
| ScanningForEvents (inst : string)(* "Scanning log file for player join/leave events in instance {}..." *)
| FoundPlayerJoin (nm pid ts : string)
                                   (* "Found player join: {} ({}) at {}" *)
| FoundPlayerLeave (nm pid ts : string)
                                   (* "Found player leave: {} ({}) at {}" *)
| ActivePlayerFound (nm pid : string) (joined : datetime)
                                   (* "Active player: {} ({}), in instance for {:.1f} seconds" *)
| FoundActiveIn (n : nat) (inst : string)
                                   (* "Found {} active players in instance {}" *)
| NoActiveIn (inst : string)       (* "No active players found in instance {}" *)
| ErrorParsing (e : exn)           (* "Error parsing VRChat logs: {}" *)
(* _get_vrchat_log_path *)
| FoundLogDirectory (path : string)(* "Found VRChat log directory: {}" *)
| NoLogDirectory                   (* "Could not find VRChat log directory. Checked paths:" *)
| CheckedPath (path : string)      (* "  - {}" *)
| NoLogFiles                       (* "No VRChat log files found in directory" *)
| FoundLogFiles (n : nat)          (* "Found {} VRChat log files:" *)
| LogFileInfo (i : nat) (filename : string)
                                   (* "  {}. {} - Last modified: {}, Size: {:.2f} KB" *)
| UsingMostRecent (path : string)  (* "Using most recent log file: {}" *)
| LogFileIsOld                     (* "WARNING: Latest log file is {:.1f} minutes old. VRChat may not be running or logs may not be updating." *)
| LogFileIsCurrent                 (* "Log file is current (last modified {:.1f} seconds ago)" *)
| ErrorFindingLog (e : exn)        (* "Error finding VRChat log file: {}" *)
(* invite_players *)
| VRChatNotRunning                 (* "VRChat does not appear to be running. Please start VRChat before sending invites." *)
| NotAMemberOf (group : string)    (* "You are not a member of group {}. You can only invite players to groups you are a member of." *)
| NoCurrentInstance                (* "Could not determine current instance" *)
| NotInGroupInstance (group : string)
                                   (* "You are not in a group instance for group {}. You can only invite players when you are in an instance of the group you're inviting to." *)
| AlreadyInviting                  (* "Already inviting players, please wait or stop the current process" *)
(* _invite_players_thread *)
| StartingToInvite (total : nat) (group : string)
                                   (* "Starting to invite {} players to group {}" *)
| VRChatClosed                     (* "VRChat appears to have closed. Stopping invite process." *)
(* invite_instance_players_to_group *)
| GroupIdRequired                  (* "Group ID is required" *)
| OneTimeScanForDetection          (* "Log watcher is not running. Using one-time log scan for player detection." *)
| NoPlayersInInstance              (* "No players found in the instance" *)
| GettingMembers (group : string)  (* "Getting members of group {}..." *)
| GettingPendingInvites (group : string)
                                   (* "Getting pending invites for group {}..." *)
| FoundPendingInvites (n : nat) (group : string)
                                   (* "Found {} pending invites for group {}" *)
| ErrorGettingPending (e : exn)    (* "Error getting pending invites: {}" *)
| ContinueWithoutPending           (* "Will continue without checking pending invites" *)
| ProcessingPlayers (n : nat) (inst : option string)
                                   (* "Processing {} players found in instance {}:" *)
| PlayerStatus (p : player) (you member pending wait : bool).
                                   (* "  - {} ({}): in instance for {:.1f} seconds{status}" *)

(** The object and the messages of the methods of this module, the latest
    first. *)
Record app : Type := mkApp {
  obj : logic;
  notes : list note
}.

Definition say (m : note) (a : app) : app := mkApp (obj a) (m :: notes a).

Definition on_obj (f : logic -> logic) (a : app) : app :=
  mkApp (f (obj a)) (notes a).

(** The truth value of a [str] or [None]. *)
Definition truthy (s : option string) : bool :=
  match s with
  | None => false
  | Some EmptyString => false
  | Some _ => true
  end.

(** ** is_instance_from_group *)

(** [s.split('~')[0]] *)
Fixpoint before_tilde (s : string) : string :=
  match s with
  | EmptyString => EmptyString
  | String c s' =>
      if Ascii.eqb c "~" then EmptyString else String c (before_tilde s')
  end.

(** [s.replace('grp_', '')]: every occurrence, from the left, without
    overlap. *)
Fixpoint remove_grp (s : string) : string :=
  match s with
  | EmptyString => EmptyString
  | String c1 s1 =>
      match s1 with
      | String c2 (String c3 (String c4 rest)) =>
          if Ascii.eqb c1 "g" && Ascii.eqb c2 "r" && Ascii.eqb c3 "p"
             && Ascii.eqb c4 "_"
          then remove_grp rest
          else String c1 (remove_grp s1)
      | _ => String c1 (remove_grp s1)
      end
  end.

(** [instance_id.startswith('grp_')] *)
Definition starts_with_grp (s : string) : bool :=
  match literal "grp_" s with
  | Some _ => true
  | None => false
  end.

(** [self.is_instance_from_group(instance_id, group_id)] *)
Definition is_instance_from_group (instance_id group_id : option string)
    (a : app) : bool * app :=
  match instance_id, group_id with
  | Some inst, Some group =>
      if negb (truthy instance_id) || negb (truthy group_id) then (false, a)
      else if negb (starts_with_grp inst)
      then (false, say (NotAGroupInstance inst) a)
      else
        let instance_group_id := remove_grp (before_tilde inst) in
        if String.eqb instance_group_id group
        then (true, say (InstanceBelongsTo inst group) a)
        else (false,
              say (InstanceBelongsToOther inst instance_group_id group) a)
  | _, _ => (false, a)
  end.

(** ** get_current_instance *)

(** [location.split(':', 1)[1]]; [None] when [':' not in location]. *)
Fixpoint after_colon (s : string) : option string :=
  match s with
  | EmptyString => None
  | String c s' => if Ascii.eqb c ":" then Some s' else after_colon s'
  end.

(** [self.get_current_instance()].  [get_user] is how
    [self.users_api.get_user(self.current_user.id)] ends, with the
    [location] of the user returned ([None] for a falsy user or one
    without [location]). *)
Definition get_current_instance (get_user : answer (option string))
    (a : app) : option string * app :=
  if negb (is_logged_in (obj a)) then (None, say MustBeLoggedIn a)
  else
    match current_user (obj a) with
    | None => (None, say (ErrorGettingInstance OtherError) a)
    | Some _ =>
        match get_user with
        | Raised e => (None, say (ErrorGettingInstance e) a)
        | Returned location =>
            if negb (truthy location) then (None, say NotInAnyInstance a)
            else
              match location with
              | None => (None, say NotInAnyInstance a)
              | Some loc =>
                  match after_colon loc with
                  | None => (None, say (InvalidLocation loc) a)
                  | Some inst => (Some inst, say (CurrentInstanceId inst) a)
                  end
              end
        end
    end.

(** ** get_group_members *)

(** How one request for a page ends: the users of the page, by their ids
    ([None] for a falsy page or one without [users]). *)
Definition page_answer : Type := answer (option (list string)).

(** The [while True] of [get_group_members], with [limit = 100].  The loop
    ends when the service does; [None] is a loop still running when the
    fuel is used up. *)
Fixpoint members_loop (fuel : nat) (pages : nat -> page_answer)
    (offset : nat) (members : list string) : option (answer (list string)) :=
  match fuel with
  | O => None
  | S fuel' =>
      match pages offset with
      | Raised e => Some (Raised e)
      | Returned None => Some (Returned members)
      | Returned (Some []) => Some (Returned members)
      | Returned (Some users) =>
          if (List.length users <? 100)%nat
          then Some (Returned (members ++ users)%list)
          else members_loop fuel' pages (offset + 100)
                            (members ++ users)%list
      end
  end.

(** [self.get_group_members(group_id)]: an [ApiException] is caught and
    gives the empty list; any other exception leaves the method. *)
Definition get_group_members (fuel : nat) (pages : nat -> page_answer)
    (group_id : string) (a : app) : option (answer (list string) * app) :=
  if negb (is_logged_in (obj a)) then Some (Returned [], say MustBeLoggedIn a)
  else
    match members_loop fuel pages 0 [] with
    | None => None
    | Some (Returned members) =>
        Some (Returned members,
              say (FoundMembers (List.length members) group_id) a)
    | Some (Raised (ApiException status body)) =>
        Some (Returned [],
              say (FailedToGetMembers (ApiException status body)) a)
    | Some (Raised e) => Some (Raised e, a)
    end.

(** ** is_current_user_in_group *)

(** [self.is_current_user_in_group(group_id)]; [membership] is how
    [self.groups_api.get_group_member(group_id, self.current_user.id)]
    ends, with the truth value of what it returns. *)
Definition is_current_user_in_group (membership : answer bool)
    (group_id : string) (a : app) : bool * app :=
  match is_logged_in (obj a), current_user (obj a) with
  | true, Some user =>
      let a1 := say (CheckingOwnMembership user group_id) a in
      match membership with
      | Returned true => (true, say (IsMember group_id) a1)
      | Returned false => (false, a1)
      | Raised (ApiException status body) =>
          if (status =? 404)%nat then (false, say (IsNotMember group_id) a1)
          else
            let a2 := say (OwnMembershipStatus status)
                          (say (ErrorCheckingOwnMembership
                                  (ApiException status body)) a1) in
            match body with
            | Some (String c b) => (false, say (OwnMembershipBody (String c b)) a2)
            | _ => (false, a2)
            end
      | Raised e => (false, say (UnexpectedOwnMembership e) a1)
      end
  | _, _ => (false, say MustBeLoggedIn a)
  end.

(** ** stop_log_watching, cleanup *)

(** [self.stop_log_watching()] *)
Definition stop_log_watching (a : app) : bool * app :=
  if is_watching (log_watcher (obj a))
  then (true, on_obj stop_watching a)
  else (true, say WatcherNotRunning a).

(** [self.cleanup()] *)
Definition cleanup (a : app) : app :=
  let a1 := say CleaningUp a in
  let a2 := if is_inviting (obj a1)
            then on_obj (fun L => snd (stop_inviting L)) a1
            else a1 in
  let a3 := snd (stop_log_watching a2) in
  say CleanupComplete a3.

(** ** _parse_vrchat_logs_for_players *)

(** First pass: [(current_instance, instance_change_time)] after the loop,
    or the [ValueError] of the first timestamp [strptime] refuses. *)
Fixpoint last_instance (lines : list string)
    (found : option (string * datetime)) (a : app)
  : app * (exn + option (string * datetime)) :=
  match lines with
  | [] => (a, inr found)
  | line :: rest =>
      if is_instance_line line then
        match instance_change line with
        | Some (timestamp_str, inst) =>
            match strptime timestamp_str with
            | None => (a, inl (ValueError timestamp_str))
            | Some t =>
                last_instance rest (Some (inst, t))
                              (say (FoundInstanceChange timestamp_str inst) a)
            end
        | None => last_instance rest found a
        end
      else last_instance rest found a
  end.

(** Second pass: the local [player_events] after the loop, or the
    [ValueError] that ended it. *)
Fixpoint parse_events (instance_change_time : datetime)
    (lines : list string) (d : dict events) (a : app)
  : app * (exn + dict events) :=
  match lines with
  | [] => (a, inr d)
  | line :: rest =>
      match timestamp_match line with
      | None => parse_events instance_change_time rest d a
      | Some timestamp_str =>
          match strptime timestamp_str with
          | None => (a, inl (ValueError timestamp_str))
          | Some timestamp =>
              if dt_ltb timestamp instance_change_time
              then parse_events instance_change_time rest d a
              else if contains "[Behaviour] OnPlayerJoined" line then
                match player_match "OnPlayerJoined" line with
                | Some (player_name, player_id) =>
                    parse_events instance_change_time rest
                      (append_join player_id timestamp
                         (ensure_events player_id player_name d))
                      (say (FoundPlayerJoin player_name player_id
                                            timestamp_str) a)
                | None => parse_events instance_change_time rest d a
                end
              else if contains "[Behaviour] OnPlayerLeft" line then
                match player_match "OnPlayerLeft" line with
                | Some (player_name, player_id) =>
                    parse_events instance_change_time rest
                      (append_leave player_id timestamp
                         (ensure_events player_id player_name d))
                      (say (FoundPlayerLeave player_name player_id
                                             timestamp_str) a)
                | None => parse_events instance_change_time rest d a
                end
              else parse_events instance_change_time rest d a
          end
      end
  end.

(** The loop over [player_events.items()], with [(active_players,
    player_join_times)] as the accumulator. *)
Fixpoint active_loop (d : dict events) (acc : list player * dict datetime)
    (a : app) : list player * dict datetime * app :=
  match d with
  | [] => (acc, a)
  | (player_id, ev) :: d' =>
      if (List.length (leaves ev) <? List.length (joins ev))%nat then
        match py_max (joins ev) with
        | Some latest_join =>
            active_loop d'
              ((fst acc ++ [mkPlayer player_id (name ev)])%list,
               dict_set player_id latest_join (snd acc))
              (say (ActivePlayerFound (name ev) player_id latest_join) a)
        | None => active_loop d' acc a
                           (* not reached: [joins] is not empty here *)
        end
      else active_loop d' acc a
  end.

(** The [except] branch of [_parse_vrchat_logs_for_players]. *)
Definition parse_failed (e : exn) (a : app) : list player * app :=
  ([], say Traceback (say (ErrorParsing e) a)).

(** [self._parse_vrchat_logs_for_players(log_path, instance_id)]; the file
    shows the same [f] at [os.path.getmtime] and at both [open] calls. *)
Definition _parse_vrchat_logs_for_players (f : file_status) (path : string)
    (instance_id : option string) (a : app) : list player * app :=
  let a1 := say (ParsingLogFile path) a in
  match f with
  | Missing => parse_failed OSError a1
  | Unreadable _ =>
      parse_failed OSError (say ScanningForInstance (say LogLastModified a1))
  | Readable c =>
      let a2 := say ScanningForInstance (say LogLastModified a1) in
      let lines := readlines c in
      match last_instance lines None a2 with
      | (a3, inl e) => parse_failed e a3
      | (a3, inr None) => ([], say NoInstanceInLogs a3)
      | (a3, inr (Some (current_instance, instance_change_time))) =>
          if negb (truthy (Some current_instance))
          then ([], say NoInstanceInLogs a3)
          else
            let a4 := say (InstanceFromLogs current_instance) a3 in
            let a5 :=
              match instance_id with
              | Some given =>
                  if truthy instance_id
                     && negb (String.eqb given current_instance)
                  then say (UsingInstanceFromLogs current_instance)
                           (say (InstanceMismatch given current_instance) a4)
                  else a4
              | None => a4
              end in
            let instance_id1 :=
              match instance_id with
              | Some given =>
                  if truthy instance_id then given else current_instance
              | None => current_instance
              end in
            let a6 := say (ScanningForEvents instance_id1) a5 in
            match parse_events instance_change_time lines [] a6 with
            | (a7, inl e) => parse_failed e a7
            | (a7, inr d) =>
                let '(active_players, player_join_times, a8) :=
                  active_loop d ([], []) a7 in
                let a9 :=
                  match active_players with
                  | [] => say (NoActiveIn instance_id1) a8
                  | _ :: _ =>
                      say (FoundActiveIn (List.length active_players)
                                         instance_id1) a8
                  end in
                (active_players,
                 on_obj (set_join_times player_join_times) a9)
            end
      end
  end.

(** ** get_players_in_instance, get_players_in_instance_with_times *)

(** A [datetime] with its microseconds, as [datetime.now()] gives it.  The
    times read from the log have none. *)
Record moment : Type := mkMoment {
  to_second : datetime;
  microsecond : Z
}.

Definition of_log (t : datetime) : moment := mkMoment t 0.

Section Players.

(** [self._get_vrchat_log_path()], which reads the log directory: its
    result and the state it leaves. *)
Variable _get_vrchat_log_path : logic -> option string * logic.

(** The file system, by path. *)
Variable fs : string -> file_status.

(** [self.get_players_in_instance(instance_id)] *)
Definition get_players_in_instance (instance_id : option string) (a : app)
  : list player * app :=
  if negb (is_logged_in (obj a)) then ([], say MustBeLoggedIn a)
  else if negb (is_log_watching (obj a)) then
    let a1 := say UsingOneTimeScan a in
    let (found, L1) := _get_vrchat_log_path (obj a1) in
    let a2 := mkApp L1 (notes a1) in
    match found with
    | Some (String c p) =>
        _parse_vrchat_logs_for_players (fs (String c p)) (String c p)
                                       instance_id a2
    | _ => ([], say NoLogFile a2)
    end
  else
    match fst (get_active_players (obj a)) with
    | [] => ([], say NoActivePlayers a)
    | p :: ps =>
        (p :: ps,
         fold_left
           (fun a' q =>
              say (ActivePlayerLine q
                     (dict_get (id q) (_player_join_times (obj a')))) a')
           (p :: ps)
           (say (FoundActivePlayers (List.length (p :: ps))) a))
    end.

(** [self.get_players_in_instance_with_times(instance_id)];
    [current_time] is what [datetime.now()] gives. *)
Definition get_players_in_instance_with_times (current_time : moment)
    (instance_id : option string) (a : app)
  : list (player * moment) * app :=
  let a1 := say (GettingPlayersAndTimes instance_id) a in
  let (players, a2) := get_players_in_instance instance_id a1 in
  match players with
  | [] => ([], say NoPlayersInLogs a2)
  | _ :: _ =>
      fold_left
        (fun (st : list (player * moment) * app) p =>
           match dict_get (id p) (_player_join_times (obj (snd st))) with
           | Some join_time =>
               ((fst st ++ [(p, of_log join_time)])%list,
                say (JoinedAt p join_time) (snd st))
           | None =>
               ((fst st ++ [(p, current_time)])%list,
                say (NoJoinTime p) (snd st))
           end)
        players
        ([], say (ProcessingJoinTimes (List.length players)) a2)
  end.

End Players.

(** ** _get_vrchat_log_path *)

(** One element of [log_file_info]: [(f, full_path, mod_time, size)].  The
    modification time is a float; finite floats are whole multiples of
    2^-1074, and [mod_time] is the time on that scale, so that the order
    of the floats is the order of [Z]. *)
Record file_info : Type := mkInfo {
  filename : string;
  full_path : string;
  mod_time : Z;
  size : nat
}.

(** [s.endswith(suffix)] *)
Definition ends_with (suffix s : string) : bool :=
  if (String.length suffix <=? String.length s)%nat
  then String.eqb (seek (String.length s - String.length suffix) s) suffix
  else false.

(** [f.startswith("output_log_") and f.endswith(".txt")] *)
Definition is_log_name (f : string) : bool :=
  match literal "output_log_" f with
  | Some _ => ends_with ".txt" f
  | None => false
  end.

(** [log_file_info.sort(key=lambda x: x[2], reverse=True)]: a stable sort,
    here by insertion.  An element goes before the first one that is not
    newer. *)
Fixpoint insert_newest (x : file_info) (l : list file_info)
  : list file_info :=
  match l with
  | [] => [x]
  | y :: l' =>
      if (mod_time x <? mod_time y)%Z then y :: insert_newest x l'
      else x :: y :: l'
  end.

Fixpoint sort_newest_first (l : list file_info) : list file_info :=
  match l with
  | [] => []
  | x :: l' => insert_newest x (sort_newest_first l')
  end.

Section LogPath.

(** The three directories tried, with [~] expanded. *)
Variable possible_paths : list string.

(** [os.path.exists], [os.listdir], [os.path.join], [os.path.getmtime]
    and [os.path.getsize]. *)
Variable path_exists : string -> bool.
Variable listdir : string -> answer (list string).
Variable path_join : string -> string -> string.
Variable getmtime : string -> answer Z.
Variable getsize : string -> answer nat.

(** Whether [time.time() - latest_mod_time > 3600] holds, a comparison of
    floats that only chooses the last message. *)
Variable stale : bool.

(** The loop over [possible_paths], up to its [break]. *)
Fixpoint first_existing (paths : list string) : option string :=
  match paths with
  | [] => None
  | path :: rest =>
      if path_exists path then Some path else first_existing rest
  end.

(** The loop that builds [log_file_info], or the exception of the first
    file [getmtime] or [getsize] fails on. *)
Fixpoint collect_info (log_dir : string) (log_files : list string)
  : exn + list file_info :=
  match log_files with
  | [] => inr []
  | f :: rest =>
      match getmtime (path_join log_dir f) with
      | Raised e => inl e
      | Returned m =>
          match getsize (path_join log_dir f) with
          | Raised e => inl e
          | Returned sz =>
              match collect_info log_dir rest with
              | inl e => inl e
              | inr l => inr (mkInfo f (path_join log_dir f) m sz :: l)
              end
          end
      end
  end.

(** The messages about the five most recent files. *)
Fixpoint show_info (i : nat) (l : list file_info) (a : app) : app :=
  match l with
  | [] => a
  | x :: l' => show_info (S i) l' (say (LogFileInfo (S i) (filename x)) a)
  end.

(** The messages when no directory is found. *)
Definition no_directory (a : app) : app :=
  fold_left (fun a' path => say (CheckedPath path) a') possible_paths
            (say NoLogDirectory a).

(** [self._get_vrchat_log_path()]; [datetime.fromtimestamp] is taken to
    accept the modification time of a file. *)
Definition _get_vrchat_log_path (a : app) : option string * app :=
  match first_existing possible_paths with
  | None => (None, no_directory a)
  | Some log_dir =>
      let a1 := say (FoundLogDirectory log_dir) a in
      if negb (truthy (Some log_dir)) then (None, no_directory a1)
      else
        match listdir log_dir with
        | Raised e => (None, say (ErrorFindingLog e) a1)
        | Returned names =>
            match filter is_log_name names with
            | [] => (None, say NoLogFiles a1)
            | f :: rest =>
                let a2 := say (FoundLogFiles (List.length (f :: rest))) a1 in
                match collect_info log_dir (f :: rest) with
                | inl e => (None, say (ErrorFindingLog e) a2)
                | inr log_file_info =>
                    match sort_newest_first log_file_info with
                    | [] => (None, say (ErrorFindingLog OtherError) a2)
                              (* not reached: the list is not empty *)
                    | latest :: others =>
                        let a3 := show_info 0 (firstn 5 (latest :: others))
                                            a2 in
                        let a4 := say (UsingMostRecent (full_path latest))
                                      a3 in
                        (Some (full_path latest),
                         say (if stale then LogFileIsOld
                              else LogFileIsCurrent) a4)
                    end
                end
            end
        end
  end.

End LogPath.

End Further.

(* ================================================================== *)
(** * VRChatLogic.invite_players and its thread                        *)
(* ================================================================== *)

Module Sequential.

Import Text Model Logic Dispatch Further.

(** ** invite_players *)

Section InvitePlayers.

(** What [self.is_vrchat_running()] answers (its messages are not
    modelled), and how the two requests of the checks end: the one of
    [is_current_user_in_group] and the one of [get_current_instance]. *)
Variable vrchat_running : bool.
Variable membership : answer bool.
Variable get_user : answer (option string).

(** [self.invite_players(group_id, players, delay_seconds, max_workers)]:
    the result, the state, and the players handed to
    [_invite_players_thread] if the thread is started. *)
Definition invite_players (group_id : string) (players : list player)
    (a : app) : bool * app * option (list player) :=
  if negb (is_logged_in (obj a))
  then (false, Further.say MustBeLoggedIn a, None)
  else if negb vrchat_running
  then (false, Further.say VRChatNotRunning a, None)
  else
    let (member, a1) := is_current_user_in_group membership group_id a in
    if negb member
    then (false, Further.say (NotAMemberOf group_id) a1, None)
    else
      let (instance_id, a2) := get_current_instance get_user a1 in
      if negb (truthy instance_id)
      then (false, Further.say NoCurrentInstance a2, None)
      else
        let (from_group, a3) :=
          is_instance_from_group instance_id (Some group_id) a2 in
        if negb from_group
        then (false, Further.say (NotInGroupInstance group_id) a3, None)
        else if is_inviting (obj a3)
        then (false, Further.say AlreadyInviting a3, None)
        else (true, on_obj (set_is_inviting true) a3, Some players).

End InvitePlayers.

(** ** _invite_players_thread *)

(** What the loop works on: what the pool's workers share (the object,
    the queue, the counters, the calls), and the messages of this method
    that the pool does not have. *)
Definition thread : Type := shared * list note.

(** The program points of the loop.  From the first check of the flag to
    the [sleep] the text of the loop is that of the pool's [worker], and
    so are the program points. *)
Inductive spc : Type :=
| AtRunningCheck         (* if invited_count % 5 == 0: if not self.is_vrchat_running(): ... *)
| Of (c : pc).

Section Thread.

Variable group_id : string.
Variable total_players : nat.
Variable delay : nat.

(** One step of the loop from a program point; [vrchat_running] is what
    [self.is_vrchat_running()] answers if it is asked at this step. *)
Definition thread_step (r : remote) (vrchat_running : bool) (c : spc)
    (T : thread) : thread * spc :=
  match c with
  | Of AtWhile =>
      match player_queue (fst T) with
      | [] => (T, Of Exited)
      | _ :: _ => if is_inviting (self (fst T)) then (T, AtRunningCheck)
                  else (T, Of Exited)
      end
  | AtRunningCheck =>
      if (invited_count (fst T) mod 5 =? 0)%nat then
        if vrchat_running then (T, Of AtCheckBeforeGet)
        else
          ((set_self (set_is_inviting false (self (fst T))) (fst T),
            VRChatClosed :: snd T),
           Of Exited)
      else (T, Of AtCheckBeforeGet)
  | Of c' =>
      let (S', c'') := worker_step group_id total_players delay r c' (fst T) in
      ((S', snd T), Of c'')
  end.

(** The loop running without interference for at most [fuel] steps, the
    answers of the remote service and of [is_vrchat_running] fixed. *)
Fixpoint thread_alone (r : remote) (vrchat_running : bool) (fuel : nat)
    (c : spc) (T : thread) : thread * spc :=
  match fuel with
  | O => (T, c)
  | Datatypes.S fuel' =>
      match c with
      | Of Exited => (T, c)
      | _ =>
          let (T', c') := thread_step r vrchat_running c T in
          thread_alone r vrchat_running fuel' c' T'
      end
  end.

End Thread.

(** [_invite_players_thread], up to the loop. *)
Definition thread_start (group_id : string) (players : list player)
    (L : logic) (ns : list note) : thread :=
  (mkShared L players 0 0 0 [],
   StartingToInvite (List.length players) group_id :: ns).

(** [_invite_players_thread], after the loop: the completion message is
    chosen, [self.is_inviting] is cleared, the message is logged. *)
Definition thread_finish (total_players : nat) (T : thread) : thread :=
  (Dispatch.say (completion_message total_players (fst T))
                (set_self (set_is_inviting false (self (fst T))) (fst T)),
   snd T).

End Sequential.

(* ================================================================== *)
(** * VRChatLogic.invite_instance_players_to_group                     *)
(* ================================================================== *)

Module Instance.

Import Text Model Logic Further.

Local Open Scope Z_scope.

(** [date.toordinal()]: the days from 0001-01-01, that day being 1. *)
Definition days_before_year (y : Z) : Z :=
  (y - 1) * 365 + (y - 1) / 4 - (y - 1) / 100 + (y - 1) / 400.

Definition days_before_month (y m : Z) : Z :=
  fold_right (fun k acc => days_in_month y k + acc) 0
             (map Z.of_nat (seq 1 (Z.to_nat (m - 1)))).

Definition toordinal (d : datetime) : Z :=
  days_before_year (year d) + days_before_month (year d) (month d) + day d.

(** The moment as a point of the time line, in microseconds: the
    [timedelta] of two moments is the difference of their points. *)
Definition to_instant (m : moment) : instant :=
  (((toordinal (to_second m) * 24 + hour (to_second m)) * 60
    + minute (to_second m)) * 60 + second (to_second m)) * 1000000
  + microsecond m.

(** [players_with_times] with the join times on the time line. *)
Definition on_time_line (players_with_times : list (player * moment))
  : list (player * instant) :=
  map (fun e => (fst e, to_instant (snd e))) players_with_times.

Section InviteInstance.

(** What [self.is_vrchat_running()] answers (its messages are not
    modelled), and how the requests of the two checks end. *)
Variable vrchat_running : bool.
Variable membership : answer bool.
Variable get_user : answer (option string).

(** [self._get_vrchat_log_path()] and the file system, for
    [get_players_in_instance]; what [datetime.now()] gives in
    [get_players_in_instance_with_times]. *)
Variable _get_vrchat_log_path : logic -> option string * logic.
Variable fs : string -> file_status.
Variable now_for_players : moment.

(** The pages of [get_group_members] and the steps its loop may take; how
    [self.groups_api.get_group_invites(group_id)] ends, with the user ids
    of [response.data] ([None] for a falsy response or one without
    [data]); what [datetime.now()] gives before the filter. *)
Variable fuel : nat.
Variable pages : nat -> page_answer.
Variable group_invites : answer (option (list string)).
Variable current_time : moment.

(** The pending invites: any exception gives the empty list. *)
Definition pending_invites_of (group_id : string) (a : app)
  : list string * app :=
  let a1 := say (GettingPendingInvites group_id) a in
  match group_invites with
  | Returned (Some data) =>
      (data, say (FoundPendingInvites (List.length data) group_id) a1)
  | Returned None => ([], a1)
  | Raised e => ([], say ContinueWithoutPending (say (ErrorGettingPending e) a1))
  end.

(** The loop that logs every player found with its status. *)
Definition log_status (current_user_id : string)
    (member_ids pending_invites : list string) (delay : Z)
    (instance_id : option string)
    (players_with_times : list (player * moment)) (a : app) : app :=
  fold_left
    (fun a' e =>
       say (PlayerStatus (fst e)
              (String.eqb (id (fst e)) current_user_id)
              (py_in (id (fst e)) member_ids)
              (py_in (id (fst e)) pending_invites)
              (too_recent (to_instant current_time) (to_instant (snd e))
                          delay)) a')
    players_with_times
    (say (ProcessingPlayers (List.length players_with_times) instance_id) a).

(** [self.invite_instance_players_to_group(group_id, max_threads, delay)]:
    the result with the players handed to [_invite_thread_pool] if the
    thread is started, or the exception that leaves the method, and the
    state.  [None] is a loop of [get_group_members] still running when the
    fuel is used up. *)
Definition invite_instance_players_to_group (group_id : string)
    (max_threads : nat) (delay : Z) (a : app)
  : option (answer (bool * option (list player)) * app) :=
  if negb (is_logged_in (obj a))
  then Some (Returned (false, None), say MustBeLoggedIn a)
  else if negb (truthy (Some group_id))
  then Some (Returned (false, None), say GroupIdRequired a)
  else if negb vrchat_running
  then Some (Returned (false, None), say VRChatNotRunning a)
  else
    let (member, a1) := is_current_user_in_group membership group_id a in
    if negb member
    then Some (Returned (false, None), say (NotAMemberOf group_id) a1)
    else
      let a2 := if negb (is_log_watching (obj a1))
                then say OneTimeScanForDetection a1 else a1 in
      let (instance_id, a3) := get_current_instance get_user a2 in
      if negb (truthy instance_id)
      then Some (Returned (false, None), say NoCurrentInstance a3)
      else
        let (from_group, a4) :=
          is_instance_from_group instance_id (Some group_id) a3 in
        if negb from_group
        then Some (Returned (false, None),
                   say (NotInGroupInstance group_id) a4)
        else
          let (players_with_times, a5) :=
            get_players_in_instance_with_times _get_vrchat_log_path fs
              now_for_players instance_id a4 in
          match players_with_times with
          | [] => Some (Returned (false, None), say NoPlayersInInstance a5)
          | _ :: _ =>
              match get_group_members fuel pages group_id
                      (say (GettingMembers group_id) a5) with
              | None => None
              | Some (Raised e, a6) => Some (Raised e, a6)
              | Some (Returned member_ids, a6) =>
                  let (pending_invites, a7) :=
                    pending_invites_of group_id a6 in
                  match current_user (obj a7) with
                  | None =>
                      (* [self.current_user.id] on [None] *)
                      Some (Raised OtherError,
                            say (ProcessingPlayers
                                   (List.length players_with_times)
                                   instance_id) a7)
                  | Some current_user_id =>
                      let a8 := log_status current_user_id member_ids
                                  pending_invites delay instance_id
                                  players_with_times a7 in
                      let '(started, L, handed) :=
                        invite_filtered current_user_id member_ids
                          pending_invites (to_instant current_time) delay
                          (on_time_line players_with_times) (obj a8) in
                      Some (Returned (started, handed), mkApp L (notes a8))
                  end
              end
          end.

End InviteInstance.

End Instance.

(* ================================================================== *)
(** * Further notions, for the properties beyond the claims            *)
(* ================================================================== *)

Module FurtherSpec.

Import Text Model Callbacks Watcher Logic Dispatch Spec Further Instance.

(** Every character of the string satisfies [f]. *)
Fixpoint all_chars (f : ascii -> bool) (s : string) : bool :=
  match s with
  | EmptyString => true
  | String c s' => f c && all_chars f s'
  end.

(** The string holds no white space. *)
Definition no_space (s : string) : bool :=
  all_chars (fun c => negb (is_space c)) s.

(** All that is not the presence tracker nor the message sink: the file
    the watcher follows, its offset and its flag, and the client's
    attributes. *)
Definition outside_tracker (L : logic)
  : option string * nat * bool
    * (option handle * option handle * option handle * option handle
       * option handle)
    * option string * bool * bool :=
  (log_path (log_watcher L), file_position (log_watcher L),
   is_watching (log_watcher L),
   (api_client L, auth_api L, groups_api L, users_api L, worlds_api L),
   current_user L, is_logged_in L, is_inviting L).

(** Every player of a run is counted once: as invited, failed or skipped,
    or still in the queue, or in the hands of a worker. *)
Definition accounted (total : nat) (s : pool) : Prop :=
  (invited_count (fst s) + failed_count (fst s) + skipped_count (fst s)
   + List.length (player_queue (fst s))
   + List.length (held (snd s)) + List.length (in_process (snd s))
   = total)%nat.

(** The number of create-invite calls among the calls. *)
Definition create_calls (l : list call) : nat :=
  List.length (filter is_create l).

(** The string holds no colon. *)
Definition no_colon (s : string) : bool :=
  all_chars (fun c => negb (Ascii.eqb c ":")) s.

(** A service that holds the members [all] of the group and answers each
    request with the hundred that follow the offset. *)
Definition paged (all : list string) (offset : nat) : page_answer :=
  Returned (Some (firstn 100 (skipn offset all))).

(** The line is a join line of the user [pid] at the time [t]. *)
Definition join_line_of (pid : string) (t : datetime) (line : string)
  : Prop :=
  contains "[Behaviour] OnPlayerJoined" line = true
  /\ exists raw nm, timestamp_match line = Some raw
                    /\ strptime raw = Some t
                    /\ player_match "OnPlayerJoined" line = Some (nm, pid).

(** Every join time of the user records comes from a join line of the
    user among [all]. *)
Definition joins_from (all : list string) (d : dict events) : Prop :=
  forall pid ev t, dict_get pid d = Some ev -> In t (joins ev) ->
                   exists line, In line all /\ join_line_of pid t line.

(** The lines of one session: the first line announces the session and is
    no join or leave line, and no later line holds the two words an
    instance line is recognised by. *)
Definition one_session (lines : list string) : bool :=
  match lines with
  | [] => false
  | first :: rest =>
      is_change first
      && negb (contains "[Behaviour] OnPlayerJoined" first)
      && negb (contains "[Behaviour] OnPlayerLeft" first)
      && forallb (fun l => negb (is_instance_line l)) rest
  end.

(** What the one-time parse finds in a file, the messages left aside: the
    players and their join times, or nothing when the file cannot be
    read, holds no session change or shows an impossible date. *)
Definition one_time_snapshot (f : file_status)
  : option (list player * dict datetime) :=
  match f with
  | Readable c =>
      match snd (last_instance (readlines c) None (mkApp logic_init [])) with
      | inr (Some (inst, since)) =>
          if truthy (Some inst) then
            match snd (parse_events since (readlines c) []
                                    (mkApp logic_init [])) with
            | inr d => Some (active_from d ([], []))
            | inl _ => None
            end
          else None
      | _ => None
      end
  | _ => None
  end.

(** What [get_players_in_instance] finds, the messages left aside: the
    players and the object it leaves. *)
Definition players_found (gp : logic -> option string * logic)
    (fs : string -> file_status) (L : logic) : list player * logic :=
  if negb (is_logged_in L) then ([], L)
  else if negb (is_log_watching L) then
    match fst (gp L) with
    | Some (String c p) =>
        match one_time_snapshot (fs (String c p)) with
        | Some (players, join_times) =>
            (players, set_join_times join_times (snd (gp L)))
        | None => ([], snd (gp L))
        end
    | _ => ([], snd (gp L))
    end
  else (fst (get_active_players L), L).

(** The members [get_group_members] comes back with: those of the pages,
    or none when the request for a page raised an [ApiException]. *)
Definition members_fetched (fuel : nat) (pages : nat -> page_answer)
    (members : list string) : Prop :=
  members_loop fuel pages 0 [] = Some (Returned members)
  \/ (members = []
      /\ exists status body,
           members_loop fuel pages 0 []
           = Some (Raised (ApiException status body))).

(** The pending invites: those of the response, or none when the request
    raised or gave nothing. *)
Definition pending_fetched (group_invites : answer (option (list string)))
  : list string :=
  match group_invites with
  | Returned (Some data) => data
  | _ => []
  end.

(** A player with the join time [_player_join_times] has for the id, or
    with [current_time] where it has none. *)
Definition with_stored_time (join_times : dict datetime)
    (current_time : moment) (p : player) : player * moment :=
  (p, match dict_get (id p) join_times with
      | Some t => of_log t
      | None => current_time
      end).

End FurtherSpec.

Module FurtherSamples.

Import Text Model Logic Dispatch Samples Further.

Definition bob_joins_1050 : string :=
  "2024.01.01 10:50:00 Log        -  [Behaviour] OnPlayerJoined Bob (usr_bob)" ++ nl.

Definition t1050 : datetime := mkdt 2024 1 1 10 50 0.

(** A join line of a player whose display name holds the two words an
    instance line is recognised by. *)
Definition joining_room_joins : string :=
  "2024.01.01 10:30:00 Log        -  [Behaviour] OnPlayerJoined Joining_Room (usr_jr)" ++ nl.

(** A remote service whose two checks fail with status 500 and whose
    invite call succeeds. *)
Definition failing_checks : remote :=
  mkRemote (fun _ => Raised (ApiException 500 None))
           (Raised (ApiException 500 None))
           (fun _ => Returned tt).

Definition carl : player := mkPlayer "usr_c" "C".

(** The log of one session: Alice joins, Bob joins twice and leaves
    once. *)
Definition session_file : string :=
  room1_0900 ++ alice_joins_0930 ++ bob_joins_1030 ++ bob_joins_1045
  ++ bob_leaves_1100.

Definition fs_session (path : string) : file_status := Readable session_file.

Definition t1200 : datetime := mkdt 2024 1 1 12 0 0.

(** A quarter of a second past noon. *)
Definition past_noon : moment := mkMoment t1200 250000.

(** A machine on which the third of the three directories exists and
    holds three log files and another file; the first log file is older
    than the other two, which are of the same age. *)
Definition three_dirs : list string := ["/win"; "/mac"; "/linux"].

Definition only_linux (path : string) : bool := String.eqb path "/linux".

Definition four_names (dir : string) : answer (list string) :=
  Returned ["output_log_1.txt"; "Player.log"; "output_log_2.txt";
            "output_log_3.txt"].

Definition slash_join (dir f : string) : string := dir ++ "/" ++ f.

Definition first_is_older (path : string) : answer Z :=
  Returned (if String.eqb path "/linux/output_log_1.txt" then 10%Z else 20%Z).

Definition one_kilobyte (path : string) : answer nat := Returned 1024%nat.

End FurtherSamples.

(* ================================================================== *)
(** * Facts about the text layer and the dictionaries                  *)
(* ================================================================== *)

Import Text Model Callbacks Watcher Logic Dispatch Spec Samples.

Lemma re_search_none_here {A : Type} (m : string -> option A) (s : string) :
  re_search m s = None -> m s = None.
Proof.
  destruct s; simpl; destruct (m _); congruence.
Qed.

(** [re.search] fails exactly when the matcher fails at every position. *)
Lemma re_search_none_iff {A : Type} (m : string -> option A) (s : string) :
  re_search m s = None <->
  forall pre suf, s = (pre ++ suf)%string -> m suf = None.
Proof.
  induction s as [|c s IH].
  - simpl. split.
    + intros H pre suf E. destruct pre; simpl in E; [subst suf|discriminate].
      destruct (m EmptyString); congruence.
    + intros H. rewrite (H EmptyString EmptyString eq_refl). reflexivity.
  - simpl. split.
    + intros H pre suf E. destruct (m (String c s)) eqn:Hm; [discriminate|].
      destruct pre as [|c' pre]; simpl in E.
      * subst suf. exact Hm.
      * injection E as _ E. apply (proj1 IH H pre suf E).
    + intros H. rewrite (H EmptyString (String c s) eq_refl).
      apply IH. intros pre suf E. apply (H (String c pre) suf).
      simpl. now rewrite E.
Qed.

Lemma dt_ltb_irrefl (t : datetime) : dt_ltb t t = false.
Proof. unfold dt_ltb. apply Z.ltb_irrefl. Qed.

Lemma dt_ltb_asym (a b : datetime) : dt_ltb a b = true -> dt_ltb b a = false.
Proof. unfold dt_ltb. intros H. apply Z.ltb_lt in H. apply Z.ltb_ge. lia. Qed.

Lemma dt_ltb_trans (a b c : datetime) :
  dt_ltb a b = true -> dt_ltb b c = true -> dt_ltb a c = true.
Proof.
  unfold dt_ltb. intros H1 H2. apply Z.ltb_lt in H1, H2. apply Z.ltb_lt. lia.
Qed.


(** On dates, the order by [rank] is the order field by field. *)
Lemma rank_compare (a b : datetime) :
  valid_datetime a = true -> valid_datetime b = true ->
  (rank a ?= rank b)%Z = dt_compare a b.
Proof.
  unfold valid_datetime. intros Ha Hb.
  repeat (apply andb_prop in Ha as [Ha ?]).
  repeat (apply andb_prop in Hb as [Hb ?]).
  repeat match goal with
         | H : (_ <=? _)%Z = true |- _ => apply Z.leb_le in H
         end.
  assert (Da : (day a <= 31)%Z)
    by (unfold days_in_month in *;
        repeat match goal with
               | H : context [if ?c then _ else _] |- _ => destruct c
               end; lia).
  assert (Db : (day b <= 31)%Z)
    by (unfold days_in_month in *;
        repeat match goal with
               | H : context [if ?c then _ else _] |- _ => destruct c
               end; lia).
  unfold dt_compare, rank.
  repeat match goal with
         | |- context [(?x ?= ?y)%Z] =>
             lazymatch x with
             | context [Z.add] => fail
             | _ => destruct (Z.compare_spec x y)
             end
         end;
    first [apply Z.compare_eq_iff | apply Z.compare_lt_iff
           | apply Z.compare_gt_iff]; lia.
Qed.

(** What [strptime] returns is a date. *)
Lemma strptime_valid (s : string) (d : datetime) :
  strptime s = Some d -> valid_datetime d = true.
Proof.
  unfold strptime. destruct (shape timestamp_pattern s); [|discriminate].
  destruct (String.eqb _ s); [|discriminate].
  destruct (list_ascii_of_string s) as [|? l]; [discriminate|].
  do 19 (destruct l as [|? l]; try discriminate).
  match goal with
  | |- (if ?v then _ else _) = _ -> _ => destruct v eqn:V; [|discriminate]
  end.
  intros H. injection H as <-. exact V.
Qed.

(* ================================================================== *)
(** * The event extractor inside [_process_log_line]                   *)
(* ================================================================== *)

(** [_process_log_line] applies the event the extractor finds. *)
Lemma process_extract_some (line : string) (e : log_event) (L : logic) :
  extract line = Some e -> _process_log_line line L = apply e L.
Proof.
  unfold extract, _process_log_line. intros H.
  destruct (is_instance_line line).
  - destruct (instance_change line) as [[raw inst]|]; [|discriminate].
    injection H as <-. reflexivity.
  - destruct (contains "[Behaviour] OnPlayerJoined" line).
    + destruct (timestamp_match line) as [raw|]; [|discriminate].
      destruct (player_match "OnPlayerJoined" line) as [[nm pid]|];
        [|discriminate].
      destruct (strptime raw) as [t|]; [|discriminate].
      injection H as <-. reflexivity.
    + destruct (contains "[Behaviour] OnPlayerLeft" line); [|discriminate].
      destruct (timestamp_match line) as [raw|]; [|discriminate].
      destruct (player_match "OnPlayerLeft" line) as [[nm pid]|];
        [|discriminate].
      destruct (strptime raw) as [t|]; [|discriminate].
      injection H as <-. reflexivity.
Qed.

(** Where the extractor finds nothing, nothing is recorded; at most the
    refusal of a date is logged. *)
Lemma process_extract_none (line : string) (L : logic) :
  extract line = None -> tracker (_process_log_line line L) = tracker L.
Proof.
  unfold extract, _process_log_line. intros H.
  destruct (is_instance_line line).
  - destruct (instance_change line) as [[raw inst]|]; [discriminate|].
    reflexivity.
  - destruct (contains "[Behaviour] OnPlayerJoined" line).
    + destruct (timestamp_match line) as [raw|]; [|reflexivity].
      destruct (player_match "OnPlayerJoined" line) as [[nm pid]|];
        [|reflexivity].
      destruct (strptime raw) as [t|]; [discriminate|reflexivity].
    + destruct (contains "[Behaviour] OnPlayerLeft" line); [|reflexivity].
      destruct (timestamp_match line) as [raw|]; [|reflexivity].
      destruct (player_match "OnPlayerLeft" line) as [[nm pid]|];
        [|reflexivity].
      destruct (strptime raw) as [t|]; [discriminate|reflexivity].
Qed.

(** A line with no text of the timestamp shape gives no event. *)
Lemma extract_needs_timestamp (line : string) :
  timestamp_match line = None -> extract line = None.
Proof.
  unfold extract, instance_change. intros ->.
  destruct (is_instance_line line); [reflexivity|].
  destruct (contains "[Behaviour] OnPlayerJoined" line); [reflexivity|].
  destruct (contains "[Behaviour] OnPlayerLeft" line); reflexivity.
Qed.

(** No text of the timestamp shape at any position of the line. *)
Lemma timestamp_match_none_iff (line : string) :
  timestamp_match line = None <->
  forall pre suf, line = (pre ++ suf)%string ->
                  shape timestamp_pattern suf = None.
Proof. apply re_search_none_iff. Qed.

(* ================================================================== *)
(** * C8: lines without a timestamp                                    *)
(* ================================================================== *)

(** C8, as amended.  A line in which the timestamp pattern
    (four digits, a dot, two digits, a dot, two digits, a space, and three
    groups of two digits separated by colons) occurs at no position
    produces no event: [_process_log_line] returns the state it was given,
    so no session change is recorded, no join or leave is appended, and
    nothing is logged.  A line that is no session-change line ("Joining"
    and "Room" do not both occur in it) and whose first text of that shape
    is no valid date produces no event either: the session, the user
    records and the join times stay as they were.  A session-change line
    needs the shape only: with a text of the shape at some position and an
    instance id, the session is recorded, whether the text is a date or
    not. *)
Theorem C8_no_timestamp_no_event (line : string) (L : logic) :
  (timestamp_match line = None -> _process_log_line line L = L)
  /\ (is_instance_line line = false ->
      first_timestamp line = None ->
      tracker (_process_log_line line L) = tracker L)
  /\ (forall raw inst : string,
         is_instance_line line = true ->
         timestamp_match line = Some raw ->
         instance_id_found line = Some inst ->
         current_instance (log_watcher (_process_log_line line L))
         = Some inst
         /\ player_events (log_watcher (_process_log_line line L)) = []).
Proof.
  split; [|split].
  - intros H. unfold _process_log_line, instance_change. rewrite H.
    destruct (is_instance_line line); [reflexivity|].
    destruct (contains "[Behaviour] OnPlayerJoined" line); [reflexivity|].
    destruct (contains "[Behaviour] OnPlayerLeft" line); reflexivity.
  - intros HI HF. apply process_extract_none.
    unfold extract. rewrite HI. unfold first_timestamp in HF.
    destruct (contains "[Behaviour] OnPlayerJoined" line).
    + destruct (timestamp_match line) as [raw|]; [|reflexivity].
      rewrite HF. now destruct (player_match "OnPlayerJoined" line) as [[? ?]|].
    + destruct (contains "[Behaviour] OnPlayerLeft" line); [|reflexivity].
      destruct (timestamp_match line) as [raw|]; [|reflexivity].
      rewrite HF. now destruct (player_match "OnPlayerLeft" line) as [[? ?]|].
  - intros raw inst HI HT HF.
    unfold _process_log_line, instance_change. rewrite HI, HT, HF.
    split; reflexivity.
Qed.

Lemma C8_no_timestamp_no_event_witness :
  (timestamp_match bob_joins_no_stamp = None
   /\ _process_log_line bob_joins_no_stamp logic_init = logic_init)
  /\ (first_timestamp bob_joins_bad_month = None
      /\ tracker (_process_log_line bob_joins_bad_month logic_init)
         = tracker logic_init).
Proof.
  split; split.
  - vm_compute. reflexivity.
  - apply (C8_no_timestamp_no_event bob_joins_no_stamp logic_init).
    vm_compute. reflexivity.
  - vm_compute. reflexivity.
  - apply (C8_no_timestamp_no_event bob_joins_bad_month logic_init);
      vm_compute; reflexivity.
Defined.

(** C8, as stated, fails twice.  The timestamp is searched for anywhere in
    the line: a line that does not begin with a timestamp, but has one
    further on, records a join.  And a session-change line is taken with a
    timestamp that is no date: the line of month 13 has no valid
    timestamp, leading or not, and records the session. *)
Lemma C8_counterexample :
  (leading_timestamp bob_joins_stamp_inside = None
   /\ player_events (log_watcher
                       (_process_log_line bob_joins_stamp_inside logic_init))
      = [("usr_bob", mkEvents "Bob" [t1030] [])])
  /\ (leading_timestamp room3_bad_month = None
      /\ first_timestamp room3_bad_month = None
      /\ current_instance (log_watcher
                             (_process_log_line room3_bad_month logic_init))
         = Some "wrld_3:300").
Proof. repeat split; vm_compute; reflexivity. Qed.

(* ================================================================== *)
(** * Dictionaries                                                     *)
(* ================================================================== *)

Section DictFacts.

Context {V : Type}.
Implicit Types (d : dict V) (k : string) (v : V).

Lemma dict_get_set_same k v d : dict_get k (dict_set k v d) = Some v.
Proof.
  induction d as [|[k' v'] d IH]; simpl.
  - now rewrite String.eqb_refl.
  - destruct (String.eqb k k') eqn:E; simpl.
    + now rewrite String.eqb_refl.
    + now rewrite E.
Qed.

Lemma dict_get_set_other k k' v d :
  k <> k' -> dict_get k' (dict_set k v d) = dict_get k' d.
Proof.
  intros N. induction d as [|[k2 v2] d IH]; simpl.
  - destruct (String.eqb k' k) eqn:E; [|reflexivity].
    apply String.eqb_eq in E. congruence.
  - destruct (String.eqb k k2) eqn:E; simpl.
    + apply String.eqb_eq in E. subst k2.
      destruct (String.eqb k' k) eqn:E'; [|reflexivity].
      apply String.eqb_eq in E'. congruence.
    + now rewrite IH.
Qed.

Lemma dict_get_In k v d : dict_get k d = Some v -> In (k, v) d.
Proof.
  induction d as [|[k' v'] d IH]; simpl; [discriminate|].
  destruct (String.eqb k k') eqn:E; intros H.
  - apply String.eqb_eq in E. injection H as ->. left. now subst.
  - right. auto.
Qed.

Lemma Forall_dict_set (P : string * V -> Prop) k v d :
  Forall P d -> P (k, v) -> Forall P (dict_set k v d).
Proof.
  intros Hd Hk. induction Hd as [|[k' v'] d Hx Hd IH]; simpl.
  - constructor; [assumption|constructor].
  - destruct (String.eqb k k'); constructor; assumption.
Qed.

Lemma keys_dict_set_mem k v d :
  dict_mem k d = true -> keys (dict_set k v d) = keys d.
Proof.
  unfold dict_mem. induction d as [|[k' v'] d IH]; simpl; [discriminate|].
  destruct (String.eqb k k') eqn:E; simpl.
  - apply String.eqb_eq in E. now subst.
  - intros H. now rewrite IH.
Qed.

Lemma keys_dict_set_new k v d :
  dict_mem k d = false -> keys (dict_set k v d) = (keys d ++ [k])%list.
Proof.
  unfold dict_mem. induction d as [|[k' v'] d IH]; simpl; [reflexivity|].
  destruct (String.eqb k k') eqn:E; simpl; [discriminate|].
  intros H. now rewrite IH.
Qed.

Lemma dict_get_not_in_keys k d : ~ In k (keys d) -> dict_get k d = None.
Proof.
  induction d as [|[k' v'] d IH]; simpl; [reflexivity|].
  intros N. destruct (String.eqb k k') eqn:E.
  - apply String.eqb_eq in E. subst. tauto.
  - apply IH. tauto.
Qed.

Lemma dict_get_none_not_in_keys k d : dict_get k d = None -> ~ In k (keys d).
Proof.
  induction d as [|[k' v'] d IH]; simpl; [tauto|].
  destruct (String.eqb k k') eqn:E; [discriminate|].
  intros H [->|HI].
  - now rewrite String.eqb_refl in E.
  - now apply IH.
Qed.

End DictFacts.

(* ================================================================== *)
(** * C3: leaves against joins                                         *)
(* ================================================================== *)

Lemma ensure_events_balanced pid nm d :
  all_balanced d -> all_balanced (ensure_events pid nm d).
Proof.
  intros H. unfold ensure_events. destruct (dict_mem pid d); [assumption|].
  apply Forall_dict_set; [assumption|]. unfold balanced. simpl. lia.
Qed.

Lemma append_join_balanced pid t d :
  all_balanced d -> all_balanced (append_join pid t d).
Proof.
  intros H. unfold append_join.
  destruct (dict_get pid d) as [e|] eqn:G; [|assumption].
  apply Forall_dict_set; [assumption|].
  apply dict_get_In in G.
  unfold all_balanced in H. rewrite Forall_forall in H.
  specialize (H _ G). unfold balanced in *. simpl in *.
  rewrite length_app. simpl. lia.
Qed.

Lemma append_leave_balanced pid t d :
  all_balanced d -> present pid d = true ->
  all_balanced (append_leave pid t d).
Proof.
  intros H P. unfold append_leave, present in *.
  destruct (dict_get pid d) as [e|] eqn:G; [|assumption].
  apply Forall_dict_set; [assumption|].
  apply Nat.ltb_lt in P. unfold balanced. simpl.
  rewrite length_app. simpl. lia.
Qed.

Lemma ensure_events_present pid nm d :
  present pid d = true -> ensure_events pid nm d = d.
Proof.
  unfold present, ensure_events, dict_mem.
  destruct (dict_get pid d); [reflexivity|discriminate].
Qed.

(** One line keeps the records balanced, if it is not the leave of an
    absent user. *)
Lemma process_line_balanced (line : string) (L : logic) :
  all_balanced (player_events (log_watcher L)) ->
  match extract line with
  | Some (UserLeft pid _ _ _) =>
      present pid (player_events (log_watcher L)) = true
  | _ => True
  end ->
  all_balanced (player_events (log_watcher (_process_log_line line L))).
Proof.
  intros HB HM. destruct (extract line) as [e|] eqn:E.
  - rewrite (process_extract_some _ _ _ E).
    destruct e as [inst raw|pid nm t raw|pid nm t raw]; simpl.
    + constructor.
    + apply append_join_balanced, ensure_events_balanced, HB.
    + unfold on_player_leave. simpl.
      assert (all_balanced
                (append_leave pid t
                   (ensure_events pid nm (player_events (log_watcher L))))).
      { rewrite (ensure_events_present _ _ _ HM).
        now apply append_leave_balanced. }
      destruct (dict_mem pid (_player_join_times L)); simpl; assumption.
  - pose proof (process_extract_none _ L E) as T. unfold tracker in T.
    injection T as _ T _. now rewrite T.
Qed.

(** C3, as amended.  Starting from a state in which no record has more
    leaves than joins, and applying any sequence of join, leave and
    session-change lines in which every leave line names a user who is
    present when the line is applied, no record of the state reached has
    more leaves than joins. *)
Theorem C3_leaves_bounded_when_matched (lines : list string) (L : logic) :
  all_balanced (player_events (log_watcher L)) ->
  leaves_matched lines L = true ->
  all_balanced (player_events (log_watcher (process_lines lines L))).
Proof.
  revert L. induction lines as [|line rest IH]; intros L HB HM.
  - exact HB.
  - simpl in HM. apply andb_prop in HM as [H1 H2].
    unfold process_lines. simpl. apply IH; [|exact H2].
    apply process_line_balanced; [exact HB|].
    destruct (extract line) as [[| |pid nm t raw]|]; auto.
Qed.

Lemma C3_leaves_bounded_when_matched_witness :
  leaves_matched [room2_1000; bob_joins_1030; bob_leaves_1100] logic_init
  = true
  /\ all_balanced
    (player_events
       (log_watcher
          (process_lines [room2_1000; bob_joins_1030; bob_leaves_1100]
                         logic_init))).
Proof.
  split; [vm_compute; reflexivity|].
  apply (C3_leaves_bounded_when_matched
           [room2_1000; bob_joins_1030; bob_leaves_1100] logic_init).
  - constructor.
  - vm_compute. reflexivity.
Defined.

(** C3, as stated, fails: the leave of a user who never joined is recorded,
    and that record has one leave and no join. *)
Lemma C3_counterexample :
  ~ (forall (lines : list string) (pid : string) (ev : events),
       In (pid, ev)
          (player_events (log_watcher (process_lines lines logic_init))) ->
       (List.length (leaves ev) <= List.length (joins ev))%nat).
Proof.
  intros H.
  specialize (H [bob_leaves_1100] "usr_bob" (mkEvents "Bob" [] [t1100])).
  assert (HI : In ("usr_bob", mkEvents "Bob" [] [t1100])
                  (player_events
                     (log_watcher
                        (process_lines [bob_leaves_1100] logic_init)))).
  { vm_compute. left. reflexivity. }
  specialize (H HI). simpl in H. lia.
Qed.

(* ================================================================== *)
(** * C2: the snapshot of [get_active_players]                         *)
(* ================================================================== *)

Lemma dt_leb_refl (t : datetime) : dt_leb t t = true.
Proof. unfold dt_leb. apply Z.leb_refl. Qed.

Lemma max_from_spec (l : list datetime) (m : datetime) :
  In (max_from m l) (m :: l)
  /\ dt_leb m (max_from m l) = true
  /\ forall x, In x l -> dt_leb x (max_from m l) = true.
Proof.
  revert m. induction l as [|y l IH]; intros m; simpl.
  - split; [now left|]. split; [apply dt_leb_refl|tauto].
  - destruct (IH (if dt_ltb m y then y else m)) as (HI & HL & HA).
    destruct (dt_ltb m y) eqn:E; unfold dt_ltb, dt_leb in *.
    + apply Z.ltb_lt in E. apply Z.leb_le in HL.
      split; [simpl in HI; tauto|].
      split; [apply Z.leb_le; lia|].
      intros x [<-|Hx]; [apply Z.leb_le; lia|auto].
    + apply Z.ltb_ge in E. apply Z.leb_le in HL.
      split; [simpl in HI; tauto|].
      split; [apply Z.leb_le; lia|].
      intros x [<-|Hx]; [apply Z.leb_le; lia|auto].
Qed.

(** [max] gives an element of the list that no element is later than. *)
Lemma py_max_spec (l : list datetime) (m : datetime) :
  py_max l = Some m ->
  In m l /\ forall x, In x l -> dt_leb x m = true.
Proof.
  destruct l as [|y l]; simpl; [discriminate|].
  intros H. injection H as <-.
  destruct (max_from_spec l y) as (HI & HL & HA).
  split; [exact HI|]. intros x [<-|Hx]; auto.
Qed.

Lemma more_joins_has_max (ev : events) :
  more_joins ev = true -> exists t, py_max (joins ev) = Some t.
Proof.
  unfold more_joins. intros H. apply Nat.ltb_lt in H.
  destruct (joins ev) as [|j js]; simpl in *; [lia|eauto].
Qed.

Lemma active_from_ids (d : dict events) (acc : list player * dict datetime) :
  map id (fst (active_from d acc))
  = (map id (fst acc)
     ++ map fst (filter (fun kv => more_joins (snd kv)) d))%list.
Proof.
  revert acc. induction d as [|[k ev] d IH]; intros acc; simpl.
  - now rewrite app_nil_r.
  - rewrite IH. fold (more_joins ev).
    destruct (more_joins ev) eqn:M; [|reflexivity].
    destruct (more_joins_has_max _ M) as [t ->]. simpl.
    rewrite map_app, <- app_assoc. reflexivity.
Qed.

Lemma active_from_times_other (d : dict events)
    (acc : list player * dict datetime) (pid : string) :
  ~ In pid (keys d) ->
  dict_get pid (snd (active_from d acc)) = dict_get pid (snd acc).
Proof.
  revert acc. induction d as [|[k ev] d IH]; intros acc N; simpl;
    [reflexivity|].
  simpl in N. rewrite IH by tauto. fold (more_joins ev).
  destruct (more_joins ev); [|reflexivity].
  destruct (py_max (joins ev)); [|reflexivity]. simpl.
  apply dict_get_set_other. intros ->. tauto.
Qed.

Lemma active_from_times (d : dict events)
    (acc : list player * dict datetime) (pid : string) (ev : events) :
  NoDup (keys d) -> dict_get pid d = Some ev ->
  dict_get pid (snd (active_from d acc))
  = if more_joins ev then py_max (joins ev) else dict_get pid (snd acc).
Proof.
  revert acc. induction d as [|[k e] d IH]; intros acc ND G; simpl in *;
    [discriminate|].
  inversion ND as [|? ? Hk ND']; subst.
  destruct (String.eqb pid k) eqn:E.
  - apply String.eqb_eq in E. subst k. injection G as ->.
    rewrite active_from_times_other by assumption.
    fold (more_joins ev). destruct (more_joins ev) eqn:M; [|reflexivity].
    destruct (more_joins_has_max _ M) as [t Ht]. rewrite Ht. simpl.
    apply dict_get_set_same.
  - rewrite (IH _ ND' G). destruct (more_joins ev); [reflexivity|].
    fold (more_joins e). destruct (more_joins e); [|reflexivity].
    destruct (py_max (joins e)); [|reflexivity]. simpl.
    apply dict_get_set_other. intros ->. now rewrite String.eqb_refl in E.
Qed.

Lemma NoDup_keys_In_get {V : Type} (d : dict V) (k : string) (v : V) :
  NoDup (keys d) -> In (k, v) d -> dict_get k d = Some v.
Proof.
  induction d as [|[k' v'] d IH]; simpl; [tauto|].
  intros ND [H|H]; inversion ND as [|? ? Hk ND']; subst.
  - injection H as -> ->. now rewrite String.eqb_refl.
  - destruct (String.eqb k k') eqn:E.
    + apply String.eqb_eq in E. subst k'. exfalso. apply Hk.
      change k with (fst (k, v)). now apply in_map.
    + auto.
Qed.

(** Who is in the snapshot: the tracked users with more joins than
    leaves. *)
Lemma snapshot_ids_iff (L : logic) (pid : string) :
  NoDup (keys (player_events (log_watcher L))) ->
  In pid (snapshot_ids L)
  <-> present pid (player_events (log_watcher L)) = true.
Proof.
  intros ND. unfold snapshot_ids, get_active_players, present.
  rewrite active_from_ids. simpl. rewrite in_map_iff. split.
  - intros ([k ev] & <- & HI). apply filter_In in HI as [HI M]. simpl in *.
    now rewrite (NoDup_keys_In_get _ _ _ ND HI).
  - destruct (dict_get pid _) as [ev|] eqn:G; [|discriminate].
    intros M. exists (pid, ev). split; [reflexivity|].
    apply filter_In. split; [now apply dict_get_In|exact M].
Qed.

Lemma joined_at_present (L : logic) (pid : string) (ev : events) :
  NoDup (keys (player_events (log_watcher L))) ->
  dict_get pid (player_events (log_watcher L)) = Some ev ->
  more_joins ev = true ->
  joined_at pid L = py_max (joins ev).
Proof.
  intros ND G M. unfold joined_at, get_active_players.
  rewrite (active_from_times _ _ _ _ ND G). now rewrite M.
Qed.

Lemma player_events_apply (e : log_event) (L : logic) :
  player_events (log_watcher (apply e L))
  = match e with
    | SessionChanged _ _ => []
    | UserEntered pid nm t _ =>
        append_join pid t (ensure_events pid nm (player_events (log_watcher L)))
    | UserLeft pid nm t _ =>
        append_leave pid t
                     (ensure_events pid nm (player_events (log_watcher L)))
    end.
Proof.
  destruct e as [inst raw|pid nm t raw|pid nm t raw]; simpl; try reflexivity.
  unfold on_player_leave. simpl.
  destruct (dict_mem pid (_player_join_times L)); reflexivity.
Qed.

Lemma dict_get_ensure_same pid nm (d : dict events) :
  dict_get pid (ensure_events pid nm d)
  = Some (match dict_get pid d with
          | Some e => e
          | None => new_events nm
          end).
Proof.
  unfold ensure_events, dict_mem.
  destruct (dict_get pid d) eqn:G; [exact G|apply dict_get_set_same].
Qed.

Lemma keys_ensure_NoDup pid nm (d : dict events) :
  NoDup (keys d) -> NoDup (keys (ensure_events pid nm d)).
Proof.
  intros ND. unfold ensure_events.
  destruct (dict_mem pid d) eqn:M; [assumption|].
  rewrite (keys_dict_set_new _ _ _ M).
  apply NoDup_app; [assumption|repeat constructor; simpl; tauto|].
  intros k Hk [E|[]]. subst k. unfold dict_mem in M.
  destruct (dict_get pid d) eqn:G; [discriminate|].
  now apply dict_get_none_not_in_keys in G.
Qed.

Lemma keys_append_join pid t (d : dict events) :
  keys (append_join pid t d) = keys d.
Proof.
  unfold append_join. destruct (dict_get pid d) eqn:G; [|reflexivity].
  apply keys_dict_set_mem. unfold dict_mem. now rewrite G.
Qed.

Lemma keys_append_leave pid t (d : dict events) :
  keys (append_leave pid t d) = keys d.
Proof.
  unfold append_leave. destruct (dict_get pid d) eqn:G; [|reflexivity].
  apply keys_dict_set_mem. unfold dict_mem. now rewrite G.
Qed.

Lemma dict_get_append_join_same pid t (d : dict events) :
  dict_get pid (append_join pid t d)
  = option_map (fun e => mkEvents (name e) (joins e ++ [t])%list (leaves e))
               (dict_get pid d).
Proof.
  unfold append_join. destruct (dict_get pid d) eqn:G; simpl.
  - apply dict_get_set_same.
  - exact G.
Qed.

Lemma dict_get_append_leave_same pid t (d : dict events) :
  dict_get pid (append_leave pid t d)
  = option_map (fun e => mkEvents (name e) (joins e) (leaves e ++ [t])%list)
               (dict_get pid d).
Proof.
  unfold append_leave. destruct (dict_get pid d) eqn:G; simpl.
  - apply dict_get_set_same.
  - exact G.
Qed.

(** The keys of the user records stay distinct. *)
Lemma apply_keys_NoDup (e : log_event) (L : logic) :
  NoDup (keys (player_events (log_watcher L))) ->
  NoDup (keys (player_events (log_watcher (apply e L)))).
Proof.
  intros ND. rewrite player_events_apply.
  destruct e as [inst raw|pid nm t raw|pid nm t raw].
  - constructor.
  - rewrite keys_append_join. now apply keys_ensure_NoDup.
  - rewrite keys_append_leave. now apply keys_ensure_NoDup.
Qed.

Lemma process_line_keys_NoDup (line : string) (L : logic) :
  NoDup (keys (player_events (log_watcher L))) ->
  NoDup (keys (player_events (log_watcher (_process_log_line line L)))).
Proof.
  intros ND. destruct (extract line) as [e|] eqn:E.
  - rewrite (process_extract_some _ _ _ E). now apply apply_keys_NoDup.
  - pose proof (process_extract_none _ L E) as T. unfold tracker in T.
    injection T as _ T _. now rewrite T.
Qed.

(** The record of a user after a join and after a leave. *)
Lemma record_after_join pid nm t raw (L : logic) :
  dict_get pid (player_events (log_watcher (apply (UserEntered pid nm t raw) L)))
  = Some (let e := match dict_get pid (player_events (log_watcher L)) with
                   | Some e => e
                   | None => new_events nm
                   end in
          mkEvents (name e) (joins e ++ [t])%list (leaves e)).
Proof.
  rewrite player_events_apply, dict_get_append_join_same,
    dict_get_ensure_same. reflexivity.
Qed.

Lemma record_after_leave pid nm t raw (L : logic) :
  dict_get pid (player_events (log_watcher (apply (UserLeft pid nm t raw) L)))
  = Some (let e := match dict_get pid (player_events (log_watcher L)) with
                   | Some e => e
                   | None => new_events nm
                   end in
          mkEvents (name e) (joins e) (leaves e ++ [t])%list).
Proof.
  rewrite player_events_apply, dict_get_append_leave_same,
    dict_get_ensure_same. reflexivity.
Qed.

(** C2.  For a tracked user, being in the snapshot of
    [get_active_players] is having more joins than leaves, and the join
    time the snapshot reports is the greatest of the user's join times.
    Hence a join line followed by a leave line for a user who was absent
    leaves the user absent; and two join lines for a user not yet tracked
    leave the user present, with the later of the two times as the join
    time. *)
Theorem C2_presence_snapshot :
  (forall (L : logic) (pid : string) (ev : events),
      NoDup (keys (player_events (log_watcher L))) ->
      dict_get pid (player_events (log_watcher L)) = Some ev ->
      (In pid (snapshot_ids L)
       <-> (List.length (leaves ev) < List.length (joins ev))%nat)
      /\ ((List.length (leaves ev) < List.length (joins ev))%nat ->
          exists t, joined_at pid L = Some t
                    /\ In t (joins ev)
                    /\ forall j, In j (joins ev) -> dt_leb j t = true))
  /\ (forall (L : logic) (l1 l2 pid n1 n2 raw1 raw2 : string)
             (t1 t2 : datetime),
         NoDup (keys (player_events (log_watcher L))) ->
         present pid (player_events (log_watcher L)) = false ->
         extract l1 = Some (UserEntered pid n1 t1 raw1) ->
         extract l2 = Some (UserLeft pid n2 t2 raw2) ->
         ~ In pid (snapshot_ids (process_lines [l1; l2] L)))
  /\ (forall (L : logic) (l1 l2 pid n1 n2 raw1 raw2 : string)
             (t1 t2 : datetime),
         NoDup (keys (player_events (log_watcher L))) ->
         dict_get pid (player_events (log_watcher L)) = None ->
         extract l1 = Some (UserEntered pid n1 t1 raw1) ->
         extract l2 = Some (UserEntered pid n2 t2 raw2) ->
         In pid (snapshot_ids (process_lines [l1; l2] L))
         /\ joined_at pid (process_lines [l1; l2] L)
            = Some (if dt_ltb t1 t2 then t2 else t1)).
Proof.
  split; [|split].
  - intros L pid ev ND G. split.
    + rewrite (snapshot_ids_iff _ _ ND). unfold present. rewrite G.
      apply Nat.ltb_lt.
    + intros M. apply Nat.ltb_lt in M.
      destruct (more_joins_has_max _ M) as [t Ht].
      exists t. rewrite (joined_at_present _ _ _ ND G M).
      split; [exact Ht|]. now apply py_max_spec.
  - intros L l1 l2 pid n1 n2 raw1 raw2 t1 t2 ND A E1 E2.
    unfold process_lines. simpl.
    rewrite (process_extract_some _ _ _ E1), (process_extract_some _ _ _ E2).
    rewrite snapshot_ids_iff by (do 2 apply apply_keys_NoDup; exact ND).
    unfold present in *. rewrite record_after_leave, record_after_join.
    destruct (dict_get pid (player_events (log_watcher L))) as [e|]; simpl.
    + rewrite !length_app. simpl.
      apply Nat.ltb_ge in A. intros H. apply Nat.ltb_lt in H. lia.
    + discriminate.
  - intros L l1 l2 pid n1 n2 raw1 raw2 t1 t2 ND G E1 E2.
    unfold process_lines. simpl.
    rewrite (process_extract_some _ _ _ E1), (process_extract_some _ _ _ E2).
    assert (ND2 : NoDup (keys (player_events (log_watcher
                   (apply (UserEntered pid n2 t2 raw2)
                      (apply (UserEntered pid n1 t1 raw1) L))))))
      by (do 2 apply apply_keys_NoDup; exact ND).
    pose proof (record_after_join pid n2 t2 raw2
                  (apply (UserEntered pid n1 t1 raw1) L)) as R.
    rewrite (record_after_join pid n1 t1 raw1 L), G in R.
    split.
    + rewrite (snapshot_ids_iff _ _ ND2). unfold present. rewrite R.
      reflexivity.
    + rewrite (joined_at_present _ _ _ ND2 R); reflexivity.
Qed.

Lemma C2_presence_snapshot_witness :
  ~ In "usr_bob"
       (snapshot_ids (process_lines [bob_joins_1030; bob_leaves_1100]
                                    logic_init))
  /\ (In "usr_bob"
         (snapshot_ids (process_lines [bob_joins_1030; bob_joins_1045]
                                      logic_init))
      /\ joined_at "usr_bob"
                   (process_lines [bob_joins_1030; bob_joins_1045] logic_init)
         = Some (if dt_ltb t1030 t1045 then t1045 else t1030)).
Proof.
  destruct C2_presence_snapshot as (_ & H2 & H3). split.
  - apply (H2 logic_init bob_joins_1030 bob_leaves_1100 "usr_bob" "Bob" "Bob"
              "2024.01.01 10:30:00" "2024.01.01 11:00:00" t1030 t1100).
    + constructor.
    + reflexivity.
    + vm_compute. reflexivity.
    + vm_compute. reflexivity.
  - apply (H3 logic_init bob_joins_1030 bob_joins_1045 "usr_bob" "Bob" "Bob"
              "2024.01.01 10:30:00" "2024.01.01 10:45:00" t1030 t1045).
    + constructor.
    + reflexivity.
    + vm_compute. reflexivity.
    + vm_compute. reflexivity.
Defined.

(* ================================================================== *)
(** * C1: the full scan                                                *)
(* ================================================================== *)

(** ** The most recent session change *)

Lemma insert_by_time_In x y l :
  In y (insert_by_time x l) -> y = x \/ In y l.
Proof.
  induction l as [|z l IH]; simpl.
  - intros [<-|[]]. now left.
  - destruct (dt_ltb (fst z) (fst x)); simpl.
    + intros [<-|H]; [right; now left|]. destruct (IH H); auto.
    + intros [<-|[<-|H]]; auto.
Qed.

Lemma insert_by_time_not_nil x l : insert_by_time x l <> [].
Proof.
  destruct l as [|z l]; simpl; [discriminate|].
  destruct (dt_ltb (fst z) (fst x)); discriminate.
Qed.

Lemma sort_by_time_nil_inv l : sort_by_time l = [] -> l = [].
Proof.
  destruct l as [|x l]; simpl; [reflexivity|].
  intros H. now apply insert_by_time_not_nil in H.
Qed.

Lemma last_cons_cons {A : Type} (x y : A) (l : list A) (d : A) :
  last (x :: y :: l) d = last (y :: l) d.
Proof. reflexivity. Qed.

Lemma last_cons_nonempty {A : Type} (x : A) (l : list A) (d : A) :
  l <> [] -> last (x :: l) d = last l d.
Proof. destruct l; [congruence|reflexivity]. Qed.

Lemma last_default {A : Type} (l : list A) (d d' : A) :
  l <> [] -> last l d = last l d'.
Proof.
  induction l as [|x l IH]; [congruence|]. intros _.
  destruct l as [|y l]; [reflexivity|].
  rewrite !last_cons_cons. apply IH. discriminate.
Qed.

Lemma last_is_latest_tail x l : last_is_latest (x :: l) -> last_is_latest l.
Proof.
  intros H d y Hy. destruct l as [|z l]; [destruct Hy|].
  specialize (H d y (or_intror Hy)). now rewrite last_cons_cons in H.
Qed.

Lemma last_insert_by_time x l d :
  last_is_latest l ->
  last (insert_by_time x l) d
  = match l with
    | [] => x
    | _ :: _ => if dt_ltb (fst (last l d)) (fst x) then x else last l d
    end.
Proof.
  induction l as [|y l IH]; intros HL; [reflexivity|].
  simpl insert_by_time. destruct (dt_ltb (fst y) (fst x)) eqn:E.
  - rewrite last_cons_nonempty by apply insert_by_time_not_nil.
    rewrite IH by (eapply last_is_latest_tail; eauto).
    destruct l as [|y' l]; [simpl; now rewrite E|].
    now rewrite last_cons_cons.
  - rewrite last_cons_cons.
    destruct (dt_ltb (fst (last (y :: l) d)) (fst x)) eqn:E2; [|reflexivity].
    exfalso. pose proof (HL d y (or_introl eq_refl)) as H.
    unfold dt_ltb in *. apply Z.ltb_ge in E, H. apply Z.ltb_lt in E2. lia.
Qed.

Lemma sort_by_time_last_is_latest l : last_is_latest (sort_by_time l).
Proof.
  induction l as [|x l IH]; [intros d y []|].
  simpl. intros d y Hy. rewrite (last_insert_by_time _ _ _ IH).
  apply insert_by_time_In in Hy.
  destruct (sort_by_time l) as [|z zs] eqn:ES.
  - destruct Hy as [->|[]]. apply dt_ltb_irrefl.
  - destruct (dt_ltb (fst (last (z :: zs) d)) (fst x)) eqn:E.
    + destruct Hy as [->|Hy]; [apply dt_ltb_irrefl|].
      pose proof (IH d y Hy) as H. unfold dt_ltb in *.
      apply Z.ltb_lt in E. apply Z.ltb_ge in H. apply Z.ltb_ge. lia.
    + destruct Hy as [->|Hy]; [exact E|]. apply IH, Hy.
Qed.

(** The insertion sort is a sort, and a stable one, as [list.sort] is:
    its result is a permutation of the list, stands in order, and keeps the
    changes of one time in the order they had. *)
Lemma insert_by_time_perm x l : Permutation (insert_by_time x l) (x :: l).
Proof.
  induction l as [|y l IH]; simpl; [reflexivity|].
  destruct (dt_ltb (fst y) (fst x)); [|reflexivity].
  rewrite IH. apply perm_swap.
Qed.

Lemma sort_by_time_perm l : Permutation (sort_by_time l) l.
Proof.
  induction l as [|x l IH]; simpl; [reflexivity|].
  rewrite insert_by_time_perm. now constructor.
Qed.

Lemma insert_by_time_sorted x l :
  Sorted time_le l -> Sorted time_le (insert_by_time x l).
Proof.
  induction l as [|y l IH]; intros HS; simpl.
  - repeat constructor.
  - inversion HS as [|? ? HS' HR]; subst.
    destruct (dt_ltb (fst y) (fst x)) eqn:E.
    + constructor; [auto|].
      destruct l as [|z l]; simpl.
      * constructor. unfold time_le, dt_ltb, dt_leb in *.
        apply Z.ltb_lt in E. apply Z.leb_le. lia.
      * destruct (dt_ltb (fst z) (fst x)); constructor.
        -- now inversion HR.
        -- unfold time_le, dt_ltb, dt_leb in *.
           apply Z.ltb_lt in E. apply Z.leb_le. lia.
    + constructor; [exact HS|]. constructor.
      unfold time_le, dt_ltb, dt_leb in *.
      apply Z.ltb_ge in E. now apply Z.leb_le.
Qed.

Lemma sort_by_time_sorted l : Sorted time_le (sort_by_time l).
Proof.
  induction l as [|x l IH]; simpl; [constructor|].
  now apply insert_by_time_sorted.
Qed.

Lemma insert_by_time_stable t x l :
  filter (at_time t) (insert_by_time x l) = filter (at_time t) (x :: l).
Proof.
  induction l as [|y l IH]; [reflexivity|].
  simpl insert_by_time. destruct (dt_ltb (fst y) (fst x)) eqn:E;
    [|reflexivity].
  simpl filter in *. rewrite IH.
  destruct (at_time t x) eqn:Ex; [|reflexivity].
  destruct (at_time t y) eqn:Ey; [|reflexivity].
  exfalso. unfold at_time, dt_ltb in *.
  apply Z.eqb_eq in Ex, Ey. apply Z.ltb_lt in E. lia.
Qed.

Lemma sort_by_time_stable t l :
  filter (at_time t) (sort_by_time l) = filter (at_time t) l.
Proof.
  induction l as [|x l IH]; [reflexivity|].
  simpl sort_by_time. rewrite insert_by_time_stable. simpl. now rewrite IH.
Qed.

(** The last element after the sort, by recursion on the unsorted list. *)
Lemma last_sort_cons x l d :
  last (sort_by_time (x :: l)) d
  = match l with
    | [] => x
    | _ :: _ =>
        if dt_ltb (fst (last (sort_by_time l) d)) (fst x) then x
        else last (sort_by_time l) d
    end.
Proof.
  simpl sort_by_time.
  rewrite (last_insert_by_time _ _ _ (sort_by_time_last_is_latest l)).
  destruct l as [|y l]; [reflexivity|].
  destruct (sort_by_time (y :: l)) eqn:E; [|reflexivity].
  now apply sort_by_time_nil_inv in E.
Qed.

(** [instance_changes.sort(...)] followed by [instance_changes[-1]] is the
    single pass that keeps the latest change, a later one winning over an
    equal earlier one. *)
Lemma most_recent_is_latest c cs d :
  last (sort_by_time (c :: cs)) d = latest_from c cs.
Proof.
  revert c. induction cs as [|x cs IH]; intros c; [reflexivity|].
  simpl latest_from. rewrite <- IH.
  rewrite (last_sort_cons c (x :: cs)), (last_sort_cons x cs),
    (last_sort_cons (if dt_ltb (fst x) (fst c) then c else x) cs).
  destruct cs as [|y cs].
  - destruct (dt_ltb (fst x) (fst c)); reflexivity.
  - set (m := last (sort_by_time (y :: cs)) d).
    destruct (dt_ltb (fst m) (fst x)) eqn:E1;
      destruct (dt_ltb (fst x) (fst c)) eqn:E2;
      try rewrite E1; try rewrite E2;
      destruct (dt_ltb (fst m) (fst c)) eqn:E3;
      try reflexivity;
      unfold dt_ltb in *;
      repeat match goal with
             | H : (_ <? _)%Z = true |- _ => apply Z.ltb_lt in H
             | H : (_ <? _)%Z = false |- _ => apply Z.ltb_ge in H
             end; lia.
Qed.

(** What "most recent, last wins" means: everything before the chosen
    change is not later, everything after it is strictly earlier. *)
Lemma latest_from_spec c cs :
  exists pre post,
    c :: cs = (pre ++ latest_from c cs :: post)%list
    /\ (forall x, In x pre -> dt_leb (fst x) (fst (latest_from c cs)) = true)
    /\ (forall x, In x post -> dt_ltb (fst x) (fst (latest_from c cs)) = true).
Proof.
  rewrite <- (most_recent_is_latest c cs c).
  revert c. induction cs as [|y cs IH]; intros c.
  - exists [], []. simpl. repeat split; intros x [].
  - rewrite last_sort_cons.
    destruct (IH y) as (pre & post & E & Hpre & Hpost).
    rewrite (last_default _ y c) in E, Hpre, Hpost
      by (simpl; apply insert_by_time_not_nil).
    set (m := last (sort_by_time (y :: cs)) c) in *.
    destruct (dt_ltb (fst m) (fst c)) eqn:Ec.
    + exists [], (y :: cs). split; [reflexivity|].
      split; [intros x []|]. intros x Hx. rewrite E in Hx.
      apply in_app_or in Hx. unfold dt_ltb, dt_leb in *.
      apply Z.ltb_lt in Ec. apply Z.ltb_lt.
      destruct Hx as [Hx|[<-|Hx]].
      * specialize (Hpre x Hx). apply Z.leb_le in Hpre. lia.
      * lia.
      * specialize (Hpost x Hx). apply Z.ltb_lt in Hpost. lia.
    + exists (c :: pre), post. split; [simpl; now rewrite E|].
      split; [|exact Hpost]. intros x [<-|Hx]; [|auto].
      unfold dt_ltb, dt_leb in *. apply Z.ltb_ge in Ec. now apply Z.leb_le.
Qed.

(** ** What the scan leaves in the tracker *)

Lemma tracker_position_at_end f L : tracker (_position_at_end f L) = tracker L.
Proof. destruct f; reflexivity. Qed.

Lemma tracker_summary_loop (ps : list player) (L : logic) :
  tracker
    (fold_left
       (fun L' q =>
          match dict_get (id q) (_player_join_times L') with
          | Some join_time => log (InitialScanPlayer q join_time) L'
          | None => L'
          end) ps L)
  = tracker L.
Proof.
  revert L. induction ps as [|p ps IH]; intros L; simpl; [reflexivity|].
  rewrite IH. destruct (dict_get (id p) (_player_join_times L)); reflexivity.
Qed.

Lemma tracker_log_active_summary L :
  tracker (log_active_summary L) = tracker L.
Proof.
  unfold log_active_summary.
  destruct (fst (get_active_players L)) as [|p ps]; [reflexivity|].
  now rewrite tracker_summary_loop.
Qed.

(** An event acts on the tracker only. *)
Lemma tracker_apply_congr (e : log_event) (L L' : logic) :
  tracker L = tracker L' -> tracker (apply e L) = tracker (apply e L').
Proof.
  unfold tracker. intros H. injection H as H1 H2 H3.
  destruct e as [inst raw|pid nm t raw|pid nm t raw]; simpl.
  - now rewrite H3.
  - now rewrite H1, H2, H3.
  - unfold on_player_leave. simpl. rewrite H3.
    destruct (dict_mem pid (_player_join_times L')); simpl;
      now rewrite H1, H2, ?H3.
Qed.

Lemma tracker_process_congr (line : string) (L L' : logic) :
  tracker L = tracker L' ->
  tracker (_process_log_line line L) = tracker (_process_log_line line L').
Proof.
  intros H. destruct (extract line) as [e|] eqn:E.
  - rewrite !(process_extract_some _ _ _ E). now apply tracker_apply_congr.
  - now rewrite !(process_extract_none _ _ E).
Qed.

Lemma tracker_process_lines_congr (lines : list string) (L L' : logic) :
  tracker L = tracker L' ->
  tracker (process_lines lines L) = tracker (process_lines lines L').
Proof.
  revert L L'. induction lines as [|line rest IH]; intros L L' H;
    [exact H|].
  unfold process_lines. simpl. apply IH. now apply tracker_process_congr.
Qed.

(** With dates that [strptime] accepts, the second pass applies the lines
    that are not before the change, in order, and raises nothing. *)
Lemma replay_process_lines (since : datetime) (lines : list string)
    (L : logic) :
  forallb dates_ok lines = true ->
  replay since lines L
  = (process_lines (filter (not_before since) lines) L, None).
Proof.
  revert L. induction lines as [|line rest IH]; intros L H; [reflexivity|].
  simpl in H. apply andb_prop in H as [H1 H2].
  simpl. unfold dates_ok, not_before in *.
  destruct (timestamp_match line) as [raw|]; [|now apply IH].
  destruct (strptime raw) as [t|]; [|discriminate].
  destruct (dt_ltb t since); simpl; now apply IH.
Qed.

(** ** The first look for the current instance *)

Lemma first_instance_line_none (lines : list string) :
  first_instance_line lines = None <-> existsb is_change lines = false.
Proof.
  induction lines as [|line rest IH]; simpl; [tauto|].
  unfold is_change at 1.
  destruct (is_instance_line line); simpl; [|exact IH].
  destruct (instance_change line); simpl; [|exact IH].
  split; discriminate.
Qed.

Lemma existsb_rev {A : Type} (f : A -> bool) (l : list A) :
  existsb f (rev l) = existsb f l.
Proof.
  induction l as [|x l IH]; [reflexivity|].
  simpl. rewrite existsb_app, IH. simpl.
  destruct (f x), (existsb f l); reflexivity.
Qed.

Lemma instance_changes_none (lines : list string) cs :
  existsb is_change lines = false ->
  instance_changes lines = inr cs -> cs = [].
Proof.
  revert cs. induction lines as [|line rest IH]; intros cs; simpl.
  - intros _ H. now injection H as <-.
  - unfold is_change at 1. intros H. apply orb_false_elim in H as [H1 H2].
    destruct (is_instance_line line); simpl in H1; [|now apply IH].
    destruct (instance_change line); [discriminate|now apply IH].
Qed.

Lemma find_current_instance_found (c : string) (L : logic) x xs :
  instance_changes (readlines c) = inr (x :: xs) ->
  exists inst,
    current_instance (log_watcher (_find_current_instance (Readable c) L))
    = Some inst
    /\ tracker (_find_current_instance (Readable c) L)
       = (Some inst, player_events (log_watcher L), _player_join_times L).
Proof.
  intros H. unfold _find_current_instance.
  destruct (first_instance_line (rev (readlines c))) as [[ts inst]|] eqn:E.
  - exists inst. split; reflexivity.
  - apply first_instance_line_none in E. rewrite existsb_rev in E.
    now pose proof (instance_changes_none _ _ E H).
Qed.

(** ** What an extracted event says of its line *)

Lemma extract_session_inv line inst raw :
  extract line = Some (SessionChanged inst raw) ->
  is_instance_line line = true
  /\ instance_change line = Some (raw, inst)
  /\ timestamp_match line = Some raw.
Proof.
  unfold extract. destruct (is_instance_line line).
  - unfold instance_change.
    destruct (timestamp_match line) as [ts|]; [|discriminate].
    destruct (instance_id_found line) as [i|]; [|discriminate].
    intros H. injection H as <- <-. auto.
  - destruct (contains "[Behaviour] OnPlayerJoined" line).
    + destruct (timestamp_match line); [|discriminate].
      destruct (player_match "OnPlayerJoined" line) as [[? ?]|];
        [|discriminate].
      destruct (strptime _); discriminate.
    + destruct (contains "[Behaviour] OnPlayerLeft" line); [|discriminate].
      destruct (timestamp_match line); [|discriminate].
      destruct (player_match "OnPlayerLeft" line) as [[? ?]|];
        [|discriminate].
      destruct (strptime _); discriminate.
Qed.

Lemma extract_entered_inv line pid nm t raw :
  extract line = Some (UserEntered pid nm t raw) ->
  is_instance_line line = false
  /\ timestamp_match line = Some raw
  /\ strptime raw = Some t.
Proof.
  unfold extract. destruct (is_instance_line line).
  - destruct (instance_change line) as [[? ?]|]; discriminate.
  - destruct (contains "[Behaviour] OnPlayerJoined" line).
    + destruct (timestamp_match line) as [ts|]; [|discriminate].
      destruct (player_match "OnPlayerJoined" line) as [[? ?]|];
        [|discriminate].
      destruct (strptime ts) eqn:P; [|discriminate].
      intros H. injection H as <- <- <- <-. auto.
    + destruct (contains "[Behaviour] OnPlayerLeft" line); [|discriminate].
      destruct (timestamp_match line); [|discriminate].
      destruct (player_match "OnPlayerLeft" line) as [[? ?]|];
        [|discriminate].
      destruct (strptime _); discriminate.
Qed.

Lemma scan_tracker (c : string) (L : logic) c0 cs :
  instance_changes (readlines c) = inr (c0 :: cs) ->
  forallb dates_ok (readlines c) = true ->
  tracker (_scan_entire_log (Readable c) L)
  = tracker
      (process_lines
         (filter (not_before (fst (latest_from c0 cs))) (readlines c))
         (with_watcher
            (set_current_instance (Some (snd (latest_from c0 cs)))) L)).
Proof.
  intros HC HD. unfold _scan_entire_log.
  destruct (find_current_instance_found c (log ScanningEntireLog L) c0 cs HC)
    as (inst & Hci & Htr).
  rewrite Hci, HC.
  destruct (sort_by_time (c0 :: cs)) as [|x xs] eqn:ES;
    [apply sort_by_time_nil_inv in ES; discriminate|].
  cbv zeta. rewrite <- ES, most_recent_is_latest.
  rewrite (replay_process_lines _ _ _ HD).
  rewrite tracker_log_active_summary, tracker_position_at_end.
  apply tracker_process_lines_congr.
  unfold tracker in *. simpl in *. injection Htr as _ H2 H3.
  now rewrite H2, H3.
Qed.

(** Whatever the dates, the second pass applies the lines that are not
    before the change, in order, up to the first line whose timestamp
    [strptime] refuses. *)
Lemma replay_up_to_bad_date (since : datetime) (lines : list string)
    (L : logic) :
  fst (replay since lines L)
  = process_lines (filter (not_before since) (up_to_bad_date lines)) L.
Proof.
  revert L. induction lines as [|line rest IH]; intros L; [reflexivity|].
  cbn [replay up_to_bad_date]. unfold dates_ok, not_before.
  destruct (timestamp_match line) as [raw|] eqn:M.
  - destruct (strptime raw) as [t|] eqn:P; [|reflexivity].
    cbn [filter]. unfold not_before. rewrite M, P.
    destruct (dt_ltb t since); cbn [negb]; apply IH.
  - cbn [filter]. unfold not_before. rewrite M. apply IH.
Qed.

Lemma up_to_bad_date_all (lines : list string) :
  forallb dates_ok lines = true -> up_to_bad_date lines = lines.
Proof.
  induction lines as [|line rest IH]; [reflexivity|].
  cbn [forallb up_to_bad_date]. intros H. apply andb_prop in H as [H1 H2].
  rewrite H1. now rewrite IH.
Qed.

Lemma scan_tracker_any_dates (c : string) (L : logic) c0 cs :
  instance_changes (readlines c) = inr (c0 :: cs) ->
  tracker (_scan_entire_log (Readable c) L)
  = tracker
      (process_lines
         (filter (not_before (fst (latest_from c0 cs)))
                 (up_to_bad_date (readlines c)))
         (with_watcher
            (set_current_instance (Some (snd (latest_from c0 cs)))) L)).
Proof.
  intros HC. unfold _scan_entire_log.
  destruct (find_current_instance_found c (log ScanningEntireLog L) c0 cs HC)
    as (inst & Hci & Htr).
  rewrite Hci, HC.
  destruct (sort_by_time (c0 :: cs)) as [|x xs] eqn:ES;
    [apply sort_by_time_nil_inv in ES; discriminate|].
  cbv zeta. rewrite <- ES, most_recent_is_latest.
  match goal with
  | |- context [replay ?t ?ls ?L0] =>
      pose proof (replay_up_to_bad_date t ls L0) as RU;
      destruct (replay t ls L0) as [L5 [e|]]
  end; cbn [fst] in RU; subst L5.
  - unfold scan_failed. rewrite tracker_position_at_end.
    change (tracker (log ExceptionDetails (log (ErrorScanning e) ?X)))
      with (tracker X).
    apply tracker_process_lines_congr.
    unfold tracker in *. simpl in *. injection Htr as _ H2 H3.
    now rewrite H2, H3.
  - rewrite tracker_log_active_summary, tracker_position_at_end.
    apply tracker_process_lines_congr.
    unfold tracker in *. simpl in *. injection Htr as _ H2 H3.
    now rewrite H2, H3.
Qed.

(** A session-change line whose timestamp [strptime] refuses ends the scan
    in its first pass: nothing is applied. *)
Lemma scan_tracker_failed_first_pass (c : string) (L : logic) (e : exn) :
  instance_changes (readlines c) = inl e ->
  tracker (_scan_entire_log (Readable c) L)
  = tracker (_find_current_instance (Readable c) L).
Proof.
  intros HC. unfold _scan_entire_log. rewrite HC.
  assert (E : tracker (_find_current_instance (Readable c)
                         (log ScanningEntireLog L))
              = tracker (_find_current_instance (Readable c) L)).
  { unfold _find_current_instance.
    destruct (first_instance_line (rev (readlines c))) as [[ts inst]|];
      reflexivity. }
  destruct (current_instance
              (log_watcher (_find_current_instance (Readable c)
                              (log ScanningEntireLog L)))).
  - unfold scan_failed. rewrite tracker_position_at_end. exact E.
  - rewrite tracker_position_at_end. exact E.
Qed.

Lemma not_before_value since line raw t :
  timestamp_match line = Some raw -> strptime raw = Some t ->
  not_before since line = negb (dt_ltb t since).
Proof. unfold not_before. now intros -> ->. Qed.

Lemma dates_ok_value line raw t :
  timestamp_match line = Some raw -> strptime raw = Some t ->
  dates_ok line = true.
Proof. unfold dates_ok. now intros -> ->. Qed.

(** C1, as amended.  The full scan of [_scan_entire_log], on a log in
    which some line announces a session change and every timestamp is a
    date: the change it settles on is the most recent one by timestamp, a
    later line winning over an earlier one of equal time; the presence
    tracker then holds what results from setting that session and
    applying, in order, exactly the lines whose timestamp is not before
    that change.  In particular, for the four lines [SessionChanged S1 at
    t0], [UserEntered U1 at t1], [SessionChanged S2 at t2], [UserEntered U2
    at t3] with t0 < t1 < t2 < t3 the snapshot is for session S2 and holds
    U2 only.  Whatever the dates of the other lines, when the timestamps of
    the session changes are dates the tracker holds what results from
    applying, in order, the lines not before the most recent change that
    come before the first line whose timestamp is no date: there the scan
    stops.  When the timestamp of a session change is no date, nothing is
    applied: the tracker is as the first look for the current instance
    left it. *)
Theorem C1_backfill :
  (forall (c : string) (L : logic) (c0 : datetime * string)
          (cs : list (datetime * string)),
      instance_changes (readlines c) = inr (c0 :: cs) ->
      forallb dates_ok (readlines c) = true ->
      let recent := latest_from c0 cs in
      (exists pre post,
          c0 :: cs = (pre ++ recent :: post)%list
          /\ (forall x, In x pre -> dt_leb (fst x) (fst recent) = true)
          /\ (forall x, In x post -> dt_ltb (fst x) (fst recent) = true))
      /\ tracker (_scan_entire_log (Readable c) L)
         = tracker
             (process_lines
                (filter (not_before (fst recent)) (readlines c))
                (with_watcher (set_current_instance (Some (snd recent))) L)))
  /\ (forall (c : string) (L : logic)
             (l0 l1 l2 l3 S1 S2 U1 U2 n1 n2 raw0 raw1 raw2 raw3 : string)
             (t0 t1 t2 t3 : datetime),
         readlines c = [l0; l1; l2; l3] ->
         extract l0 = Some (SessionChanged S1 raw0) ->
         strptime raw0 = Some t0 ->
         extract l1 = Some (UserEntered U1 n1 t1 raw1) ->
         extract l2 = Some (SessionChanged S2 raw2) ->
         strptime raw2 = Some t2 ->
         extract l3 = Some (UserEntered U2 n2 t3 raw3) ->
         dt_ltb t0 t1 = true -> dt_ltb t1 t2 = true -> dt_ltb t2 t3 = true ->
         current_instance (log_watcher (_scan_entire_log (Readable c) L))
         = Some S2
         /\ get_active_players (_scan_entire_log (Readable c) L)
            = ([mkPlayer U2 n2], [(U2, t3)]))
  /\ (forall (c : string) (L : logic) (c0 : datetime * string)
             (cs : list (datetime * string)),
         instance_changes (readlines c) = inr (c0 :: cs) ->
         let recent := latest_from c0 cs in
         tracker (_scan_entire_log (Readable c) L)
         = tracker
             (process_lines
                (filter (not_before (fst recent))
                        (up_to_bad_date (readlines c)))
                (with_watcher (set_current_instance (Some (snd recent))) L)))
  /\ (forall (c : string) (L : logic) (e : exn),
         instance_changes (readlines c) = inl e ->
         tracker (_scan_entire_log (Readable c) L)
         = tracker (_find_current_instance (Readable c) L)).
Proof.
  split; [|split; [|split]].
  - intros c L c0 cs HC HD recent. split.
    + apply latest_from_spec.
    + now apply scan_tracker.
  - intros c L l0 l1 l2 l3 S1 S2 U1 U2 n1 n2 raw0 raw1 raw2 raw3 t0 t1 t2 t3
           HR E0 P0 E1 E2 P2 E3 H01 H12 H23.
    destruct (extract_session_inv _ _ _ E0) as (I0 & C0 & M0).
    destruct (extract_entered_inv _ _ _ _ _ E1) as (I1 & M1 & P1).
    destruct (extract_session_inv _ _ _ E2) as (I2 & C2 & M2).
    destruct (extract_entered_inv _ _ _ _ _ E3) as (I3 & M3 & P3).
    pose proof (dt_ltb_trans _ _ _ H01 H12) as H02.
    assert (HC : instance_changes (readlines c)
                 = inr [(t0, S1); (t2, S2)]).
    { rewrite HR. simpl. now rewrite I0, C0, P0, I1, I2, C2, P2, I3. }
    assert (HD : forallb dates_ok (readlines c) = true).
    { rewrite HR. simpl.
      now rewrite (dates_ok_value _ _ _ M0 P0), (dates_ok_value _ _ _ M1 P1),
        (dates_ok_value _ _ _ M2 P2), (dates_ok_value _ _ _ M3 P3). }
    pose proof (scan_tracker c L _ _ HC HD) as T.
    simpl latest_from in T. rewrite (dt_ltb_asym _ _ H02) in T.
    rewrite HR in T. simpl fst in T. simpl snd in T. simpl filter in T.
    rewrite (not_before_value _ _ _ _ M0 P0), (not_before_value _ _ _ _ M1 P1),
      (not_before_value _ _ _ _ M2 P2), (not_before_value _ _ _ _ M3 P3) in T.
    rewrite H02, H12, dt_ltb_irrefl, (dt_ltb_asym _ _ H23) in T.
    simpl in T. unfold process_lines in T. simpl in T.
    rewrite (process_extract_some _ _ _ E2), (process_extract_some _ _ _ E3)
      in T.
    unfold tracker in T. simpl in T.
    unfold ensure_events, append_join in T. simpl in T.
    rewrite (String.eqb_refl U2) in T. simpl in T.
    injection T as T1 T2 T3. split; [exact T1|].
    unfold get_active_players. rewrite T2. reflexivity.
  - intros c L c0 cs HC recent. now apply scan_tracker_any_dates.
  - intros c L e HC. now apply (scan_tracker_failed_first_pass c L e).
Qed.

Lemma C1_backfill_witness :
  current_instance
    (log_watcher (_scan_entire_log (Readable two_sessions) logic_init))
  = Some "wrld_2:200"
  /\ get_active_players (_scan_entire_log (Readable two_sessions) logic_init)
     = ([mkPlayer "usr_bob" "Bob"], [("usr_bob", t1030)]).
Proof.
  destruct C1_backfill as (_ & H & _).
  apply (H two_sessions logic_init room1_0900 alice_joins_0930 room2_1000
           bob_joins_1030 "wrld_1:100" "wrld_2:200" "usr_alice" "usr_bob"
           "Alice" "Bob" "2024.01.01 09:00:00" "2024.01.01 09:30:00"
           "2024.01.01 10:00:00" "2024.01.01 10:30:00"
           t0900 t0930 t1000 t1030); vm_compute; reflexivity.
Defined.

(** C1, the counterexample: one line whose timestamp is no date ends the
    scan.  In the log of a session change at 09:00, a join line of month
    13, which is no event, and the join of Alice at 09:30, the join of
    Alice is not before the session change and is the one event that
    remains; applying it gives a snapshot with Alice, yet the scan stops
    at the line before and its snapshot is empty. *)
Lemma C1_counterexample :
  let c := (room1_0900 ++ bob_joins_bad_month ++ alice_joins_0930)%string in
  readlines c = [room1_0900; bob_joins_bad_month; alice_joins_0930]
  /\ instance_changes (readlines c) = inr [(t0900, "wrld_1:100"%string)]
  /\ extract bob_joins_bad_month = None
  /\ extract alice_joins_0930
     = Some (UserEntered "usr_alice" "Alice" t0930 "2024.01.01 09:30:00")
  /\ dt_ltb t0930 t0900 = false
  /\ snapshot_ids
       (process_lines
          (filter (not_before t0900) (readlines c))
          (with_watcher (set_current_instance (Some "wrld_1:100"%string))
                        logic_init))
     = ["usr_alice"%string]
  /\ current_instance
       (log_watcher (_scan_entire_log (Readable c) logic_init))
     = Some "wrld_1:100"%string
  /\ snapshot_ids (_scan_entire_log (Readable c) logic_init) = [].
Proof. cbv zeta. repeat split; vm_compute; reflexivity. Qed.

(* ================================================================== *)
(** * C4: the poll loop and a source that shrinks                      *)
(* ================================================================== *)

Lemma watch_log_skips_missing (pre post : list file_status) (L : logic) :
  _watch_log (pre ++ Missing :: post) L = _watch_log (pre ++ post) L.
Proof.
  revert L. induction pre as [|f pre IH]; intros L; simpl.
  - destruct post as [|g post]; simpl;
      destruct (is_watching (log_watcher L)); reflexivity.
  - destruct (is_watching (log_watcher L)); [apply IH|reflexivity].
Qed.

(** C4, as amended.  When the size of the watched file is not above the
    read offset, as after a truncation or a rotation that shrank it, one
    iteration of the poll loop reads nothing and changes nothing: the old
    offset is kept, and the watcher goes on watching.  Reading resumes only
    when the size exceeds the offset, and then from the old offset.  Every
    iteration checks that the file exists before it reads: an iteration
    that finds no file changes nothing, and the loop goes on with the next
    one. *)
Theorem C4_shrunk_source_keeps_offset :
  (forall (c : string) (L : logic),
      (String.length c <= file_position (log_watcher L))%nat ->
      watch_log_iteration (Readable c) L = L)
  /\ (forall (c : string) (L : logic),
         (file_position (log_watcher L) < String.length c)%nat ->
         watch_log_iteration (Readable c) L
         = process_lines
             (readlines (seek (file_position (log_watcher L)) c))
             (with_watcher (set_file_position (String.length c)) L))
  /\ (forall L : logic, watch_log_iteration Missing L = L)
  /\ (forall (pre post : list file_status) (L : logic),
         _watch_log (pre ++ Missing :: post) L = _watch_log (pre ++ post) L).
Proof.
  repeat split.
  - intros c L H. unfold watch_log_iteration.
    apply Nat.ltb_ge in H. now rewrite H.
  - intros c L H. unfold watch_log_iteration.
    apply Nat.ltb_lt in H. now rewrite H.
  - apply watch_log_skips_missing.
Qed.

Lemma C4_shrunk_source_keeps_offset_witness :
  watch_log_iteration (Readable room1_0900) watching_at_500 = watching_at_500
  /\ watch_log_iteration (Readable two_sessions) logic_init
     = process_lines (readlines two_sessions)
         (with_watcher (set_file_position (String.length two_sessions))
                       logic_init).
Proof.
  destruct C4_shrunk_source_keeps_offset as (H1 & H2 & _). split.
  - apply (H1 room1_0900 watching_at_500). vm_compute. lia.
  - apply (H2 two_sessions logic_init). vm_compute. lia.
Defined.

(** C4, as stated, fails: the watcher has read 500 characters, the file now
    holds fewer, and the iteration leaves everything as it was; the offset
    is still 500, not 0, and the watcher still counts as watching. *)
Lemma C4_counterexample :
  (String.length room1_0900 < file_position (log_watcher watching_at_500))%nat
  /\ watch_log_iteration (Readable room1_0900) watching_at_500
     = watching_at_500
  /\ file_position
       (log_watcher (watch_log_iteration (Readable room1_0900) watching_at_500))
     = 500%nat
  /\ is_watching
       (log_watcher (watch_log_iteration (Readable room1_0900) watching_at_500))
     = true.
Proof. repeat split; vm_compute; lia || reflexivity. Qed.

(* ================================================================== *)
(** * C7: the eligibility filter                                       *)
(* ================================================================== *)

Lemma py_in_iff (x : string) (l : list string) : py_in x l = true <-> In x l.
Proof.
  unfold py_in. rewrite existsb_exists. split.
  - intros (y & Hy & E). apply String.eqb_eq in E. now subst.
  - intros H. exists x. split; [assumption|apply String.eqb_refl].
Qed.

Lemma py_in_false_iff (x : string) (l : list string) :
  py_in x l = false <-> ~ In x l.
Proof.
  rewrite <- py_in_iff. destruct (py_in x l); split; congruence.
Qed.

(* ================================================================== *)
(** * The float of total_seconds                                       *)
(* ================================================================== *)

Section FloatOfSeconds.

Local Open Scope Z_scope.

Lemma scaled_pos n k e :
  0 < n -> 0 < k -> 0 < fst (scaled n k e) /\ 0 < snd (scaled n k e).
Proof.
  intros Hn Hk. unfold scaled. destruct (0 <=? e) eqn:E; simpl.
  - apply Z.leb_le in E. assert (0 < 2 ^ e) by (apply Z.pow_pos_nonneg; lia). nia.
  - apply Z.leb_gt in E. assert (0 < 2 ^ (- e)) by (apply Z.pow_pos_nonneg; lia). nia.
Qed.

(** One exponent more halves the fraction. *)
Lemma scaled_succ n k e : 0 < n -> 0 < k ->
  fst (scaled n k e) * snd (scaled n k (e + 1))
  = 2 * fst (scaled n k (e + 1)) * snd (scaled n k e).
Proof.
  intros Hn Hk. unfold scaled.
  destruct (0 <=? e) eqn:E; destruct (0 <=? e + 1) eqn:E1; cbn [fst snd];
    try apply Z.leb_le in E; try apply Z.leb_gt in E;
    try apply Z.leb_le in E1; try apply Z.leb_gt in E1; try lia.
  - rewrite (Z.pow_add_r 2 e 1) by lia. rewrite Z.pow_1_r. ring.
  - assert (e = -1) by lia. subst e.
    change (- -1) with 1. change (-1 + 1) with 0.
    rewrite Z.pow_1_r, Z.pow_0_r. ring.
  - replace (- e) with (- (e + 1) + 1) by lia.
    rewrite (Z.pow_add_r 2 (- (e + 1)) 1) by lia. rewrite Z.pow_1_r. ring.
Qed.

(** At the first exponent tried the fraction is above 2^52. *)
Lemma scaled_first n k : 0 < n -> 0 < k ->
  snd (scaled n k (Z.log2 n - Z.log2 k - 53)) * 2 ^ 52
  < fst (scaled n k (Z.log2 n - Z.log2 k - 53)).
Proof.
  intros Hn Hk.
  destruct (Z.log2_spec n Hn) as [An _]. destruct (Z.log2_spec k Hk) as [_ Bk].
  pose proof (Z.log2_nonneg n) as A0. pose proof (Z.log2_nonneg k) as B0.
  set (A := Z.log2 n) in *. set (B := Z.log2 k) in *.
  unfold scaled. destruct (0 <=? A - B - 53) eqn:E; cbn [fst snd].
  - apply Z.leb_le in E.
    assert (P : 2 ^ A = 2 ^ (A - B - 53) * 2 ^ 52 * 2 ^ (Z.succ B)).
    { rewrite <- !Z.pow_add_r by lia. f_equal. lia. }
    assert (0 < 2 ^ (A - B - 53)) by (apply Z.pow_pos_nonneg; lia).
    assert (0 < 2 ^ 52) by (apply Z.pow_pos_nonneg; lia).
    nia.
  - apply Z.leb_gt in E.
    assert (P : 2 ^ A * 2 ^ (- (A - B - 53)) = 2 ^ 52 * 2 ^ (Z.succ B)).
    { rewrite <- !Z.pow_add_r by lia. f_equal. lia. }
    assert (0 < 2 ^ (- (A - B - 53))) by (apply Z.pow_pos_nonneg; lia).
    assert (0 < 2 ^ 52) by (apply Z.pow_pos_nonneg; lia).
    nia.
Qed.

(** At the exponent chosen the fraction is at least 2^52: the mantissa
    has its 53 bits. *)
Lemma true_divide_normal n k : 0 < n -> 0 < k ->
  let e := snd (true_divide n k) in
  snd (scaled n k e) * 2 ^ 52 <= fst (scaled n k e).
Proof.
  intros Hn Hk. unfold true_divide. cbn [snd].
  pose proof (scaled_first n k Hn Hk) as F.
  set (e0 := Z.log2 n - Z.log2 k - 53) in *.
  destruct (fst (scaled n k e0) <? snd (scaled n k e0) * 2 ^ 53) eqn:T.
  - lia.
  - apply Z.ltb_ge in T.
    pose proof (scaled_succ n k e0 Hn Hk) as S.
    destruct (scaled_pos n k e0 Hn Hk) as [P1 P2].
    destruct (scaled_pos n k (e0 + 1) Hn Hk) as [P3 P4].
    change (2 ^ 53) with (2 * 2 ^ 52) in T.
    assert (0 < 2 ^ 52) by (apply Z.pow_pos_nonneg; lia).
    nia.
Qed.

Lemma true_divide_fst n k :
  fst (true_divide n k)
  = round_half_even (fst (scaled n k (snd (true_divide n k))))
                    (snd (scaled n k (snd (true_divide n k)))).
Proof. reflexivity. Qed.

Lemma round_half_even_bounds a b : 0 < b ->
  a / b <= round_half_even a b <= a / b + 1.
Proof.
  intros Hb. unfold round_half_even.
  destruct (2 * (a mod b) <? b); [lia|].
  destruct (b <? 2 * (a mod b)); [lia|].
  destruct (Z.even (a / b)); lia.
Qed.

(** Up to 2^34 seconds of delay the float decides as the exact time in
    the instance does. *)
Lemma too_recent_exact current_time join_time delay :
  0 <= delay <= 2 ^ 34 ->
  too_recent current_time join_time delay
  = (current_time - join_time <? delay * 1000000).
Proof.
  intros Hd. unfold too_recent. cbn zeta.
  set (n := current_time - join_time).
  destruct (n =? 0) eqn:E0.
  { apply Z.eqb_eq in E0. subst n.
    destruct (0 <? delay) eqn:E; symmetry;
      [apply Z.ltb_lt in E; apply Z.ltb_lt; lia
      |apply Z.ltb_ge in E; apply Z.ltb_ge; lia]. }
  apply Z.eqb_neq in E0.
  destruct (0 <? n) eqn:Ep.
  - apply Z.ltb_lt in Ep.
    pose proof (true_divide_normal n 1000000 Ep ltac:(lia)) as N.
    unfold float_ltb. cbn zeta in N. rewrite true_divide_fst.
    set (e := snd (true_divide n 1000000)) in *.
    assert (P52 : 2 ^ 52 = 4503599627370496) by reflexivity.
    assert (P34 : 2 ^ 34 = 17179869184) by reflexivity.
    unfold scaled in *.
    destruct (0 <=? e) eqn:Ee; cbn [fst snd] in *.
    + apply Z.leb_le in Ee.
      assert (1 <= 2 ^ e) by (apply (Z.pow_le_mono_r 2 0 e); lia).
      pose proof (round_half_even_bounds n (1000000 * 2 ^ e) ltac:(lia)) as [R _].
      assert (Q : 2 ^ 52 <= n / (1000000 * 2 ^ e)).
      { apply Z.div_le_lower_bound; lia. }
      assert ((n <? delay * 1000000) = false) as ->.
      { apply Z.ltb_ge. nia. }
      apply Z.ltb_ge. nia.
    + apply Z.leb_gt in Ee.
      pose proof (round_half_even_bounds (n * 2 ^ (- e)) 1000000 ltac:(lia))
        as [R1 R2].
      pose proof (Z.div_mod (n * 2 ^ (- e)) 1000000 ltac:(lia)) as DM.
      pose proof (Z.mod_pos_bound (n * 2 ^ (- e)) 1000000 ltac:(lia)) as MB.
      assert (0 < 2 ^ (- e)) by (apply Z.pow_pos_nonneg; lia).
      destruct (n <? delay * 1000000) eqn:T.
      * apply Z.ltb_lt in T. apply Z.ltb_lt.
        assert (Ee' : e <= -19).
        { destruct (Z_le_gt_dec e (-19)) as [|G]; [assumption|exfalso].
          assert (2 ^ (- e) <= 2 ^ 18) by (apply Z.pow_le_mono_r; lia).
          change (2 ^ 18) with 262144 in *. nia. }
        assert (2 ^ 19 <= 2 ^ (- e)) by (apply Z.pow_le_mono_r; lia).
        change (2 ^ 19) with 524288 in *.
        set (P := 2 ^ (- e)) in *.
        assert (A : n * P <= delay * P * 1000000 - P) by nia.
        unfold round_half_even.
        set (q := n * P / 1000000) in *. set (r := (n * P) mod 1000000) in *.
        destruct (2 * r <? 1000000) eqn:T1.
        { apply Z.ltb_lt in T1. nia. }
        apply Z.ltb_ge in T1.
        assert (q + 1 < delay * P) by nia.
        destruct (1000000 <? 2 * r); [lia|]. destruct (Z.even q); lia.
      * apply Z.ltb_ge in T. apply Z.ltb_ge.
        set (P := 2 ^ (- e)) in *.
        assert (delay * P <= n * P / 1000000).
        { apply Z.div_le_lower_bound; nia. }
        lia.
  - apply Z.ltb_ge in Ep. assert (Hn : 0 < - n) by lia.
    assert ((n <? delay * 1000000) = true) as -> by (apply Z.ltb_lt; lia).
    pose proof (true_divide_normal (- n) 1000000 Hn ltac:(lia)) as N.
    unfold float_gtb. cbn zeta in N. rewrite true_divide_fst.
    set (e := snd (true_divide (- n) 1000000)) in *.
    destruct (scaled_pos (- n) 1000000 e Hn ltac:(lia)) as [S1 S2].
    pose proof (round_half_even_bounds (fst (scaled (- n) 1000000 e)) _ S2)
      as [R _].
    assert (P52 : 0 < 2 ^ 52) by reflexivity.
    assert (Q : 1 <= fst (scaled (- n) 1000000 e) / snd (scaled (- n) 1000000 e)).
    { apply Z.div_le_lower_bound; nia. }
    destruct (0 <=? e) eqn:Ee.
    + apply Z.leb_le in Ee. apply Z.ltb_lt.
      assert (1 <= 2 ^ e) by (apply (Z.pow_le_mono_r 2 0 e); lia). nia.
    + apply Z.leb_gt in Ee. apply Z.ltb_lt.
      assert (0 < 2 ^ (- e)) by (apply Z.pow_pos_nonneg; lia). nia.
Qed.

End FloatOfSeconds.

(** The loop is the filter of the specification, for a minimum dwell
    time of at most 2^34 seconds. *)
Lemma filtered_players_eligible self_id members pending now min_dwell pwt :
  (0 <= min_dwell <= 2 ^ 34)%Z ->
  filtered_players self_id members pending now min_dwell pwt
  = eligible self_id members pending now min_dwell pwt.
Proof.
  intros Hd. unfold eligible, excluded.
  induction pwt as [|[p jt] rest IH]; cbn [filtered_players filter map fst snd];
    [reflexivity|].
  destruct (String.eqb (id p) self_id); cbn [orb negb]; [exact IH|].
  destruct (py_in (id p) members); cbn [orb negb]; [exact IH|].
  destruct (py_in (id p) pending); cbn [orb negb]; [exact IH|].
  rewrite (too_recent_exact now jt min_dwell Hd).
  destruct (now - jt <? min_dwell * 1000000)%Z; cbn [orb negb map fst];
    [exact IH|].
  now rewrite IH.
Qed.

Lemma excluded_false_iff self_id members pending now min_dwell p jt :
  excluded self_id members pending now min_dwell (p, jt) = false
  <-> id p <> self_id /\ ~ In (id p) members /\ ~ In (id p) pending
      /\ (min_dwell * 1000000 <= now - jt)%Z.
Proof.
  unfold excluded. simpl.
  rewrite !orb_false_iff, !py_in_false_iff, String.eqb_neq, Z.ltb_ge.
  tauto.
Qed.

(** C7, as amended.  For a minimum dwell time of at most 2^34 seconds the
    candidates are the present players minus those that one of the four
    exclusions removes: the loop of the source computes the filter of the
    specification, in the order of its input; a player is a candidate
    exactly when an entry of the player passes all four tests (not the
    acting user, not a group member, no pending invite, in the instance
    for at least the minimum dwell time); and the players handed to the
    dispatch thread are these candidates, so each of them passes all
    four. *)
Theorem C7_eligible_candidates :
  forall (self_id : string) (members pending : list string)
         (now : instant) (min_dwell : Z) (pwt : list (player * instant)),
    (0 <= min_dwell <= 2 ^ 34)%Z ->
    filtered_players self_id members pending now min_dwell pwt
    = eligible self_id members pending now min_dwell pwt
    /\ (forall p : player,
           In p (filtered_players self_id members pending now min_dwell pwt)
           <-> exists jt : instant,
               In (p, jt) pwt
               /\ id p <> self_id
               /\ ~ In (id p) members
               /\ ~ In (id p) pending
               /\ ~ (now - jt < min_dwell * 1000000)%Z)
    /\ (forall (L : logic) (handed : list player) (p : player),
           snd (invite_filtered self_id members pending now min_dwell pwt L)
           = Some handed ->
           handed = filtered_players self_id members pending now min_dwell pwt
           /\ (In p handed ->
               id p <> self_id /\ ~ In (id p) members
               /\ ~ In (id p) pending
               /\ exists jt : instant,
                   In (p, jt) pwt /\ ~ (now - jt < min_dwell * 1000000)%Z)).
Proof.
  intros self_id members pending now min_dwell pwt Hd.
  pose proof (filtered_players_eligible self_id members pending now min_dwell
                pwt Hd) as FE.
  assert (IFF : forall p : player,
             In p (filtered_players self_id members pending now min_dwell pwt)
             <-> exists jt : instant,
                 In (p, jt) pwt
                 /\ id p <> self_id
                 /\ ~ In (id p) members
                 /\ ~ In (id p) pending
                 /\ ~ (now - jt < min_dwell * 1000000)%Z).
  { intros p. rewrite FE. unfold eligible.
    rewrite in_map_iff. split.
    - intros ([q jt] & <- & H). apply filter_In in H as [HI HE].
      apply negb_true_iff, excluded_false_iff in HE.
      exists jt. simpl. intuition lia.
    - intros (jt & HI & H1 & H2 & H3 & H4). exists (p, jt).
      split; [reflexivity|]. apply filter_In. split; [exact HI|].
      apply negb_true_iff, excluded_false_iff. intuition lia. }
  split; [exact FE|]. split; [exact IFF|].
  intros L handed p. unfold invite_filtered.
  destruct (filtered_players self_id members pending now min_dwell pwt)
    as [|q qs] eqn:E; simpl; [discriminate|].
  intros H. injection H as <-. split; [reflexivity|].
  intros HI. apply IFF in HI.
  destruct HI as (jt & HI & H1 & H2 & H3 & H4). eauto 10.
Qed.

Lemma C7_eligible_candidates_witness :
  (0 <= 5 <= 2 ^ 34)%Z
  /\ snd (invite_filtered "usr_a" ["usr_b"] ["usr_c"] now_us 5 five_present
                          logic_init)
     = Some [mkPlayer "usr_d" "D"]
  /\ (id (mkPlayer "usr_d" "D") <> "usr_a"
      /\ ~ In (id (mkPlayer "usr_d" "D")) ["usr_b"]
      /\ ~ In (id (mkPlayer "usr_d" "D")) ["usr_c"]
      /\ exists jt : instant,
          In (mkPlayer "usr_d" "D", jt) five_present
          /\ ~ (now_us - jt < 5 * 1000000)%Z).
Proof.
  assert (Hd : (0 <= 5 <= 2 ^ 34)%Z) by (split; discriminate).
  split; [exact Hd|].
  split; [vm_compute; reflexivity|].
  destruct (C7_eligible_candidates "usr_a" ["usr_b"] ["usr_c"] now_us 5
              five_present Hd) as (_ & _ & H).
  apply (H logic_init [mkPlayer "usr_d" "D"] (mkPlayer "usr_d" "D")).
  - vm_compute. reflexivity.
  - simpl. left. reflexivity.
Defined.

(** C7, the counterexample: above 2^34 seconds the float of the time in
    the instance rounds up to the minimum dwell time.  At 20000000000
    seconds a player who has been in the instance for one microsecond less
    is no candidate of the specification, yet the loop keeps the player
    and the player is handed to the dispatch thread. *)
Lemma C7_counterexample :
  (long_after - 0 < long_dwell * 1000000)%Z
  /\ eligible "usr_me" [] [] long_after long_dwell dora_since_0 = []
  /\ filtered_players "usr_me" [] [] long_after long_dwell dora_since_0
     = [dora]
  /\ snd (invite_filtered "usr_me" [] [] long_after long_dwell dora_since_0
                          logged_in)
     = Some [dora].
Proof.
  split; [reflexivity|].
  split; [vm_compute; reflexivity|].
  split; vm_compute; reflexivity.
Qed.

(* ================================================================== *)
(** * C9: start on a watcher that is running                           *)
(* ================================================================== *)

(** C9, as amended.  [start_log_watching] on a watcher that is running is
    a no-op reported as already running: the state is the one given plus
    the message "Log watcher is already running", nothing is scanned or
    repositioned, and the result is true.  That differs from the false it
    returns, on a watcher that is not running, when no log file is found
    or the file found does not exist.  The watcher's own [start_watching]
    on a running watcher is a no-op as well, reported as "Already watching
    log file", and returns false.  A file that exists but cannot be opened
    is no failure of start: the error is logged, the watcher is started
    and the result is true. *)
Theorem C9_start_when_running :
  forall (_get_vrchat_log_path : logic -> option string * logic)
         (fs : string -> file_status) (scan_existing : bool) (L : logic),
    (is_watching (log_watcher L) = true ->
     start_log_watching _get_vrchat_log_path fs scan_existing L
     = (true, log WatcherAlreadyRunning L)
     /\ forall log_path : option string,
         start_watching _get_vrchat_log_path fs log_path scan_existing L
         = (false, log AlreadyWatching L))
    /\ (is_watching (log_watcher L) = false ->
        fst (_get_vrchat_log_path L) = None ->
        fst (start_log_watching _get_vrchat_log_path fs scan_existing L)
        = false)
    /\ (forall p : string,
           is_watching (log_watcher L) = false ->
           _get_vrchat_log_path L = (Some p, L) ->
           fs p = Missing ->
           fst (start_log_watching _get_vrchat_log_path fs scan_existing L)
           = false)
    /\ (forall (p : string) (n : nat),
           is_watching (log_watcher L) = false ->
           _get_vrchat_log_path L = (Some p, L) ->
           p <> EmptyString ->
           fs p = Unreadable n ->
           fst (start_log_watching _get_vrchat_log_path fs scan_existing L)
           = true).
Proof.
  intros gp fs scan_existing L. repeat split.
  - unfold start_log_watching. now rewrite H.
  - intros log_path. unfold start_watching. now rewrite H.
  - intros HW HN. unfold start_log_watching. rewrite HW.
    destruct (gp L) as [lp L1]. simpl in HN. subst lp. reflexivity.
  - intros p HW HG HF. unfold start_log_watching, start_watching.
    rewrite HW, HG.
    destruct p as [|a p]; simpl; [reflexivity|]. now rewrite HW, HF.
  - intros p n HW HG HP HF. unfold start_log_watching, start_watching.
    rewrite HW, HG.
    destruct p as [|a p]; [congruence|]. simpl. now rewrite HW, HF.
Qed.

Lemma C9_start_when_running_witness :
  start_log_watching finds_log fs_missing true watching_at_500
  = (true, log WatcherAlreadyRunning watching_at_500)
  /\ fst (start_log_watching finds_log fs_missing true logic_init) = false
  /\ fst (start_log_watching finds_log fs_unreadable true logic_init) = true.
Proof.
  split; [|split].
  - destruct (C9_start_when_running finds_log fs_missing true watching_at_500)
      as (H & _).
    apply H. reflexivity.
  - destruct (C9_start_when_running finds_log fs_missing true logic_init)
      as (_ & _ & H & _).
    apply (H "output_log.txt"); reflexivity.
  - destruct (C9_start_when_running finds_log fs_unreadable true logic_init)
      as (_ & _ & _ & H).
    apply (H "output_log.txt" 320%nat); try reflexivity. discriminate.
Defined.

(** C9, as stated, fails in two places.  The watcher's own
    [start_watching], called on a running watcher, returns false, which is
    also the result of a failed start; and a log file that exists but
    cannot be read makes start return true, not false. *)
Lemma C9_counterexample :
  fst (start_watching finds_log fs_missing (Some "output_log.txt") true
                      watching_at_500)
  = fst (start_watching finds_log fs_missing (Some "output_log.txt") true
                        logic_init)
  /\ fst (start_log_watching finds_log fs_unreadable true logic_init) = true.
Proof. split; vm_compute; reflexivity. Qed.

(* ================================================================== *)
(** * C10: logout                                                      *)
(* ================================================================== *)

(** C10.  After [logout] on a client that is logged in, whether the remote
    logout call returns or raises (and whatever clearing the saved login
    does), the five API handles and [current_user] are [None] and
    [is_logged_in] is false.  On a client that is not logged in, [logout]
    leaves every attribute as it was; it only logs "Not logged in". *)
Theorem C10_logout_resets :
  forall (remote_logout : answer unit) (config_manager : option (answer unit))
         (clear_saved_credentials : bool) (L : logic),
    (is_logged_in L = true ->
     let L' := logout remote_logout config_manager clear_saved_credentials L in
     api_client L' = None /\ auth_api L' = None /\ groups_api L' = None
     /\ users_api L' = None /\ worlds_api L' = None
     /\ current_user L' = None /\ is_logged_in L' = false)
    /\ (is_logged_in L = false ->
        logout remote_logout config_manager clear_saved_credentials L
        = log NotLoggedIn L).
Proof.
  intros remote_logout config_manager clear_saved_credentials L. split.
  - intros H. unfold logout. rewrite H. simpl. repeat split.
  - intros H. unfold logout. now rewrite H.
Qed.

Lemma C10_logout_resets_witness :
  (let L' := logout (Raised OtherError) None false logged_in in
   api_client L' = None /\ auth_api L' = None /\ groups_api L' = None
   /\ users_api L' = None /\ worlds_api L' = None
   /\ current_user L' = None /\ is_logged_in L' = false)
  /\ logout (Returned tt) None false logic_init = log NotLoggedIn logic_init.
Proof.
  split.
  - apply (C10_logout_resets (Raised OtherError) None false logged_in).
    reflexivity.
  - apply (C10_logout_resets (Returned tt) None false logic_init).
    reflexivity.
Defined.

(* ================================================================== *)
(** * The worker pool                                                  *)
(* ================================================================== *)

Section PoolFacts.

Variable group_id : string.
Variable total_players : nat.
Variable delay : nat.

(** Unfold the body of the loop and split on every answer. *)
Ltac body_cases :=
  unfold process_player, check_membership, check_pending, send_invite,
    unexpected, api_exception_details;
  cbv zeta;
  repeat match goal with
         | |- context [match ?x with _ => _ end] =>
             lazymatch x with
             | context [match _ with _ => _ end] => fail
             | _ => destruct x
             end
         end;
  try reflexivity.

(** The body of the loop touches neither the queue nor the flag. *)
Lemma process_player_queue (r : remote) (p : player) (S : shared) :
  player_queue (process_player group_id total_players r p S)
  = player_queue S.
Proof. body_cases. Qed.

Lemma process_player_flag (r : remote) (p : player) (S : shared) :
  is_inviting (self (process_player group_id total_players r p S))
  = is_inviting (self S).
Proof. body_cases. Qed.

(** A member is skipped: one call, the membership check, and one more
    skip. *)
Lemma process_player_member (r : remote) (p : player) (S : shared) :
  is_member p r ->
  process_player group_id total_players r p S
  = say (SkippedAlreadyInGroup p (invited_count S) total_players)
        (incr_skipped
           (issue (GetGroupMember group_id (id p))
                  (say (CheckingMembership p group_id) S))).
Proof.
  unfold is_member, process_player, check_membership. now intros ->.
Qed.

(** No worker writes the flag. *)
Lemma worker_step_flag (r : remote) (c : pc) (S : shared) :
  is_inviting (self (fst (worker_step group_id total_players delay r c S)))
  = is_inviting (self S).
Proof.
  destruct c; simpl; try reflexivity.
  - destruct (player_queue S); [reflexivity|].
    destruct (is_inviting (self S)) eqn:E; simpl; exact E.
  - destruct (is_inviting (self S)) eqn:E; simpl; exact E.
  - destruct (player_queue S); reflexivity.
  - destruct (is_inviting (self S)) eqn:E; simpl; exact E.
  - apply process_player_flag.
  - destruct (is_inviting (self S)) eqn:E; simpl; exact E.
Qed.

(** The worker that moves, and the others around it. *)
Lemma set_nth_split (ws : list pc) (i : nat) (c : pc) :
  nth_error ws i = Some c ->
  exists pre post,
    ws = (pre ++ c :: post)%list
    /\ forall c', set_nth i c' ws = (pre ++ c' :: post)%list.
Proof.
  revert i. induction ws as [|w ws IH]; intros [|i] H; simpl in H;
    try discriminate.
  - injection H as ->. exists [], ws. split; reflexivity.
  - destruct (IH i H) as (pre & post & E & F).
    exists (w :: pre), post. split; [simpl; now rewrite E|].
    intros c'. simpl. now rewrite F.
Qed.

Lemma held_split (pre post : list pc) (c : pc) :
  held (pre ++ c :: post)
  = (held pre ++ held [c] ++ held post)%list.
Proof.
  unfold held. rewrite flat_map_app. simpl. now rewrite app_nil_r.
Qed.

Lemma in_process_split (pre post : list pc) (c : pc) :
  in_process (pre ++ c :: post)
  = (in_process pre ++ in_process [c] ++ in_process post)%list.
Proof.
  unfold in_process. rewrite flat_map_app. simpl. now rewrite app_nil_r.
Qed.

End PoolFacts.

Section PoolRuns.

Variable group_id : string.
Variable total_players : nat.
Variable delay : nat.
Variable allowed : remote -> Prop.

Ltac in_lists :=
  intros ?z ?Hz; rewrite ?in_app_iff in *; simpl in *; tauto.

(** After the flag is cleared, a move of a worker takes no player into
    processing and loses none: a player taken from the queue is held and
    then put back. *)
Lemma cancelled_worker_move (s s' : pool) :
  worker_move group_id total_players delay allowed s s' ->
  is_inviting (self (fst s)) = false ->
  is_inviting (self (fst s')) = false
  /\ Permutation (player_queue (fst s') ++ held (snd s'))
                 (player_queue (fst s) ++ held (snd s))
  /\ incl (in_process (snd s')) (in_process (snd s)).
Proof.
  intros M HF. destruct M as [r S S' ws i c c' _ Hn Hc Hs]. simpl in *.
  split.
  { pose proof (worker_step_flag group_id total_players delay r c S) as F.
    rewrite Hs in F. simpl in F. congruence. }
  destruct (set_nth_split ws i c Hn) as (pre & post & -> & E).
  rewrite E, !held_split, !in_process_split.
  destruct c; simpl in Hs; rewrite ?HF in Hs; try congruence.
  - (* AtWhile *)
    destruct (player_queue S) eqn:Q; injection Hs as <- <-; rewrite ?Q;
      (split; [reflexivity|apply incl_refl]).
  - (* AtCheckBeforeGet *)
    injection Hs as <- <-. split; [reflexivity|apply incl_refl].
  - (* AtGet *)
    destruct (player_queue S) as [|p q] eqn:Q; injection Hs as <- <-; simpl.
    + rewrite Q. split; [reflexivity|apply incl_refl].
    + split; [|apply incl_refl].
      apply Permutation_sym.
      rewrite (app_assoc q (held pre) (p :: held post)).
      apply Permutation_cons_app. rewrite <- app_assoc. reflexivity.
  - (* AtCheckBeforeProcess *)
    injection Hs as <- <-. simpl. split; [|apply incl_refl].
    rewrite <- app_assoc. apply Permutation_app_head. simpl.
    apply Permutation_cons_app. reflexivity.
  - (* AtProcess *)
    injection Hs as <- <-. rewrite process_player_queue. simpl.
    split; [reflexivity|in_lists].
  - (* AtCheckBeforeWait *)
    injection Hs as <- <-. split; [reflexivity|apply incl_refl].
  - (* AtSleep *)
    injection Hs as <- <-. split; [reflexivity|apply incl_refl].
Qed.

Lemma cancelled_step (s s' : pool) :
  step_of_one_run group_id total_players delay allowed s s' ->
  is_inviting (self (fst s)) = false ->
  is_inviting (self (fst s')) = false
  /\ Permutation (player_queue (fst s') ++ held (snd s'))
                 (player_queue (fst s) ++ held (snd s))
  /\ incl (in_process (snd s')) (in_process (snd s)).
Proof.
  intros [s1 s2 M|S ws] HF.
  - now apply cancelled_worker_move.
  - simpl in *. unfold stop_inviting. rewrite HF. simpl.
    repeat split; [exact HF|reflexivity|apply incl_refl].
Qed.

(** The same for a whole run. *)
Lemma cancelled_run (s s' : pool) :
  run (step_of_one_run group_id total_players delay allowed) s s' ->
  is_inviting (self (fst s)) = false ->
  is_inviting (self (fst s')) = false
  /\ Permutation (player_queue (fst s') ++ held (snd s'))
                 (player_queue (fst s) ++ held (snd s))
  /\ incl (in_process (snd s')) (in_process (snd s)).
Proof.
  induction 1 as [s|s1 s2 s3 M R IH]; intros HF.
  - repeat split; [exact HF|reflexivity|apply incl_refl].
  - destruct (cancelled_step _ _ M HF) as (F2 & P2 & I2).
    destruct (IH F2) as (F3 & P3 & I3).
    repeat split; [exact F3|now rewrite P3|].
    eapply incl_tran; eassumption.
Qed.

(** A run of a smaller relation is one of a larger relation. *)
Lemma run_sub (move move' : pool -> pool -> Prop) (s s' : pool) :
  (forall a b, move a b -> move' a b) -> run move s s' -> run move' s s'.
Proof.
  intros Sub. induction 1 as [s|s1 s2 s3 M R IH]; [apply run_done|].
  eapply run_move; [apply Sub; exact M|exact IH].
Qed.

Lemma run_trans (move : pool -> pool -> Prop) (s1 s2 s3 : pool) :
  run move s1 s2 -> run move s2 s3 -> run move s1 s3.
Proof.
  induction 1 as [s|a b c M R IH]; [auto|].
  intros R'. eapply run_move; [exact M|auto].
Qed.

Lemma step_of_one_run_step (s s' : pool) :
  step_of_one_run group_id total_players delay allowed s s' ->
  step group_id total_players delay allowed s s'.
Proof.
  intros [s1 s2 M|S ws]; [now apply step_worker|apply step_stop].
Qed.

(** Without a call of [stop_inviting], the flag stays as it is. *)
Lemma uncancelled_run_flag (s s' : pool) :
  run (worker_move group_id total_players delay allowed) s s' ->
  is_inviting (self (fst s')) = is_inviting (self (fst s)).
Proof.
  induction 1 as [s|s1 s2 s3 M R IH]; [reflexivity|].
  rewrite IH. destruct M as [r S S' ws i c c' _ Hn Hc Hs]. simpl.
  pose proof (worker_step_flag group_id total_players delay r c S) as F.
  now rewrite Hs in F.
Qed.

Lemma alone_step (r : remote) (fuel : nat) (c : pc) (S : shared) :
  c <> Exited ->
  alone group_id total_players delay r (Datatypes.S fuel) c S
  = alone group_id total_players delay r fuel
          (snd (worker_step group_id total_players delay r c S))
          (fst (worker_step group_id total_players delay r c S)).
Proof.
  intros Hc. cbn [alone].
  destruct (worker_step group_id total_players delay r c S) as [S' c'].
  destruct c; try reflexivity. congruence.
Qed.

(** A worker alone makes a run. *)
Lemma alone_run (r : remote) (fuel : nat) (c : pc) (S : shared) :
  allowed r ->
  run (worker_move group_id total_players delay allowed) (S, [c])
      (fst (alone group_id total_players delay r fuel c S),
       [snd (alone group_id total_players delay r fuel c S)]).
Proof.
  intros HA. revert c S. induction fuel as [|fuel IH]; intros c S.
  - apply run_done.
  - assert (D : c = Exited \/ c <> Exited)
      by (destruct c; (now left) || (right; discriminate)).
    destruct D as [->|Hc]; [apply run_done|].
    rewrite (alone_step _ _ _ _ Hc).
    eapply run_move; [|apply IH].
    apply (move_worker group_id total_players delay allowed r S _ [c] 0
                       c _ HA eq_refl Hc).
    apply surjective_pairing.
Qed.

(** The joins at the end only log. *)
Lemma join_workers_frame (i n : nat) (S : shared) :
  is_inviting (self (join_workers i n S)) = is_inviting (self S)
  /\ invited_count (join_workers i n S) = invited_count S
  /\ failed_count (join_workers i n S) = failed_count S
  /\ skipped_count (join_workers i n S) = skipped_count S.
Proof.
  induction i as [|i IH]; simpl; [repeat split|exact IH].
Qed.

Lemma start_workers_frame (i n : nat) (S : shared) :
  is_inviting (self (start_workers i n S)) = is_inviting (self S)
  /\ invited_count (start_workers i n S) = invited_count S
  /\ failed_count (start_workers i n S) = failed_count S
  /\ skipped_count (start_workers i n S) = skipped_count S
  /\ calls (start_workers i n S) = calls S
  /\ player_queue (start_workers i n S) = player_queue S.
Proof.
  induction i as [|i IH]; simpl; [repeat split|exact IH].
Qed.

(** The completion message, by the flag. *)
Lemma pool_finish_message (s : pool) :
  hd_error (logged (self (pool_finish total_players s)))
  = Some (if is_inviting (self (fst s))
          then InvitationCompleted (invited_count (fst s)) total_players
                                   (failed_count (fst s))
                                   (skipped_count (fst s))
          else InvitationStopped (invited_count (fst s)) total_players
                                 (failed_count (fst s))
                                 (skipped_count (fst s))).
Proof.
  unfold pool_finish, completion_message. simpl.
  destruct (join_workers_frame (List.length (snd s)) (List.length (snd s))
                               (fst s)) as (-> & -> & -> & ->).
  destruct (is_inviting (self (fst s))); reflexivity.
Qed.

End PoolRuns.

(* ================================================================== *)
(** * C5: a candidate who is a member by now                           *)
(* ================================================================== *)

Section MemberRuns.

Variable group_id : string.
Variable total_players : nat.
Variable delay : nat.
Variable p : player.

Lemma only_skips_move (s s' : pool) :
  worker_move group_id total_players delay (is_member p) s s' ->
  only_skips p s -> only_skips p s'.
Proof.
  intros M (HI & HC & HQ & HH & HP).
  destruct M as [r S S' ws i c c' HA Hn Hc Hs]. simpl in *.
  destruct (set_nth_split ws i c Hn) as (pre & post & -> & E).
  unfold only_skips. simpl. rewrite E.
  rewrite held_split in HH. rewrite in_process_split in HP.
  rewrite held_split, in_process_split.
  assert (leaf : forall q : player,
             In q (player_queue S)
             \/ In q (held pre) \/ In q (held [c]) \/ In q (held post)
             \/ In q (in_process pre) \/ In q (in_process [c])
             \/ In q (in_process post) ->
             q = p).
  { intros q [H|[H|[H|[H|[H|[H|H]]]]]];
      (apply HQ; assumption)
      || (apply HH; rewrite !in_app_iff; tauto)
      || (apply HP; rewrite !in_app_iff; tauto). }
  clear HQ HH HP.
  assert (goal : forall (S1 : shared) (c1 : pc),
             invited_count S1 = 0%nat ->
             (forall k, In k (calls S1) -> is_create k = false) ->
             (forall q, In q (player_queue S1) ->
                        In q (player_queue S) \/ In q (held [c])) ->
             (forall q, In q (held [c1]) ->
                        In q (player_queue S) \/ In q (held [c])) ->
             (forall q, In q (in_process [c1]) ->
                        In q (held [c]) \/ In q (in_process [c])) ->
             invited_count S1 = 0%nat
             /\ (forall k, In k (calls S1) -> is_create k = false)
             /\ (forall q, In q (player_queue S1) -> q = p)
             /\ (forall q, In q (held pre ++ held [c1] ++ held post) -> q = p)
             /\ (forall q, In q (in_process pre ++ in_process [c1]
                                 ++ in_process post) -> q = p)).
  { intros S1 c1 G1 G2 G3 G4 G5. repeat split; auto.
    - intros q Hq. apply leaf. destruct (G3 q Hq); tauto.
    - intros q Hq. apply leaf. rewrite !in_app_iff in Hq.
      destruct Hq as [Hq|[Hq|Hq]]; [tauto| |tauto].
      destruct (G4 q Hq); tauto.
    - intros q Hq. apply leaf. rewrite !in_app_iff in Hq.
      destruct Hq as [Hq|[Hq|Hq]]; [tauto| |tauto].
      destruct (G5 q Hq); tauto. }
  destruct c; simpl in Hs; try congruence.
  - (* AtWhile *)
    destruct (player_queue S) eqn:Q;
      [|destruct (is_inviting (self S))]; injection Hs as <- <-;
      apply goal; auto; simpl; try tauto; rewrite Q; auto.
  - (* AtCheckBeforeGet *)
    destruct (is_inviting (self S)); injection Hs as <- <-;
      apply goal; auto; simpl; tauto.
  - (* AtGet *)
    destruct (player_queue S) as [|p0 q0] eqn:Q; injection Hs as <- <-;
      apply goal; auto; simpl; rewrite ?Q; simpl; try tauto.
  - (* AtCheckBeforeProcess *)
    destruct (is_inviting (self S)); injection Hs as <- <-;
      apply goal; auto; simpl; try tauto.
    intros q Hq. apply in_app_or in Hq. simpl in Hq. tauto.
  - (* AtProcess *)
    assert (p0 = p) as -> by (apply leaf; simpl; tauto).
    rewrite (process_player_member _ _ _ _ _ HA) in Hs.
    injection Hs as <- <-. apply goal; auto; simpl; try tauto.
    intros k [<-|Hk]; [reflexivity|auto].
  - (* AtCheckBeforeWait *)
    destruct (is_inviting (self S)); injection Hs as <- <-;
      apply goal; auto; simpl; tauto.
  - (* AtSleep *)
    injection Hs as <- <-. apply goal; auto; simpl; tauto.
Qed.

Lemma only_skips_run (s s' : pool) :
  run (step group_id total_players delay (is_member p)) s s' ->
  only_skips p s -> only_skips p s'.
Proof.
  induction 1 as [s|s1 s2 s3 M R IH]; intros H; [exact H|].
  apply IH. destruct M as [s1 s2 M|S ws|S ws u ms pe now dw pwt L hs E|S ws F].
  - now apply (only_skips_move s1 s2).
  - exact H.
  - exact H.
  - exact H.
Qed.

Lemma held_repeat_AtWhile (n : nat) :
  held (repeat AtWhile n) = [] /\ in_process (repeat AtWhile n) = [].
Proof. induction n as [|n [IH1 IH2]]; simpl; auto. Qed.

Lemma only_skips_start (max_threads : nat) (L : logic) :
  only_skips p (pool_start group_id [p] max_threads L).
Proof.
  unfold only_skips, pool_start. cbv zeta. cbn [fst snd].
  destruct (start_workers_frame
              (Nat.min max_threads (List.length [p]))
              (Nat.min max_threads (List.length [p]))
              (mkShared (log (StartingPool (List.length [p]) group_id) L)
                        [p] 0 0 0 []))
    as (_ & -> & _ & _ & -> & ->).
  destruct (held_repeat_AtWhile (Nat.min max_threads (List.length [p])))
    as [-> ->].
  simpl. repeat split; try (intros ? []); auto.
  now subst.
Qed.

End MemberRuns.

Section Alone.

Variable group_id : string.
Variable total_players : nat.
Variable delay : nat.
Variable r : remote.

Lemma alone_next (fuel : nat) (c c' : pc) (S S' : shared) :
  c <> Exited ->
  worker_step group_id total_players delay r c S = (S', c') ->
  alone group_id total_players delay r (Datatypes.S fuel) c S
  = alone group_id total_players delay r fuel c' S'.
Proof.
  intros Hc Hs. rewrite alone_step by exact Hc. now rewrite Hs.
Qed.

Lemma at_while_enters (S : shared) (p : player) (q : list player) :
  player_queue S = p :: q -> is_inviting (self S) = true ->
  worker_step group_id total_players delay r AtWhile S
  = (S, AtCheckBeforeGet).
Proof. intros HQ HF. simpl. now rewrite HQ, HF. Qed.

Lemma at_while_drained (S : shared) :
  player_queue S = [] ->
  worker_step group_id total_players delay r AtWhile S = (S, Exited).
Proof. intros HQ. simpl. now rewrite HQ. Qed.

Lemma at_check_before_get_passes (S : shared) :
  is_inviting (self S) = true ->
  worker_step group_id total_players delay r AtCheckBeforeGet S = (S, AtGet).
Proof. intros HF. simpl. now rewrite HF. Qed.

Lemma at_get_takes (S : shared) (p : player) (q : list player) :
  player_queue S = p :: q ->
  worker_step group_id total_players delay r AtGet S
  = (say (ProcessingPlayer p) (set_queue q S), AtCheckBeforeProcess p).
Proof. intros HQ. simpl. now rewrite HQ. Qed.

Lemma at_check_before_process_passes (S : shared) (p : player) :
  is_inviting (self S) = true ->
  worker_step group_id total_players delay r (AtCheckBeforeProcess p) S
  = (S, AtProcess p).
Proof. intros HF. simpl. now rewrite HF. Qed.

Lemma at_check_before_wait_passes (S : shared) :
  is_inviting (self S) = true ->
  worker_step group_id total_players delay r AtCheckBeforeWait S
  = (say (WaitingBeforeNext delay) S, AtSleep).
Proof. intros HF. simpl. now rewrite HF. Qed.

(** One worker, the flag set, one player in the queue: the worker takes
    the player, processes it and leaves the loop. *)
Lemma alone_with_one (S : shared) (p : player) :
  player_queue S = [p] -> is_inviting (self S) = true ->
  alone group_id total_players delay r 8 AtWhile S
  = (say (WaitingBeforeNext delay)
         (process_player group_id total_players r p
            (say (ProcessingPlayer p) (set_queue [] S))),
     Exited).
Proof.
  intros HQ HF.
  rewrite (alone_next 7 AtWhile AtCheckBeforeGet S S)
    by (discriminate || now apply (at_while_enters S p [])).
  rewrite (alone_next 6 AtCheckBeforeGet AtGet S S)
    by (discriminate || now apply at_check_before_get_passes).
  rewrite (alone_next 5 AtGet (AtCheckBeforeProcess p) S
                      (say (ProcessingPlayer p) (set_queue [] S)))
    by (discriminate || now apply at_get_takes).
  set (S1 := say (ProcessingPlayer p) (set_queue [] S)).
  assert (F1 : is_inviting (self S1) = true) by exact HF.
  assert (Q1 : player_queue S1 = []) by reflexivity.
  rewrite (alone_next 4 (AtCheckBeforeProcess p) (AtProcess p) S1 S1)
    by (discriminate || now apply at_check_before_process_passes).
  rewrite (alone_next 3 (AtProcess p) AtCheckBeforeWait S1
                      (process_player group_id total_players r p S1))
    by (discriminate || reflexivity).
  set (S2 := process_player group_id total_players r p S1).
  assert (F2 : is_inviting (self S2) = true)
    by (unfold S2; now rewrite process_player_flag).
  assert (Q2 : player_queue S2 = [])
    by (unfold S2; now rewrite process_player_queue).
  rewrite (alone_next 2 AtCheckBeforeWait AtSleep S2
                      (say (WaitingBeforeNext delay) S2))
    by (discriminate || now apply at_check_before_wait_passes).
  rewrite (alone_next 1 AtSleep AtWhile (say (WaitingBeforeNext delay) S2)
                      (say (WaitingBeforeNext delay) S2))
    by (discriminate || reflexivity).
  rewrite (alone_next 0 AtWhile Exited (say (WaitingBeforeNext delay) S2)
                      (say (WaitingBeforeNext delay) S2))
    by (discriminate || now apply at_while_drained).
  reflexivity.
Qed.

End Alone.

(** The same, for a player who is a member by now: the player is
    skipped. *)
Lemma alone_with_member (group_id : string) (delay : nat) (r : remote)
    (p : player) (L : logic) :
  is_member p r -> is_inviting L = true ->
  let S0 := mkShared L [p] 0 0 0 [] in
  let S1 := alone group_id 1 delay r 8 AtWhile S0 in
  snd S1 = Exited
  /\ skipped_count (fst S1) = 1%nat
  /\ invited_count (fst S1) = 0%nat
  /\ failed_count (fst S1) = 0%nat
  /\ is_inviting (self (fst S1)) = true
  /\ calls (fst S1) = [GetGroupMember group_id (id p)].
Proof.
  intros HM HL S0 S1. unfold S1.
  rewrite (alone_with_one group_id 1 delay r S0 p eq_refl HL).
  rewrite (process_player_member _ _ _ _ _ HM).
  repeat split. exact HL.
Qed.

(** What the end of such a run reports. *)
Lemma finished_with_one_skip (A : shared * pc) :
  snd A = Exited ->
  skipped_count (fst A) = 1%nat ->
  invited_count (fst A) = 0%nat ->
  failed_count (fst A) = 0%nat ->
  is_inviting (self (fst A)) = true ->
  all_exited (snd (fst A, [snd A])) = true
  /\ skipped_count (fst (fst A, [snd A])) = 1%nat
  /\ invited_count (fst (fst A, [snd A])) = 0%nat
  /\ failed_count (fst (fst A, [snd A])) = 0%nat
  /\ hd_error (logged (self (pool_finish 1 (fst A, [snd A]))))
     = Some (InvitationCompleted 0 1 0 1).
Proof.
  intros E HS HI HF HG. cbn [fst snd]. rewrite E.
  split; [reflexivity|]. split; [exact HS|]. split; [exact HI|].
  split; [exact HF|].
  rewrite pool_finish_message. cbn [fst]. now rewrite HG, HS, HI, HF.
Qed.

Lemma pool_start_single (group_id : string) (p : player) (max_threads : nat)
    (L : logic) :
  (1 <= max_threads)%nat ->
  pool_start group_id [p] max_threads L
  = (mkShared (log (StartingWorker 1 1) (log (StartingPool 1 group_id) L))
              [p] 0 0 0 [],
     [AtWhile]).
Proof.
  intros H. unfold pool_start. cbv zeta.
  replace (Nat.min max_threads (List.length [p])) with 1%nat
    by (simpl; lia).
  reflexivity.
Qed.

(** C5.  When the membership check made just before the invite returns a
    membership, not the not-found signal, the worker counts one more skip,
    leaves the invited and failed counts as they are, and issues no call
    but that check: no invite is created.  So a run on one candidate who
    has become a member never counts an invite and never issues the
    create-invite call, whatever the interleaving and whether or not it is
    cancelled; and run to its end without cancellation it finishes with
    the candidate skipped, "completed" with 0 of 1 invited and 1
    skipped. *)
Theorem C5_member_is_skipped :
  forall (group_id : string) (delay : nat) (p : player),
    (forall (total_players : nat) (r : remote) (S : shared),
        is_member p r ->
        let S' := process_player group_id total_players r p S in
        skipped_count S' = (1 + skipped_count S)%nat
        /\ invited_count S' = invited_count S
        /\ failed_count S' = failed_count S
        /\ calls S' = GetGroupMember group_id (id p) :: calls S)
    /\ (forall (max_threads : nat) (L : logic) (s : pool),
           run (step group_id 1 delay (is_member p))
               (pool_start group_id [p] max_threads L) s ->
           invited_count (fst s) = 0%nat
           /\ forall c, In c (calls (fst s)) -> is_create c = false)
    /\ (forall (max_threads : nat) (L : logic) (r : remote),
           is_member p r ->
           (1 <= max_threads)%nat ->
           is_inviting L = true ->
           exists s : pool,
             run (worker_move group_id 1 delay (is_member p))
                 (pool_start group_id [p] max_threads L) s
             /\ all_exited (snd s) = true
             /\ skipped_count (fst s) = 1%nat
             /\ invited_count (fst s) = 0%nat
             /\ failed_count (fst s) = 0%nat
             /\ hd_error (logged (self (pool_finish 1 s)))
                = Some (InvitationCompleted 0 1 0 1)).
Proof.
  intros group_id delay p. split; [|split].
  - intros total_players r S HM. cbv zeta.
    rewrite (process_player_member _ _ _ _ _ HM). simpl. auto.
  - intros max_threads L s R.
    pose proof (only_skips_run group_id 1 delay p _ _ R
                  (only_skips_start group_id p max_threads L))
      as (HI & HC & _).
    split; assumption.
  - intros max_threads L r HM HT HL.
    rewrite (pool_start_single _ _ _ _ HT).
    set (L1 := log (StartingWorker 1 1) (log (StartingPool 1 group_id) L)).
    assert (HL1 : is_inviting L1 = true) by exact HL.
    pose proof (alone_with_member group_id delay r p L1 HM HL1) as HA.
    cbv zeta in HA.
    pose proof (alone_run group_id 1 delay (is_member p) r 8 AtWhile
                          (mkShared L1 [p] 0 0 0 []) HM) as HR.
    revert HA HR.
    generalize (alone group_id 1 delay r 8 AtWhile
                      (mkShared L1 [p] 0 0 0 [])).
    intros A (E & HS & HI & HF & HG & _) HR.
    exists (fst A, [snd A]). split; [exact HR|].
    now apply finished_with_one_skip.
Qed.

Lemma C5_member_is_skipped_witness :
  (let S' := process_player "grp_1" 1 everybody_member dora
                            cancelled_with_dora in
   skipped_count S' = (1 + skipped_count cancelled_with_dora)%nat
   /\ invited_count S' = invited_count cancelled_with_dora
   /\ failed_count S' = failed_count cancelled_with_dora
   /\ calls S' = GetGroupMember "grp_1" (id dora)
                 :: calls cancelled_with_dora)
  /\ exists s : pool,
      run (worker_move "grp_1" 1 5 (is_member dora))
          (pool_start "grp_1" [dora] 5 inviting) s
      /\ all_exited (snd s) = true
      /\ skipped_count (fst s) = 1%nat
      /\ invited_count (fst s) = 0%nat
      /\ failed_count (fst s) = 0%nat
      /\ hd_error (logged (self (pool_finish 1 s)))
         = Some (InvitationCompleted 0 1 0 1).
Proof.
  destruct (C5_member_is_skipped "grp_1" 5 dora) as (H1 & _ & H3). split.
  - apply (H1 1%nat everybody_member cancelled_with_dora). reflexivity.
  - apply (H3 5%nat inviting everybody_member).
    + reflexivity.
    + lia.
    + reflexivity.
Defined.

(* ================================================================== *)
(** * C6: cancellation                                                 *)
(* ================================================================== *)

(** C6, as amended.  With the flag cleared, a worker at the head of its
    loop or at the check before the dequeue leaves without touching the
    queue, and a worker that has dequeued a player and reaches the check
    before acting puts the player back at the end of the queue and leaves.
    In a run whose flag is cleared and during which no other run is
    started, with any interleaving of the workers and of further calls of
    [stop_inviting], the flag stays cleared, no further player comes to be
    processed, no player is lost (the queue together with the players held
    between dequeue and check is a permutation of what it was), and the
    completion message is the "stopped" one.  The completion message is
    the "stopped" one whenever the flag is cleared at the end; that of a
    run never cancelled, as one that drains the queue, is the "completed"
    one; the two differ. *)
Theorem C6_cancellation :
  forall (group_id : string) (total_players delay : nat),
    (forall (r : remote) (S : shared),
        is_inviting (self S) = false ->
        worker_step group_id total_players delay r AtWhile S = (S, Exited)
        /\ worker_step group_id total_players delay r AtCheckBeforeGet S
           = (S, Exited)
        /\ forall p : player,
            worker_step group_id total_players delay r
                        (AtCheckBeforeProcess p) S
            = (set_queue (player_queue S ++ [p]) S, Exited))
    /\ (forall (allowed : remote -> Prop) (s s' : pool),
           is_inviting (self (fst s)) = false ->
           run (step_of_one_run group_id total_players delay allowed) s s' ->
           (is_inviting (self (fst s')) = false
            /\ Permutation (player_queue (fst s') ++ held (snd s'))
                           (player_queue (fst s) ++ held (snd s))
            /\ incl (in_process (snd s')) (in_process (snd s)))
           /\ run (step group_id total_players delay allowed) s s'
           /\ hd_error (logged (self (pool_finish total_players s')))
              = Some (InvitationStopped (invited_count (fst s'))
                                        total_players
                                        (failed_count (fst s'))
                                        (skipped_count (fst s'))))
    /\ (forall S : shared,
           is_inviting (self (set_self (snd (stop_inviting (self S))) S))
           = false)
    /\ (forall s : pool,
           is_inviting (self (fst s)) = false ->
           hd_error (logged (self (pool_finish total_players s)))
           = Some (InvitationStopped (invited_count (fst s)) total_players
                                     (failed_count (fst s))
                                     (skipped_count (fst s))))
    /\ (forall (allowed : remote -> Prop) (s s' : pool),
           is_inviting (self (fst s)) = true ->
           run (worker_move group_id total_players delay allowed) s s' ->
           hd_error (logged (self (pool_finish total_players s')))
           = Some (InvitationCompleted (invited_count (fst s'))
                                       total_players
                                       (failed_count (fst s'))
                                       (skipped_count (fst s'))))
    /\ (forall a b c d a' b' c' d' : nat,
           InvitationStopped a b c d <> InvitationCompleted a' b' c' d').
Proof.
  intros group_id total_players delay.
  split; [|split; [|split; [|split; [|split]]]].
  - intros r S H. split; [|split].
    + simpl. rewrite H. now destruct (player_queue S).
    + simpl. now rewrite H.
    + intros p. simpl. now rewrite H.
  - intros allowed s s' H R.
    pose proof (cancelled_run _ _ _ _ _ _ R H) as C.
    split; [exact C|]. split.
    + eapply run_sub; [|exact R]. apply step_of_one_run_step.
    + rewrite pool_finish_message. now rewrite (proj1 C).
  - intros S. unfold stop_inviting.
    destruct (is_inviting (self S)) eqn:E; simpl; [reflexivity|exact E].
  - intros s H. rewrite pool_finish_message. now rewrite H.
  - intros allowed s s' H R. rewrite pool_finish_message.
    now rewrite (uncancelled_run_flag _ _ _ _ _ _ R), H.
  - discriminate.
Qed.

Lemma C6_cancellation_witness :
  worker_step "grp_1" 1 5 nobody_member (AtCheckBeforeProcess dora)
              (set_queue [] cancelled_with_dora)
  = (set_queue ([] ++ [dora]) (set_queue [] cancelled_with_dora), Exited)
  /\ hd_error
       (logged (self (pool_finish 1 (cancelled_with_dora, [Exited]))))
     = Some (InvitationStopped 0 1 0 0).
Proof.
  destruct (C6_cancellation "grp_1" 1 5) as (H1 & _ & _ & H4 & _). split.
  - apply (H1 nobody_member (set_queue [] cancelled_with_dora)). reflexivity.
  - apply (H4 (cancelled_with_dora, [Exited])). reflexivity.
Defined.

(** C6, the counterexample: a run of one worker on two players.  The
    worker invites the first player and sleeps; the run is cancelled, and
    a new start sets the flag again before the worker wakes up.  The worker
    then goes on: it takes the second player and invites that player too,
    and the completion message of the cancelled run is the "completed"
    one. *)
Lemma C6_counterexample :
  let S0 := fst (pool_start "grp_1" [dora; erin] 1 inviting) in
  let asleep := alone "grp_1" 2 5 nobody_member 6 AtWhile S0 in
  let S1 := set_self (snd (stop_inviting (self (fst asleep)))) (fst asleep) in
  let S2 := set_self (snd (fst (invite_filtered "usr_me" [] ["usr_d"] now_us 5
                                  dora_and_erin (self S1)))) S1 in
  let last := alone "grp_1" 2 5 nobody_member 20 AtSleep S2 in
  pool_start "grp_1" [dora; erin] 1 inviting = (S0, [AtWhile])
  /\ snd asleep = AtSleep
  /\ run (step "grp_1" 2 5 (fun _ => True)) (S0, [AtWhile]) (S1, [AtSleep])
  /\ is_inviting (self S1) = false
  /\ player_queue S1 = [erin]
  /\ invited_count S1 = 1%nat
  /\ snd (invite_filtered "usr_me" [] ["usr_d"] now_us 5 dora_and_erin
                          (self S1))
     = Some [erin]
  /\ run (step "grp_1" 2 5 (fun _ => True)) (S1, [AtSleep])
         (fst last, [snd last])
  /\ snd last = Exited
  /\ is_inviting (self (fst last)) = true
  /\ player_queue (fst last) = []
  /\ invited_count (fst last) = 2%nat
  /\ hd_error (logged (self (pool_finish 2 (fst last, [snd last]))))
     = Some (InvitationCompleted 2 2 0 0).
Proof.
  cbv zeta.
  assert (A : snd (alone "grp_1" 2 5 nobody_member 6 AtWhile
                     (fst (pool_start "grp_1" [dora; erin] 1 inviting)))
              = AtSleep) by (vm_compute; reflexivity).
  split; [vm_compute; reflexivity|].
  split; [exact A|].
  split.
  { eapply run_trans.
    - eapply run_sub; [intros a b M; apply step_worker; exact M|].
      apply (alone_run "grp_1" 2 5 (fun _ => True) nobody_member 6 AtWhile).
      exact I.
    - rewrite A. eapply run_move; [apply step_stop|apply run_done]. }
  split; [vm_compute; reflexivity|].
  split; [vm_compute; reflexivity|].
  split; [vm_compute; reflexivity|].
  split; [vm_compute; reflexivity|].
  split.
  { eapply run_move.
    - eapply (step_start "grp_1" 2 5 (fun _ => True) _ [AtSleep] "usr_me" []
                ["usr_d"] now_us 5 dora_and_erin _ [erin]).
      vm_compute. reflexivity.
    - eapply run_sub; [intros a b M; apply step_worker; exact M|].
      apply (alone_run "grp_1" 2 5 (fun _ => True) nobody_member 20 AtSleep).
      exact I. }
  repeat split; vm_compute; reflexivity.
Qed.

(** The two runs of the idempotence scenario, on the sample player: the
    first, against a service that knows no member, invites; the second,
    when the player has become a member, skips. *)
Example dispatch_twice_sample :
  let first := alone "grp_1" 1 5 nobody_member 8 AtWhile
                     (fst (pool_start "grp_1" [dora] 5 inviting)) in
  let second := alone "grp_1" 1 5 everybody_member 8 AtWhile
                      (fst (pool_start "grp_1" [dora] 5 inviting)) in
  (snd first = Exited
   /\ invited_count (fst first) = 1%nat /\ skipped_count (fst first) = 0%nat)
  /\ (snd second = Exited
      /\ invited_count (fst second) = 0%nat
      /\ skipped_count (fst second) = 1%nat).
Proof. vm_compute. repeat split. Qed.

(* ================================================================== *)
(** * Beyond the claims: the presence tracker                          *)
(* ================================================================== *)

Import FurtherSpec FurtherSamples.

Section MoreDictFacts.

Context {V : Type}.
Implicit Types (d : dict V) (k : string) (v : V).

Lemma keys_dict_set_NoDup k v d :
  NoDup (keys d) -> NoDup (keys (dict_set k v d)).
Proof.
  intros ND. destruct (dict_mem k d) eqn:M.
  - now rewrite (keys_dict_set_mem _ _ _ M).
  - rewrite (keys_dict_set_new _ _ _ M).
    apply NoDup_app; [assumption|repeat constructor; simpl; tauto|].
    intros x Hx [E|[]]. subst x. unfold dict_mem in M.
    destruct (dict_get k d) eqn:G; [discriminate|].
    now apply dict_get_none_not_in_keys in G.
Qed.

Lemma dict_del_keys_incl k d x : In x (keys (dict_del k d)) -> In x (keys d).
Proof.
  induction d as [|[k' v'] d IH]; simpl; [tauto|].
  destruct (String.eqb k k'); simpl; tauto.
Qed.

Lemma keys_dict_del_NoDup k d : NoDup (keys d) -> NoDup (keys (dict_del k d)).
Proof.
  induction d as [|[k' v'] d IH]; simpl; intros ND; [constructor|].
  inversion ND as [|? ? Hk ND']; subst.
  destruct (String.eqb k k'); [assumption|]. simpl. constructor; [|auto].
  intros HI. apply Hk. now apply dict_del_keys_incl in HI.
Qed.

(** After [del d[k]] the key is gone. *)
Lemma dict_get_del_same k d :
  NoDup (keys d) -> dict_get k (dict_del k d) = None.
Proof.
  induction d as [|[k' v'] d IH]; simpl; intros ND; [reflexivity|].
  inversion ND as [|? ? Hk ND']; subst.
  destruct (String.eqb k k') eqn:E; simpl.
  - apply String.eqb_eq in E. subst k'. now apply dict_get_not_in_keys.
  - rewrite E. auto.
Qed.

Lemma dict_get_del_other k k' d :
  k <> k' -> dict_get k' (dict_del k d) = dict_get k' d.
Proof.
  intros N. induction d as [|[k2 v2] d IH]; simpl; [reflexivity|].
  destruct (String.eqb k k2) eqn:E; simpl.
  - apply String.eqb_eq in E. subst k2.
    destruct (String.eqb k' k) eqn:E'; [|reflexivity].
    apply String.eqb_eq in E'. congruence.
  - now rewrite IH.
Qed.

End MoreDictFacts.

(** The join times kept beside the tracker, after one event. *)
Lemma join_times_apply (e : log_event) (L : logic) :
  _player_join_times (apply e L)
  = match e with
    | SessionChanged _ _ => _player_join_times L
    | UserEntered pid _ t _ => dict_set pid t (_player_join_times L)
    | UserLeft pid _ _ _ =>
        if dict_mem pid (_player_join_times L)
        then dict_del pid (_player_join_times L)
        else _player_join_times L
    end.
Proof.
  destruct e as [inst raw|pid nm t raw|pid nm t raw]; simpl; try reflexivity.
  unfold on_player_leave. simpl.
  destruct (dict_mem pid (_player_join_times L)); reflexivity.
Qed.

Lemma join_times_apply_NoDup (e : log_event) (L : logic) :
  NoDup (keys (_player_join_times L)) ->
  NoDup (keys (_player_join_times (apply e L))).
Proof.
  intros ND. rewrite join_times_apply.
  destruct e as [inst raw|pid nm t raw|pid nm t raw].
  - exact ND.
  - now apply keys_dict_set_NoDup.
  - destruct (dict_mem pid (_player_join_times L));
      [now apply keys_dict_del_NoDup|exact ND].
Qed.

(** X1.  A session-change line empties the presence snapshot and sets the
    session, but leaves the join times of [_player_join_times] as they
    were: [on_instance_change] only logs. *)
Theorem session_change_clears_snapshot :
  forall (line inst raw : string) (L : logic),
    extract line = Some (SessionChanged inst raw) ->
    current_instance (log_watcher (_process_log_line line L)) = Some inst
    /\ get_active_players (_process_log_line line L) = ([], [])
    /\ _player_join_times (_process_log_line line L) = _player_join_times L.
Proof.
  intros line inst raw L E. rewrite (process_extract_some _ _ _ E).
  repeat split.
Qed.

Lemma session_change_clears_snapshot_witness :
  get_active_players
    (_process_log_line room2_1000
       (process_lines [room1_0900; alice_joins_0930] logic_init))
  = ([], [])
  /\ _player_join_times
       (_process_log_line room2_1000
          (process_lines [room1_0900; alice_joins_0930] logic_init))
     = [("usr_alice", t0930)].
Proof.
  destruct (session_change_clears_snapshot room2_1000 "wrld_2:200"
              "2024.01.01 10:00:00"
              (process_lines [room1_0900; alice_joins_0930] logic_init))
    as (_ & H2 & H3); [vm_compute; reflexivity|].
  split; [exact H2|]. rewrite H3. vm_compute. reflexivity.
Defined.

(** X2.  [_player_join_times] holds for a user the time of the last join
    line, and any leave line of the user removes the entry.  So after two
    joins and one leave of a user not tracked before, the user is in the
    snapshot of [get_active_players], with the later join as join time,
    and has no entry in [_player_join_times]. *)
Theorem join_times_follow_last_event :
  (forall (line pid nm raw : string) (t : datetime) (L : logic),
      extract line = Some (UserEntered pid nm t raw) ->
      dict_get pid (_player_join_times (_process_log_line line L)) = Some t)
  /\ (forall (line pid nm raw : string) (t : datetime) (L : logic),
         NoDup (keys (_player_join_times L)) ->
         extract line = Some (UserLeft pid nm t raw) ->
         dict_get pid (_player_join_times (_process_log_line line L)) = None)
  /\ (forall (l1 l2 l3 pid n1 n2 n3 raw1 raw2 raw3 : string)
             (t1 t2 t3 : datetime) (L : logic),
         NoDup (keys (player_events (log_watcher L))) ->
         NoDup (keys (_player_join_times L)) ->
         dict_get pid (player_events (log_watcher L)) = None ->
         extract l1 = Some (UserEntered pid n1 t1 raw1) ->
         extract l2 = Some (UserEntered pid n2 t2 raw2) ->
         extract l3 = Some (UserLeft pid n3 t3 raw3) ->
         In pid (snapshot_ids (process_lines [l1; l2; l3] L))
         /\ joined_at pid (process_lines [l1; l2; l3] L)
            = Some (if dt_ltb t1 t2 then t2 else t1)
         /\ dict_get pid (_player_join_times (process_lines [l1; l2; l3] L))
            = None).
Proof.
  split; [|split].
  - intros line pid nm raw t L E. rewrite (process_extract_some _ _ _ E).
    rewrite join_times_apply. apply dict_get_set_same.
  - intros line pid nm raw t L ND E. rewrite (process_extract_some _ _ _ E).
    rewrite join_times_apply.
    destruct (dict_mem pid (_player_join_times L)) eqn:M.
    + now apply dict_get_del_same.
    + unfold dict_mem in M. now destruct (dict_get pid (_player_join_times L)).
  - intros l1 l2 l3 pid n1 n2 n3 raw1 raw2 raw3 t1 t2 t3 L NP NJ G E1 E2 E3.
    unfold process_lines. simpl.
    rewrite (process_extract_some _ _ _ E1), (process_extract_some _ _ _ E2),
      (process_extract_some _ _ _ E3).
    set (L2 := apply (UserEntered pid n2 t2 raw2)
                     (apply (UserEntered pid n1 t1 raw1) L)).
    assert (NP3 : NoDup (keys (player_events (log_watcher
                    (apply (UserLeft pid n3 t3 raw3) L2)))))
      by (unfold L2; do 3 apply apply_keys_NoDup; exact NP).
    assert (NJ2 : NoDup (keys (_player_join_times L2)))
      by (unfold L2; do 2 apply join_times_apply_NoDup; exact NJ).
    pose proof (record_after_leave pid n3 t3 raw3 L2) as R.
    unfold L2 in R at 2.
    rewrite (record_after_join pid n2 t2 raw2), (record_after_join pid n1 t1 raw1 L), G
      in R.
    split; [|split].
    + rewrite (snapshot_ids_iff _ _ NP3). unfold present. rewrite R.
      reflexivity.
    + rewrite (joined_at_present _ _ _ NP3 R); reflexivity.
    + rewrite join_times_apply.
      destruct (dict_mem pid (_player_join_times L2)) eqn:M.
      * now apply dict_get_del_same.
      * unfold dict_mem in M.
        now destruct (dict_get pid (_player_join_times L2)).
Qed.

Lemma join_times_follow_last_event_witness :
  In "usr_bob"
     (snapshot_ids
        (process_lines [bob_joins_1030; bob_joins_1045; bob_leaves_1100]
                       logic_init))
  /\ joined_at "usr_bob"
       (process_lines [bob_joins_1030; bob_joins_1045; bob_leaves_1100]
                      logic_init)
     = Some (if dt_ltb t1030 t1045 then t1045 else t1030)
  /\ dict_get "usr_bob"
       (_player_join_times
          (process_lines [bob_joins_1030; bob_joins_1045; bob_leaves_1100]
                         logic_init))
     = None.
Proof.
  destruct join_times_follow_last_event as (_ & _ & H).
  apply (H bob_joins_1030 bob_joins_1045 bob_leaves_1100 "usr_bob"
           "Bob" "Bob" "Bob" "2024.01.01 10:30:00" "2024.01.01 10:45:00"
           "2024.01.01 11:00:00" t1030 t1045 t1100 logic_init);
    try (vm_compute; reflexivity); constructor.
Defined.

(* ================================================================== *)
(** * Beyond the claims: what the patterns capture                     *)
(* ================================================================== *)

Lemma re_search_some {A : Type} (m : string -> option A) (s : string) (r : A) :
  re_search m s = Some r ->
  exists pre suf, s = (pre ++ suf)%string /\ m suf = Some r.
Proof.
  induction s as [|c s IH]; simpl.
  - destruct (m EmptyString) eqn:E; [|discriminate].
    intros H. injection H as <-. exists EmptyString, EmptyString. auto.
  - destruct (m (String c s)) eqn:E.
    + intros H. injection H as <-. exists EmptyString, (String c s). auto.
    + intros H. destruct (IH H) as (pre & suf & -> & Hm).
      exists (String c pre), suf. auto.
Qed.

Lemma all_chars_app (f : ascii -> bool) (a b : string) :
  all_chars f (a ++ b) = all_chars f a && all_chars f b.
Proof.
  induction a as [|c a IH]; simpl; [reflexivity|].
  rewrite IH. now rewrite andb_assoc.
Qed.

Lemma span_spec (f : ascii -> bool) (s r t : string) :
  span f s = (r, t) -> s = (r ++ t)%string /\ all_chars f r = true.
Proof.
  revert r t. induction s as [|c s IH]; intros r t; simpl.
  - intros H. injection H as <- <-. auto.
  - destruct (f c) eqn:F.
    + destruct (span f s) as [r' t'] eqn:E. intros H. injection H as <- <-.
      destruct (IH r' t' eq_refl) as [-> HA]. simpl. rewrite F. auto.
    + intros H. injection H as <- <-. auto.
Qed.

Lemma nonspace1_spec (s r t : string) :
  nonspace1 s = Some (r, t) -> r <> EmptyString /\ no_space r = true.
Proof.
  unfold nonspace1.
  destruct (span (fun c => negb (is_space c)) s) as [r' t'] eqn:E.
  destruct (span_spec _ _ _ _ E) as [_ HA].
  destruct r' as [|c r']; [discriminate|].
  intros H. injection H as <- <-. split; [discriminate|exact HA].
Qed.

Lemma upto_last_paren_prefix (s p : string) :
  upto_last_paren s = Some p ->
  exists rest, s = (p ++ String ")" rest)%string.
Proof.
  revert p. induction s as [|c s IH]; intros p; simpl; [discriminate|].
  destruct (upto_last_paren s) as [q|] eqn:E.
  - intros H. injection H as <-. destruct (IH q eq_refl) as [rest ->].
    exists rest. reflexivity.
  - destruct (Ascii.eqb c ")") eqn:C; [|discriminate].
    intros H. injection H as <-. apply Ascii.eqb_eq in C. subst c.
    exists s. reflexivity.
Qed.

Lemma id_in_parens_spec (s i : string) :
  id_in_parens s = Some i -> i <> EmptyString /\ no_space i = true.
Proof.
  unfold id_in_parens.
  destruct (span (fun c => negb (is_space c)) s) as [r t] eqn:E. simpl.
  destruct (span_spec _ _ _ _ E) as [_ HA].
  destruct (upto_last_paren r) as [[|c p]|] eqn:U; try discriminate.
  intros H. injection H as <-. split; [discriminate|].
  destruct (upto_last_paren_prefix _ _ U) as [rest ->].
  unfold no_space. rewrite all_chars_app in HA.
  now apply andb_prop in HA as [HA _].
Qed.

(** X3.  What the patterns capture holds no white space and is not empty:
    the display name and the user id of a join or leave line, and the
    session token of an instance line.  (So a display name with a space in
    it is never captured whole.) *)
Theorem captures_hold_no_space :
  (forall (lit line nm pid : string),
      player_match lit line = Some (nm, pid) ->
      nm <> EmptyString /\ pid <> EmptyString
      /\ no_space nm = true /\ no_space pid = true)
  /\ (forall (line tok : string),
         instance_id_found line = Some tok ->
         tok <> EmptyString /\ no_space tok = true).
Proof.
  split.
  - intros lit line nm pid H. unfold player_match in H.
    destruct (re_search_some _ _ _ H) as (pre & suf & _ & Hm).
    unfold player_pattern in Hm.
    destruct (literal lit suf) as [s1|]; [|discriminate].
    destruct (spaces1 s1) as [s2|]; [|discriminate].
    destruct (nonspace1 s2) as [[nm' s3]|] eqn:N; [|discriminate].
    destruct (spaces1 s3) as [[|c s4]|]; try discriminate.
    destruct (Ascii.eqb c "(") eqn:C;
      [|destruct c as [[] [] [] [] [] [] [] []]; try discriminate Hm;
        discriminate C].
    destruct c as [[] [] [] [] [] [] [] []]; try discriminate C.
    destruct (id_in_parens s4) as [i|] eqn:I; [|discriminate].
    injection Hm as <- <-.
    destruct (nonspace1_spec _ _ _ N) as [N1 N2].
    destruct (id_in_parens_spec _ _ I) as [I1 I2]. auto.
  - intros line tok H. unfold instance_id_found in H.
    assert (P : forall lit, re_search (room_pattern lit) line = Some tok ->
                            tok <> EmptyString /\ no_space tok = true).
    { intros lit Hs. destruct (re_search_some _ _ _ Hs) as (pre & suf & _ & Hm).
      unfold room_pattern in Hm.
      destruct (literal lit suf) as [s1|]; [|discriminate].
      destruct (spaces1 s1) as [s2|]; [|discriminate].
      destruct (nonspace1 s2) as [[tok' s3]|] eqn:N; [|discriminate].
      injection Hm as <-. exact (nonspace1_spec _ _ _ N). }
    unfold instance_patterns in H. simpl in H.
    repeat match type of H with
           | match re_search (room_pattern ?l) line with _ => _ end = _ =>
               destruct (re_search (room_pattern l) line) eqn:?E;
               [injection H as ->; eapply P; eassumption|]
           end.
    discriminate.
Qed.

Lemma captures_hold_no_space_witness :
  ("Bob" <> EmptyString /\ "usr_bob" <> EmptyString
   /\ no_space "Bob" = true /\ no_space "usr_bob" = true)
  /\ ("wrld_2:200" <> EmptyString /\ no_space "wrld_2:200" = true).
Proof.
  destruct captures_hold_no_space as [H1 H2]. split.
  - apply (H1 "OnPlayerJoined" bob_joins_1030). vm_compute. reflexivity.
  - apply (H2 room2_1000). vm_compute. reflexivity.
Defined.

(** X4.  A line that holds both words "Joining" and "Room" is read as a
    session change or not at all: it clears the user records, or it
    leaves the whole state as it was.  It never adds a join or a leave,
    whatever else it holds. *)
Theorem instance_line_adds_no_player :
  forall (line : string) (L : logic),
    is_instance_line line = true ->
    player_events (log_watcher (_process_log_line line L)) = []
    \/ _process_log_line line L = L.
Proof.
  intros line L H. unfold _process_log_line. rewrite H.
  destruct (instance_change line) as [[ts inst]|]; [left|right]; reflexivity.
Qed.

Lemma instance_line_adds_no_player_witness :
  player_events (log_watcher (_process_log_line joining_room_joins logic_init))
  = []
  \/ _process_log_line joining_room_joins logic_init = logic_init.
Proof.
  apply (instance_line_adds_no_player joining_room_joins logic_init).
  vm_compute. reflexivity.
Defined.

(* ================================================================== *)
(** * Beyond the claims: the watcher's file offset and flag            *)
(* ================================================================== *)

Lemma outside_process (line : string) (L : logic) :
  outside_tracker (_process_log_line line L) = outside_tracker L.
Proof.
  unfold _process_log_line.
  destruct (is_instance_line line).
  - destruct (instance_change line) as [[raw inst]|]; reflexivity.
  - destruct (contains "[Behaviour] OnPlayerJoined" line).
    + destruct (timestamp_match line) as [raw|]; [|reflexivity].
      destruct (player_match "OnPlayerJoined" line) as [[nm pid]|];
        [|reflexivity].
      destruct (strptime raw) as [t|]; reflexivity.
    + destruct (contains "[Behaviour] OnPlayerLeft" line); [|reflexivity].
      destruct (timestamp_match line) as [raw|]; [|reflexivity].
      destruct (player_match "OnPlayerLeft" line) as [[nm pid]|];
        [|reflexivity].
      destruct (strptime raw) as [t|]; [|reflexivity].
      unfold on_player_leave. simpl.
      destruct (dict_mem pid (_player_join_times L)); reflexivity.
Qed.

Lemma outside_process_lines (lines : list string) (L : logic) :
  outside_tracker (process_lines lines L) = outside_tracker L.
Proof.
  revert L. induction lines as [|line rest IH]; intros L; [reflexivity|].
  unfold process_lines. simpl. fold (process_lines rest (_process_log_line line L)).
  now rewrite IH, outside_process.
Qed.

(** The offset plays no part in the processing of a line. *)
Lemma process_set_position (n : nat) (line : string) (L : logic) :
  _process_log_line line (with_watcher (set_file_position n) L)
  = with_watcher (set_file_position n) (_process_log_line line L).
Proof.
  unfold _process_log_line.
  destruct (is_instance_line line).
  - destruct (instance_change line) as [[raw inst]|]; reflexivity.
  - destruct (contains "[Behaviour] OnPlayerJoined" line).
    + destruct (timestamp_match line) as [raw|]; [|reflexivity].
      destruct (player_match "OnPlayerJoined" line) as [[nm pid]|];
        [|reflexivity].
      destruct (strptime raw) as [t|]; reflexivity.
    + destruct (contains "[Behaviour] OnPlayerLeft" line); [|reflexivity].
      destruct (timestamp_match line) as [raw|]; [|reflexivity].
      destruct (player_match "OnPlayerLeft" line) as [[nm pid]|];
        [|reflexivity].
      destruct (strptime raw) as [t|]; [|reflexivity].
      unfold on_player_leave. simpl.
      destruct (dict_mem pid (_player_join_times L)); reflexivity.
Qed.

Lemma process_lines_set_position (n : nat) (lines : list string) (L : logic) :
  process_lines lines (with_watcher (set_file_position n) L)
  = with_watcher (set_file_position n) (process_lines lines L).
Proof.
  revert L. induction lines as [|line rest IH]; intros L; [reflexivity|].
  unfold process_lines. simpl.
  fold (process_lines rest
          (_process_log_line line (with_watcher (set_file_position n) L))).
  fold (process_lines rest (_process_log_line line L)).
  now rewrite process_set_position, IH.
Qed.

Lemma process_lines_app (l1 l2 : list string) (L : logic) :
  process_lines (l1 ++ l2) L = process_lines l2 (process_lines l1 L).
Proof. unfold process_lines. apply fold_left_app. Qed.

Lemma iteration_offset (f : file_status) (L : logic) :
  (file_position (log_watcher L)
   <= file_position (log_watcher (watch_log_iteration f L)))%nat
  /\ log_path (log_watcher (watch_log_iteration f L))
     = log_path (log_watcher L).
Proof.
  unfold watch_log_iteration. destruct f as [|n|c].
  - split; [apply Nat.le_refl|reflexivity].
  - destruct (file_position (log_watcher L) <? n)%nat;
      (split; [apply Nat.le_refl|reflexivity]).
  - destruct (file_position (log_watcher L) <? String.length c)%nat eqn:E.
    + fold (process_lines
              (readlines (seek (file_position (log_watcher L)) c))
              (with_watcher (set_file_position (String.length c)) L)).
      pose proof (outside_process_lines
                    (readlines (seek (file_position (log_watcher L)) c))
                    (with_watcher (set_file_position (String.length c)) L))
        as O.
      unfold outside_tracker in O. simpl in O.
      injection O as O1 O2 _ _ _ _ _ _ _ _ _.
      rewrite O1, O2. apply Nat.ltb_lt in E. split; [lia|reflexivity].
    + split; [apply Nat.le_refl|reflexivity].
Qed.

(** X5.  Along the poll loop the read offset never decreases, whatever the
    file does between two polls (grow, shrink, vanish, become unreadable),
    and the path the watcher follows never changes. *)
Theorem offset_never_decreases :
  forall (polls : list file_status) (L : logic),
    (file_position (log_watcher L)
     <= file_position (log_watcher (_watch_log polls L)))%nat
    /\ log_path (log_watcher (_watch_log polls L)) = log_path (log_watcher L).
Proof.
  induction polls as [|f rest IH]; intros L; simpl.
  - split; [apply Nat.le_refl|reflexivity].
  - destruct (is_watching (log_watcher L));
      [|split; [apply Nat.le_refl|reflexivity]].
    destruct (IH (watch_log_iteration f L)) as [H1 H2].
    destruct (iteration_offset f L) as [H3 H4].
    split; [lia|congruence].
Qed.

(** ** Reading a file in two polls *)

Lemma readlines_nil (s : string) : readlines s = [] -> s = EmptyString.
Proof.
  destruct s as [|c s]; [reflexivity|]. simpl.
  destruct (Ascii.eqb c "010"); [discriminate|].
  destruct (Ascii.eqb c "013").
  - destruct s as [|c' s]; [discriminate|].
    destruct (Ascii.eqb c' "010"); discriminate.
  - destruct (readlines s); discriminate.
Qed.

(** After a line feed, the lines of what follows are read on their own. *)
Lemma readlines_after_newline (a b : string) :
  readlines (a ++ String "010" b)
  = (readlines (a ++ String "010" EmptyString) ++ readlines b)%list.
Proof.
  remember (String.length a) as n eqn:Hn.
  revert a Hn. induction n as [n IH] using lt_wf_ind. intros a Hn.
  destruct a as [|c a].
  - reflexivity.
  - simpl in Hn. cbn [append readlines].
    destruct (Ascii.eqb c "010").
    + rewrite (IH (String.length a)) by (lia || reflexivity). reflexivity.
    + destruct (Ascii.eqb c "013").
      * destruct a as [|c' a]; [reflexivity|]. cbn [append].
        destruct (Ascii.eqb c' "010").
        -- simpl in Hn.
           rewrite (IH (String.length a)) by (lia || reflexivity).
           reflexivity.
        -- change (String c' (a ++ String "010" b))
             with (String c' a ++ String "010" b)%string.
           change (String c' (a ++ String "010" EmptyString))
             with (String c' a ++ String "010" EmptyString)%string.
           rewrite (IH (String.length (String c' a)))
             by (simpl in *; lia || reflexivity).
           reflexivity.
      * rewrite (IH (String.length a)) by (lia || reflexivity).
        destruct (readlines (a ++ String "010" EmptyString)) as [|l ls] eqn:E.
        -- apply readlines_nil in E. destruct a; discriminate.
        -- reflexivity.
Qed.

Lemma seek_app (x y : string) : seek (String.length x) (x ++ y) = y.
Proof.
  induction x as [|c x IH]; simpl; [now destruct y|exact IH].
Qed.

Lemma string_app_assoc (x y z : string) :
  ((x ++ y) ++ z = x ++ (y ++ z))%string.
Proof. induction x as [|c x IH]; simpl; [reflexivity|now rewrite IH]. Qed.

Lemma string_app_length (x y : string) :
  String.length (x ++ y) = (String.length x + String.length y)%nat.
Proof. induction x as [|c x IH]; simpl; [reflexivity|now rewrite IH]. Qed.

(** X6.  Two polls read what one poll reads.  When the file, already read
    up to the offset, first shows new text that ends with a line feed and
    at the next poll shows that text followed by more, the two iterations
    leave the same state as a single iteration on the final content. *)
Theorem two_polls_as_one :
  forall (h a b : string) (L : logic),
    file_position (log_watcher L) = String.length h ->
    watch_log_iteration
      (Readable (h ++ a ++ String "010" b))
      (watch_log_iteration (Readable (h ++ a ++ String "010" EmptyString)) L)
    = watch_log_iteration (Readable (h ++ a ++ String "010" b)) L.
Proof.
  intros h a b L HP.
  set (c1 := (h ++ a ++ String "010" EmptyString)%string).
  set (c2 := (h ++ a ++ String "010" b)%string).
  assert (E2 : c2 = (c1 ++ b)%string).
  { unfold c1, c2. rewrite !string_app_assoc. reflexivity. }
  assert (L1 : (String.length h < String.length c1)%nat).
  { unfold c1. rewrite !string_app_length. simpl. lia. }
  assert (L2 : (String.length h < String.length c2)%nat).
  { unfold c2. rewrite !string_app_length. simpl. lia. }
  assert (R1 : watch_log_iteration (Readable c1) L
               = with_watcher (set_file_position (String.length c1))
                   (process_lines
                      (readlines (a ++ String "010" EmptyString)) L)).
  { unfold watch_log_iteration. rewrite HP.
    apply Nat.ltb_lt in L1. rewrite L1.
    replace (seek (String.length h) c1)
      with (a ++ String "010" EmptyString)%string
      by (unfold c1; now rewrite seek_app).
    apply process_lines_set_position. }
  assert (R2 : watch_log_iteration (Readable c2) L
               = with_watcher (set_file_position (String.length c2))
                   (process_lines (readlines (a ++ String "010" b)) L)).
  { unfold watch_log_iteration. rewrite HP.
    apply Nat.ltb_lt in L2. rewrite L2.
    replace (seek (String.length h) c2)
      with (a ++ String "010" b)%string
      by (unfold c2; now rewrite seek_app).
    apply process_lines_set_position. }
  rewrite R2, R1, (readlines_after_newline a b), process_lines_app.
  set (La := process_lines (readlines (a ++ String "010" EmptyString)) L).
  unfold watch_log_iteration.
  cbn [log_watcher with_watcher file_position set_file_position].
  destruct b as [|cb b].
  - assert (E : c2 = c1) by (rewrite E2; clear; induction c1; simpl; congruence).
    rewrite E, Nat.ltb_irrefl. reflexivity.
  - assert (L3 : (String.length c1 <? String.length c2)%nat = true).
    { apply Nat.ltb_lt. rewrite E2, string_app_length. simpl. lia. }
    rewrite L3.
    replace (seek (String.length c1) c2) with (String cb b)
      by (rewrite E2; now rewrite seek_app).
    fold (process_lines (readlines (String cb b))
            (with_watcher (set_file_position (String.length c2))
               (with_watcher (set_file_position (String.length c1)) La))).
    rewrite !process_lines_set_position. reflexivity.
Qed.

Lemma two_polls_as_one_witness :
  watch_log_iteration
    (Readable ("" ++ "2024.01.01 10:00:00 Log        -  [Behaviour] Joining or Creating Room: wrld_2:200"
                  ++ String "010" bob_joins_1030))
    (watch_log_iteration
       (Readable ("" ++ "2024.01.01 10:00:00 Log        -  [Behaviour] Joining or Creating Room: wrld_2:200"
                     ++ String "010" EmptyString)) logic_init)
  = watch_log_iteration
      (Readable ("" ++ "2024.01.01 10:00:00 Log        -  [Behaviour] Joining or Creating Room: wrld_2:200"
                    ++ String "010" bob_joins_1030)) logic_init.
Proof.
  apply (two_polls_as_one ""
           "2024.01.01 10:00:00 Log        -  [Behaviour] Joining or Creating Room: wrld_2:200"
           bob_joins_1030 logic_init).
  reflexivity.
Defined.

(* ================================================================== *)
(** * Beyond the claims: failures and restarts of the watcher          *)
(* ================================================================== *)

Lemma watch_log_stopped (polls : list file_status) (L : logic) :
  is_watching (log_watcher L) = false -> _watch_log polls L = L.
Proof. intros H. destruct polls; simpl; now rewrite ?H. Qed.

(** X7.  An [open] that fails in the poll loop ends the loop for good: when
    the file has grown past the offset and cannot be opened, the error is
    logged, [is_watching] is cleared, and no later poll reads anything,
    whatever the file shows then. *)
Theorem open_failure_ends_polling :
  forall (n : nat) (rest : list file_status) (L : logic),
    is_watching (log_watcher L) = true ->
    (file_position (log_watcher L) < n)%nat ->
    _watch_log (Unreadable n :: rest) L
    = with_watcher (set_is_watching false) (log (ErrorWatching OSError) L).
Proof.
  intros n rest L HW HP. simpl. rewrite HW.
  apply Nat.ltb_lt in HP. rewrite HP. now apply watch_log_stopped.
Qed.

Lemma open_failure_ends_polling_witness :
  _watch_log [Unreadable 600; Readable two_sessions] watching_at_500
  = with_watcher (set_is_watching false)
                 (log (ErrorWatching OSError) watching_at_500).
Proof.
  apply (open_failure_ends_polling 600 [Readable two_sessions]
                                   watching_at_500).
  - reflexivity.
  - vm_compute. lia.
Defined.

Lemma outside_position_at_end (c : string) (L : logic) :
  outside_tracker (_position_at_end (Readable c) L)
  = outside_tracker (with_watcher (set_file_position (String.length c)) L).
Proof. reflexivity. Qed.

Lemma outside_summary_loop (ps : list player) (L : logic) :
  outside_tracker
    (fold_left
       (fun L' q =>
          match dict_get (id q) (_player_join_times L') with
          | Some join_time => log (InitialScanPlayer q join_time) L'
          | None => L'
          end) ps L)
  = outside_tracker L.
Proof.
  revert L. induction ps as [|p ps IH]; intros L; simpl; [reflexivity|].
  rewrite IH. destruct (dict_get (id p) (_player_join_times L)); reflexivity.
Qed.

Lemma outside_log_active_summary (L : logic) :
  outside_tracker (log_active_summary L) = outside_tracker L.
Proof.
  unfold log_active_summary.
  destruct (fst (get_active_players L)) as [|p ps]; [reflexivity|].
  now rewrite outside_summary_loop.
Qed.

Lemma outside_replay (since : datetime) (lines : list string) (L : logic) :
  outside_tracker (fst (replay since lines L)) = outside_tracker L.
Proof.
  revert L. induction lines as [|line rest IH]; intros L; [reflexivity|].
  simpl. destruct (timestamp_match line) as [raw|]; [|apply IH].
  destruct (strptime raw) as [t|]; [|reflexivity].
  destruct (dt_ltb t since); [apply IH|].
  now rewrite IH, outside_process.
Qed.

Lemma outside_find_current_instance (f : file_status) (L : logic) :
  outside_tracker (_find_current_instance f L) = outside_tracker L.
Proof.
  unfold _find_current_instance. destruct f as [| |c]; try reflexivity.
  destruct (first_instance_line (rev (readlines c))) as [[ts inst]|];
    reflexivity.
Qed.

(** The offset a state has after [_position_at_end] on a readable file,
    whatever was done before that changes nothing outside the tracker. *)
Lemma outside_then_position (c : string) (L L' : logic) :
  outside_tracker L' = outside_tracker L ->
  outside_tracker (_position_at_end (Readable c) L')
  = outside_tracker (with_watcher (set_file_position (String.length c)) L).
Proof.
  intros H. unfold outside_tracker in *. simpl.
  injection H as -> _ -> -> -> -> -> -> -> -> ->. reflexivity.
Qed.

(** The full scan of a readable file leaves the offset at the end of the
    file, in every one of its branches, and touches nothing else outside
    the tracker. *)
Lemma scan_outside (c : string) (L : logic) :
  outside_tracker (_scan_entire_log (Readable c) L)
  = outside_tracker (with_watcher (set_file_position (String.length c)) L).
Proof.
  unfold _scan_entire_log.
  pose proof (outside_find_current_instance (Readable c)
                                            (log ScanningEntireLog L)) as F.
  set (L1 := _find_current_instance (Readable c) (log ScanningEntireLog L))
    in *.
  assert (F1 : outside_tracker L1 = outside_tracker L) by exact F.
  destruct (current_instance (log_watcher L1)) as [inst|].
  - destruct (instance_changes (readlines c)) as [e|cs].
    + unfold scan_failed. now apply outside_then_position.
    + destruct (sort_by_time cs) as [|x xs].
      * rewrite outside_log_active_summary. now apply outside_then_position.
      * cbv zeta.
        match goal with
        | |- context [replay ?t ?ls ?L0] =>
            pose proof (outside_replay t ls L0) as R;
            destruct (replay t ls L0) as [L5 [e|]]
        end; simpl in R.
        -- unfold scan_failed. apply outside_then_position.
           rewrite <- F1. exact R.
        -- rewrite outside_log_active_summary. apply outside_then_position.
           rewrite <- F1. exact R.
  - now apply outside_then_position.
Qed.

(** X8.  A start that succeeds leaves nothing to read again.  On a watcher
    that is not running, with the path of a file that can be read,
    [start_watching] returns true, sets [is_watching] and the path, and
    leaves the offset at the end of the file, with the full scan as
    without it; so a poll that finds the file unchanged does nothing. *)
Theorem start_leaves_offset_at_end :
  forall (_get_vrchat_log_path : logic -> option string * logic)
         (fs : string -> file_status) (p c : string) (scan_existing : bool)
         (L : logic),
    is_watching (log_watcher L) = false ->
    p <> EmptyString ->
    fs p = Readable c ->
    let r := start_watching _get_vrchat_log_path fs (Some p) scan_existing L in
    fst r = true
    /\ is_watching (log_watcher (snd r)) = true
    /\ log_path (log_watcher (snd r)) = Some p
    /\ file_position (log_watcher (snd r)) = String.length c
    /\ watch_log_iteration (Readable c) (snd r) = snd r.
Proof.
  intros gp fs p c scan_existing L HW HP HF. cbv zeta.
  unfold start_watching. rewrite HW.
  destruct p as [|a p]; [congruence|]. cbn [falsy_path]. rewrite HF.
  set (L2 := log (StartingToWatch (String a p))
                 (with_watcher (set_log_path (Some (String a p))) L)).
  assert (O : outside_tracker
                (if scan_existing
                 then _scan_entire_log (Readable c) (log PerformingFullScan L2)
                 else _position_at_end (Readable c) L2)
              = outside_tracker
                  (with_watcher (set_file_position (String.length c)) L2)).
  { destruct scan_existing; [rewrite scan_outside|]; reflexivity. }
  set (L3 := if scan_existing
             then _scan_entire_log (Readable c) (log PerformingFullScan L2)
             else _position_at_end (Readable c) L2) in *.
  unfold outside_tracker in O. simpl in O.
  injection O as O1 O2 _ _ _ _ _ _ _ _ _.
  cbn [fst snd]. repeat split.
  - simpl. exact O1.
  - simpl. exact O2.
  - unfold watch_log_iteration. simpl. rewrite O2, Nat.ltb_irrefl.
    reflexivity.
Qed.

Lemma start_leaves_offset_at_end_witness :
  let r := start_watching finds_log (fun _ => Readable two_sessions)
                          (Some "output_log.txt") true logic_init in
  fst r = true
  /\ is_watching (log_watcher (snd r)) = true
  /\ log_path (log_watcher (snd r)) = Some "output_log.txt"
  /\ file_position (log_watcher (snd r)) = String.length two_sessions
  /\ watch_log_iteration (Readable two_sessions) (snd r) = snd r.
Proof.
  apply (start_leaves_offset_at_end finds_log (fun _ => Readable two_sessions)
           "output_log.txt" two_sessions true logic_init).
  - reflexivity.
  - discriminate.
  - reflexivity.
Defined.

Lemma instance_changes_no_change (lines : list string) :
  existsb is_change lines = false -> instance_changes lines = inr [].
Proof.
  induction lines as [|line rest IH]; simpl; [reflexivity|].
  unfold is_change at 1. intros H. apply orb_false_elim in H as [H1 H2].
  destruct (is_instance_line line); simpl in H1; [|now apply IH].
  destruct (instance_change line); [discriminate|now apply IH].
Qed.

(** X9.  Without a session-change line the full scan applies no line at
    all: when no line of the file announces a session change, or the file
    is missing or cannot be read, the presence tracker is after the scan
    what it was before, join and leave lines of the file notwithstanding. *)
Theorem scan_without_session_applies_nothing :
  (forall (c : string) (L : logic),
      existsb is_change (readlines c) = false ->
      tracker (_scan_entire_log (Readable c) L) = tracker L)
  /\ (forall (n : nat) (L : logic),
         tracker (_scan_entire_log Missing L) = tracker L
         /\ tracker (_scan_entire_log (Unreadable n) L) = tracker L).
Proof.
  split.
  - intros c L H. unfold _scan_entire_log, _find_current_instance.
    assert (F : first_instance_line (rev (readlines c)) = None)
      by (apply first_instance_line_none; now rewrite existsb_rev).
    rewrite F. cbn [log_watcher log current_instance].
    destruct (current_instance (log_watcher L)) as [inst|] eqn:CI.
    + cbn [log_watcher log]. rewrite ?CI.
      rewrite (instance_changes_no_change _ H). cbn [sort_by_time].
      now rewrite tracker_log_active_summary, tracker_position_at_end.
    + cbn [log_watcher log]. rewrite ?CI. now rewrite tracker_position_at_end.
  - intros n L. unfold _scan_entire_log, _find_current_instance, scan_failed.
    cbn [log_watcher log current_instance].
    destruct (current_instance (log_watcher L)) as [inst|] eqn:CI;
      cbn [log_watcher log]; rewrite ?CI; split; reflexivity.
Qed.

Lemma scan_without_session_applies_nothing_witness :
  tracker (_scan_entire_log (Readable (bob_joins_1030 ++ bob_joins_1045))
                            logic_init)
  = tracker logic_init.
Proof.
  destruct scan_without_session_applies_nothing as [H _].
  apply (H (bob_joins_1030 ++ bob_joins_1045)%string logic_init).
  vm_compute. reflexivity.
Defined.

(** X10.  One impossible date stops the whole scan.  When [strptime]
    refuses the timestamp of a session-change line of the file (a month
    13, say), the scan applies no line: the user records and the join
    times are after it what they were before, and the offset is at the
    end of the file. *)
Theorem scan_with_bad_date_applies_nothing :
  forall (c : string) (e : exn) (L : logic),
    instance_changes (readlines c) = inl e ->
    player_events (log_watcher (_scan_entire_log (Readable c) L))
    = player_events (log_watcher L)
    /\ _player_join_times (_scan_entire_log (Readable c) L)
       = _player_join_times L
    /\ file_position (log_watcher (_scan_entire_log (Readable c) L))
       = String.length c.
Proof.
  intros c e L H.
  pose proof (scan_outside c L) as O. unfold outside_tracker in O.
  simpl in O. injection O as _ O2 _ _ _ _ _ _ _ _ _.
  split; [|split; [|exact O2]];
    unfold _scan_entire_log, _find_current_instance, scan_failed;
    destruct (first_instance_line (rev (readlines c))) as [[ts inst]|];
    cbn [log_watcher log with_watcher current_instance set_current_instance];
    try rewrite H; try reflexivity;
    destruct (current_instance (log_watcher L)); try rewrite H; reflexivity.
Qed.

Lemma scan_with_bad_date_applies_nothing_witness :
  player_events
    (log_watcher
       (_scan_entire_log
          (Readable (room1_0900 ++ alice_joins_0930 ++ room3_bad_month))
          logic_init))
  = []
  /\ _player_join_times
       (_scan_entire_log
          (Readable (room1_0900 ++ alice_joins_0930 ++ room3_bad_month))
          logic_init)
     = []
  /\ file_position
       (log_watcher
          (_scan_entire_log
             (Readable (room1_0900 ++ alice_joins_0930 ++ room3_bad_month))
             logic_init))
     = String.length (room1_0900 ++ alice_joins_0930 ++ room3_bad_month).
Proof.
  apply (scan_with_bad_date_applies_nothing
           (room1_0900 ++ alice_joins_0930 ++ room3_bad_month)%string
           (ValueError "2024.13.01 12:00:00") logic_init).
  vm_compute. reflexivity.
Defined.

(** X11.  [stop_watching] ends the polling and keeps the tracker: after it
    the flag is cleared, the presence data is what it was, no poll reads
    anything, and a second call changes nothing.  A later start without
    the scan, on a file that can be read, takes the presence data of the
    earlier watch over as it is. *)
Theorem stop_keeps_tracker :
  (forall (polls : list file_status) (L : logic),
      is_watching (log_watcher (stop_watching L)) = false
      /\ tracker (stop_watching L) = tracker L
      /\ _watch_log polls (stop_watching L) = stop_watching L
      /\ stop_watching (stop_watching L) = stop_watching L)
  /\ (forall (_get_vrchat_log_path : logic -> option string * logic)
             (fs : string -> file_status) (p c : string) (L : logic),
         p <> EmptyString ->
         fs p = Readable c ->
         tracker (snd (start_watching _get_vrchat_log_path fs (Some p) false
                                      (stop_watching L)))
         = tracker L).
Proof.
  split.
  - intros polls L.
    assert (H : is_watching (log_watcher (stop_watching L)) = false).
    { unfold stop_watching.
      destruct (is_watching (log_watcher L)) eqn:E; [reflexivity|exact E]. }
    split; [exact H|]. split; [|split].
    + unfold stop_watching. destruct (is_watching (log_watcher L));
        reflexivity.
    + now apply watch_log_stopped.
    + unfold stop_watching at 1. now rewrite H.
  - intros gp fs p c L HP HF. unfold start_watching.
    assert (H : is_watching (log_watcher (stop_watching L)) = false).
    { unfold stop_watching.
      destruct (is_watching (log_watcher L)) eqn:E; [reflexivity|exact E]. }
    rewrite H. destruct p as [|a p]; [congruence|]. cbn [falsy_path].
    rewrite HF. cbn [snd]. unfold stop_watching.
    destruct (is_watching (log_watcher L)); reflexivity.
Qed.

Lemma stop_keeps_tracker_witness :
  tracker
    (snd (start_watching finds_log (fun _ => Readable two_sessions)
            (Some "output_log.txt") false
            (stop_watching
               (process_lines [room2_1000; bob_joins_1030] watching_at_500))))
  = tracker (process_lines [room2_1000; bob_joins_1030] watching_at_500).
Proof.
  destruct stop_keeps_tracker as [_ H].
  apply (H finds_log (fun _ => Readable two_sessions) "output_log.txt"
           two_sessions
           (process_lines [room2_1000; bob_joins_1030] watching_at_500)).
  - discriminate.
  - reflexivity.
Defined.

(* ================================================================== *)
(** * Beyond the claims: the counters of a run                         *)
(* ================================================================== *)

Section BodyOutcomes.

Variable group_id : string.
Variable total_players : nat.

Ltac split_body :=
  unfold process_player, check_membership, check_pending, send_invite,
    unexpected, api_exception_details;
  cbv zeta;
  repeat match goal with
         | |- context [match ?x with _ => _ end] =>
             lazymatch x with
             | context [match _ with _ => _ end] => fail
             | _ => destruct x eqn:?
             end
         end.

(** The body of the loop adds one to exactly one of the three counters. *)
Lemma process_player_counts (r : remote) (p : player) (S : shared) :
  (invited_count (process_player group_id total_players r p S)
   + failed_count (process_player group_id total_players r p S)
   + skipped_count (process_player group_id total_players r p S)
   = 1 + (invited_count S + failed_count S + skipped_count S))%nat.
Proof. split_body; simpl; lia. Qed.

(** X13.  Whatever the remote service answers, the body of the worker's
    loop ends in one of three ways: one more invite counted, and then the
    last call issued is the create-invite call for this player and it has
    returned; or one more skip counted, and then no create-invite call was
    issued; or one more failure counted.  The other two counters and the
    queue stay as they are, and at most one create-invite call is
    issued. *)
Theorem body_counts_one_outcome :
  forall (r : remote) (p : player) (S : shared),
    let S' := process_player group_id total_players r p S in
    player_queue S' = player_queue S
    /\ (create_calls (calls S') <= 1 + create_calls (calls S))%nat
    /\ ((invited_count S' = (1 + invited_count S)%nat
         /\ failed_count S' = failed_count S
         /\ skipped_count S' = skipped_count S
         /\ hd_error (calls S') = Some (CreateGroupInvite group_id (id p))
         /\ exists u, create_group_invite r (id p) = Returned u)
        \/ (skipped_count S' = (1 + skipped_count S)%nat
            /\ invited_count S' = invited_count S
            /\ failed_count S' = failed_count S
            /\ create_calls (calls S') = create_calls (calls S))
        \/ (failed_count S' = (1 + failed_count S)%nat
            /\ invited_count S' = invited_count S
            /\ skipped_count S' = skipped_count S)).
Proof.
  intros r p S. cbv zeta. unfold create_calls.
  split_body; simpl;
    (split; [reflexivity|]); (split; [lia|]);
    first [ left; repeat split; eauto; fail
          | right; left; repeat split; fail
          | right; right; repeat split; fail ].
Qed.

(** X14.  The two checks before the invite fail open.  An [ApiException]
    of the membership check, with whatever status, and an [ApiException]
    of the pending-invite check do not hold the invite back: when the
    create-invite call then returns, the player is counted as invited,
    after the three calls in their order. *)
Theorem failed_checks_do_not_hold_back :
  forall (r : remote) (p : player) (S : shared)
         (st st' : nat) (b b' : option string) (u : unit),
    get_group_member r (id p) = Raised (ApiException st b) ->
    get_group_invites r = Raised (ApiException st' b') ->
    create_group_invite r (id p) = Returned u ->
    let S' := process_player group_id total_players r p S in
    invited_count S' = (1 + invited_count S)%nat
    /\ failed_count S' = failed_count S
    /\ skipped_count S' = skipped_count S
    /\ calls S' = CreateGroupInvite group_id (id p)
                  :: GetGroupInvites group_id
                  :: GetGroupMember group_id (id p) :: calls S.
Proof.
  intros r p S st st' b b' u HM HP HC. cbv zeta.
  unfold process_player, check_membership, check_pending, send_invite.
  rewrite HM. destruct (st =? 404)%nat; cbv zeta; cbn [fst snd];
    rewrite HP; cbv zeta; rewrite HC; simpl; repeat split.
Qed.

End BodyOutcomes.

Lemma failed_checks_do_not_hold_back_witness :
  let S' := process_player "grp_1" 1 failing_checks carl
                           (mkShared inviting [] 0 0 0 []) in
  invited_count S' = 1%nat
  /\ failed_count S' = 0%nat
  /\ skipped_count S' = 0%nat
  /\ calls S' = [CreateGroupInvite "grp_1" "usr_c"; GetGroupInvites "grp_1";
                 GetGroupMember "grp_1" "usr_c"].
Proof.
  apply (failed_checks_do_not_hold_back "grp_1" 1 failing_checks carl
           (mkShared inviting [] 0 0 0 []) 500 500 None None tt);
    reflexivity.
Defined.

Section Accounting.

Variable group_id : string.
Variable total_players : nat.
Variable delay : nat.
Variable allowed : remote -> Prop.

Lemma accounted_move (s s' : pool) :
  worker_move group_id total_players delay allowed s s' ->
  forall total, accounted total s -> accounted total s'.
Proof.
  intros M total A. destruct M as [r S S' ws i c c' _ Hn Hc Hs].
  unfold accounted in *. simpl in *.
  destruct (set_nth_split ws i c Hn) as (pre & post & -> & E).
  rewrite E. rewrite held_split, in_process_split in *.
  rewrite !length_app in *.
  destruct c; simpl in Hs; try congruence.
  - destruct (player_queue S) eqn:Q;
      [|destruct (is_inviting (self S))]; injection Hs as <- <-;
      rewrite ?Q; simpl in *; lia.
  - destruct (is_inviting (self S)); injection Hs as <- <-; simpl in *; lia.
  - destruct (player_queue S) as [|p0 q0] eqn:Q; injection Hs as <- <-;
      simpl in *; rewrite ?Q; simpl; lia.
  - destruct (is_inviting (self S)); injection Hs as <- <-; simpl in *;
      rewrite ?length_app; simpl; lia.
  - injection Hs as <- <-.
    pose proof (process_player_counts group_id total_players r p S) as C.
    rewrite process_player_queue. simpl in *. lia.
  - destruct (is_inviting (self S)); injection Hs as <- <-; simpl in *; lia.
  - injection Hs as <- <-. simpl in *. lia.
Qed.

Lemma accounted_run (s s' : pool) :
  run (step group_id total_players delay allowed) s s' ->
  forall total, accounted total s -> accounted total s'.
Proof.
  induction 1 as [s|s1 s2 s3 M R IH]; intros total A; [exact A|].
  apply IH. destruct M as [s1 s2 M|S ws|S ws u ms pe now dw pwt L hs E|S ws F].
  - now apply (accounted_move s1 s2).
  - exact A.
  - exact A.
  - exact A.
Qed.

End Accounting.

Lemma all_exited_holds_none (ws : list pc) :
  all_exited ws = true -> held ws = [] /\ in_process ws = [].
Proof.
  induction ws as [|c ws IH]; simpl; [auto|].
  intros H. apply andb_prop in H as [H1 H2].
  destruct c; try discriminate. simpl. auto.
Qed.

(** X12.  No player of a run is lost or counted twice.  In every state a
    run of the pool can reach, with any number of workers, any
    interleaving, any answers of the remote service and any cancellation,
    the three counters, the queue and the players in the hands of the
    workers add up to the number of players the run started with; so when
    all workers have left, the counters and what remains in the queue add
    up to that number. *)
Theorem every_player_accounted :
  forall (group_id : string) (delay max_threads : nat)
         (allowed : remote -> Prop) (players : list player) (L : logic)
         (s : pool),
    run (step group_id (List.length players) delay allowed)
        (pool_start group_id players max_threads L) s ->
    accounted (List.length players) s
    /\ (all_exited (snd s) = true ->
        (invited_count (fst s) + failed_count (fst s) + skipped_count (fst s)
         + List.length (player_queue (fst s)) = List.length players)%nat).
Proof.
  intros group_id delay max_threads allowed players L s R.
  assert (A0 : accounted (List.length players)
                 (pool_start group_id players max_threads L)).
  { unfold accounted, pool_start. cbv zeta. cbn [fst snd].
    destruct (start_workers_frame
                (Nat.min max_threads (List.length players))
                (Nat.min max_threads (List.length players))
                (mkShared (log (StartingPool (List.length players) group_id) L)
                          players 0 0 0 []))
      as (_ & -> & -> & -> & _ & ->).
    destruct (held_repeat_AtWhile
                (Nat.min max_threads (List.length players))) as [-> ->].
    simpl. lia. }
  pose proof (accounted_run _ _ _ _ _ _ R _ A0) as A.
  split; [exact A|]. intros HE.
  destruct (all_exited_holds_none _ HE) as [H1 H2].
  unfold accounted in A. rewrite H1, H2 in A. simpl in A. lia.
Qed.

Lemma every_player_accounted_witness :
  accounted (List.length [dora; carl])
    (set_self
       (snd (stop_inviting
               (self (fst (pool_start "grp_1" [dora; carl] 2 inviting)))))
       (fst (pool_start "grp_1" [dora; carl] 2 inviting)),
     snd (pool_start "grp_1" [dora; carl] 2 inviting))
  /\ (all_exited (snd (pool_start "grp_1" [dora; carl] 2 inviting)) = true ->
      (invited_count
         (set_self
            (snd (stop_inviting
                    (self (fst (pool_start "grp_1" [dora; carl] 2 inviting)))))
            (fst (pool_start "grp_1" [dora; carl] 2 inviting)))
       + failed_count
           (set_self
              (snd (stop_inviting
                      (self (fst (pool_start "grp_1" [dora; carl] 2
                                             inviting)))))
              (fst (pool_start "grp_1" [dora; carl] 2 inviting)))
       + skipped_count
           (set_self
              (snd (stop_inviting
                      (self (fst (pool_start "grp_1" [dora; carl] 2
                                             inviting)))))
              (fst (pool_start "grp_1" [dora; carl] 2 inviting)))
       + List.length
           (player_queue
              (set_self
                 (snd (stop_inviting
                         (self (fst (pool_start "grp_1" [dora; carl] 2
                                                inviting)))))
                 (fst (pool_start "grp_1" [dora; carl] 2 inviting))))
       = List.length [dora; carl])%nat).
Proof.
  apply (every_player_accounted "grp_1" 5 2 (fun _ => True) [dora; carl]
           inviting
           (set_self
              (snd (stop_inviting
                      (self (fst (pool_start "grp_1" [dora; carl] 2
                                             inviting)))))
              (fst (pool_start "grp_1" [dora; carl] 2 inviting)),
            snd (pool_start "grp_1" [dora; carl] 2 inviting))).
  eapply run_move; [|apply run_done].
  rewrite (surjective_pairing (pool_start "grp_1" [dora; carl] 2 inviting))
    at 1.
  apply step_stop.
Defined.

Section Drain.

Variable group_id : string.
Variable total_players : nat.
Variable delay : nat.
Variable r : remote.

(** One turn of the loop of a worker alone: seven steps take the first
    player of the queue through the body and back to the head. *)
Lemma alone_one_turn (k : nat) (S : shared) (p : player) (q : list player) :
  player_queue S = p :: q -> is_inviting (self S) = true ->
  alone group_id total_players delay r (7 + k) AtWhile S
  = alone group_id total_players delay r k AtWhile
          (say (WaitingBeforeNext delay)
               (process_player group_id total_players r p
                  (say (ProcessingPlayer p) (set_queue q S)))).
Proof.
  intros HQ HF. change (7 + k)%nat with (Datatypes.S (6 + k)).
  rewrite (alone_next _ _ _ _ (6 + k) AtWhile AtCheckBeforeGet S S)
    by (discriminate || now apply (at_while_enters _ _ _ _ S p q)).
  change (6 + k)%nat with (Datatypes.S (5 + k)).
  rewrite (alone_next _ _ _ _ (5 + k) AtCheckBeforeGet AtGet S S)
    by (discriminate || now apply at_check_before_get_passes).
  change (5 + k)%nat with (Datatypes.S (4 + k)).
  rewrite (alone_next _ _ _ _ (4 + k) AtGet (AtCheckBeforeProcess p) S
                      (say (ProcessingPlayer p) (set_queue q S)))
    by (discriminate || now apply at_get_takes).
  set (S1 := say (ProcessingPlayer p) (set_queue q S)).
  assert (F1 : is_inviting (self S1) = true) by exact HF.
  change (4 + k)%nat with (Datatypes.S (3 + k)).
  rewrite (alone_next _ _ _ _ (3 + k) (AtCheckBeforeProcess p) (AtProcess p)
                      S1 S1)
    by (discriminate || now apply at_check_before_process_passes).
  change (3 + k)%nat with (Datatypes.S (2 + k)).
  rewrite (alone_next _ _ _ _ (2 + k) (AtProcess p) AtCheckBeforeWait S1
                      (process_player group_id total_players r p S1))
    by (discriminate || reflexivity).
  set (S2 := process_player group_id total_players r p S1).
  assert (F2 : is_inviting (self S2) = true)
    by (unfold S2; now rewrite process_player_flag).
  change (2 + k)%nat with (Datatypes.S (1 + k)).
  rewrite (alone_next _ _ _ _ (1 + k) AtCheckBeforeWait AtSleep S2
                      (say (WaitingBeforeNext delay) S2))
    by (discriminate || now apply at_check_before_wait_passes).
  change (1 + k)%nat with (Datatypes.S k).
  rewrite (alone_next _ _ _ _ k AtSleep AtWhile
                      (say (WaitingBeforeNext delay) S2)
                      (say (WaitingBeforeNext delay) S2))
    by (discriminate || reflexivity).
  reflexivity.
Qed.

(** A worker alone, never cancelled, empties the queue: seven steps per
    player and one more to leave. *)
Lemma alone_drains (players : list player) (S : shared) :
  player_queue S = players -> is_inviting (self S) = true ->
  let R := alone group_id total_players delay r
                 (7 * List.length players + 1) AtWhile S in
  snd R = Exited
  /\ player_queue (fst R) = []
  /\ is_inviting (self (fst R)) = true
  /\ (invited_count (fst R) + failed_count (fst R) + skipped_count (fst R)
      = invited_count S + failed_count S + skipped_count S
        + List.length players)%nat.
Proof.
  revert S. induction players as [|p q IH]; intros S HQ HF; cbv zeta.
  - change (7 * List.length (@nil player) + 1)%nat with 1%nat.
    rewrite (alone_next _ _ _ _ 0 AtWhile Exited S S)
      by (discriminate || now apply at_while_drained).
    simpl. repeat split; auto; lia.
  - replace (7 * List.length (p :: q) + 1)%nat
      with (7 + (7 * List.length q + 1))%nat by (simpl; lia).
    rewrite (alone_one_turn _ S p q HQ HF).
    set (S3 := say (WaitingBeforeNext delay)
                   (process_player group_id total_players r p
                      (say (ProcessingPlayer p) (set_queue q S)))).
    assert (Q3 : player_queue S3 = q)
      by (unfold S3; simpl; now rewrite process_player_queue).
    assert (F3 : is_inviting (self S3) = true)
      by (unfold S3; simpl; now rewrite process_player_flag).
    destruct (IH S3 Q3 F3) as (H1 & H2 & H3 & H4).
    repeat split; auto. rewrite H4. unfold S3. simpl.
    pose proof (process_player_counts group_id total_players r p
                  (say (ProcessingPlayer p) (set_queue q S))) as C.
    simpl in C. simpl. lia.
Qed.

End Drain.

Lemma pool_start_one_worker (group_id : string) (players : list player)
    (L : logic) :
  players <> [] ->
  pool_start group_id players 1 L
  = (mkShared (log (StartingWorker 1 1)
                   (log (StartingPool (List.length players) group_id) L))
              players 0 0 0 [],
     [AtWhile]).
Proof.
  intros H. unfold pool_start. cbv zeta.
  replace (Nat.min 1 (List.length players)) with 1%nat
    by (destruct players; [congruence|simpl; lia]).
  reflexivity.
Qed.

Lemma finished_drained (total : nat) (A : shared * pc) (n : nat) :
  snd A = Exited ->
  player_queue (fst A) = [] ->
  is_inviting (self (fst A)) = true ->
  (invited_count (fst A) + failed_count (fst A) + skipped_count (fst A)
   = n)%nat ->
  all_exited (snd (fst A, [snd A])) = true
  /\ player_queue (fst (fst A, [snd A])) = []
  /\ (invited_count (fst (fst A, [snd A]))
      + failed_count (fst (fst A, [snd A]))
      + skipped_count (fst (fst A, [snd A])) = n)%nat
  /\ hd_error (logged (self (pool_finish total (fst A, [snd A]))))
     = Some (InvitationCompleted (invited_count (fst (fst A, [snd A])))
                                 total
                                 (failed_count (fst (fst A, [snd A])))
                                 (skipped_count (fst (fst A, [snd A])))).
Proof.
  intros E HQ HF HC. cbn [fst snd]. rewrite E.
  split; [reflexivity|]. split; [exact HQ|]. split; [exact HC|].
  rewrite pool_finish_message. cbn [fst]. now rewrite HF.
Qed.

(** X15.  A run with one worker that is never cancelled comes to its end
    and handles every player once.  Whatever the remote service answers,
    there is a run of the pool started with one worker on a list of
    players that is not empty, seven steps per player and one more, after
    which the worker has left, the queue is empty, the three counters add
    up to the number of players, and the completion message is the
    "completed" one with these counters. *)
Theorem single_worker_completes :
  forall (group_id : string) (delay : nat) (r : remote)
         (allowed : remote -> Prop) (players : list player) (L : logic),
    allowed r ->
    players <> [] ->
    is_inviting L = true ->
    exists s : pool,
      run (worker_move group_id (List.length players) delay allowed)
          (pool_start group_id players 1 L) s
      /\ all_exited (snd s) = true
      /\ player_queue (fst s) = []
      /\ (invited_count (fst s) + failed_count (fst s)
          + skipped_count (fst s) = List.length players)%nat
      /\ hd_error (logged (self (pool_finish (List.length players) s)))
         = Some (InvitationCompleted (invited_count (fst s))
                                     (List.length players)
                                     (failed_count (fst s))
                                     (skipped_count (fst s))).
Proof.
  intros group_id delay r allowed players L HA HN HL.
  rewrite (pool_start_one_worker _ _ _ HN).
  set (S0 := mkShared (log (StartingWorker 1 1)
                          (log (StartingPool (List.length players) group_id) L))
                      players 0 0 0 []).
  pose proof (alone_drains group_id (List.length players) delay r players S0
                           eq_refl HL) as HD.
  cbv zeta in HD.
  pose proof (alone_run group_id (List.length players) delay allowed r
                        (7 * List.length players + 1) AtWhile S0 HA) as HR.
  revert HD HR.
  generalize (alone group_id (List.length players) delay r
                    (7 * List.length players + 1) AtWhile S0).
  intros A (E & HQ & HF & HC) HR.
  exists (fst A, [snd A]). split; [exact HR|].
  apply finished_drained; auto.
Qed.

Lemma single_worker_completes_witness :
  exists s : pool,
    run (worker_move "grp_1" (List.length [dora; carl]) 5 (fun _ => True))
        (pool_start "grp_1" [dora; carl] 1 inviting) s
    /\ all_exited (snd s) = true
    /\ player_queue (fst s) = []
    /\ (invited_count (fst s) + failed_count (fst s)
        + skipped_count (fst s) = List.length [dora; carl])%nat
    /\ hd_error (logged (self (pool_finish (List.length [dora; carl]) s)))
       = Some (InvitationCompleted (invited_count (fst s))
                                   (List.length [dora; carl])
                                   (failed_count (fst s))
                                   (skipped_count (fst s))).
Proof.
  apply (single_worker_completes "grp_1" 5 nobody_member (fun _ => True)
           [dora; carl] inviting).
  - exact I.
  - discriminate.
  - reflexivity.
Defined.

(* ================================================================== *)
(** * The group of an instance and the current instance                *)
(* ================================================================== *)

Import Further.

Lemma literal_grp (s rest : string) :
  literal "grp_" s = Some rest -> s = ("grp_" ++ rest)%string.
Proof.
  intros H.
  destruct s as [|c1 [|c2 [|c3 [|c4 s]]]]; cbn [literal] in H;
    repeat match type of H with
           | (if ?b then _ else _) = _ =>
               let E := fresh "E" in
               destruct b eqn:E; [apply Ascii.eqb_eq in E; subst|discriminate]
           end; try discriminate.
  injection H as <-. reflexivity.
Qed.

Lemma remove_grp_eq (c1 : ascii) (s1 : string) :
  remove_grp (String c1 s1) =
  match s1 with
  | String c2 (String c3 (String c4 rest)) =>
      if Ascii.eqb c1 "g" && Ascii.eqb c2 "r" && Ascii.eqb c3 "p"
         && Ascii.eqb c4 "_"
      then remove_grp rest
      else String c1 (remove_grp s1)
  | _ => String c1 (remove_grp s1)
  end.
Proof. destruct s1; reflexivity. Qed.

Lemma remove_grp_grp (s : string) :
  remove_grp ("grp_" ++ s) = remove_grp s.
Proof. reflexivity. Qed.

Lemma before_tilde_grp (s : string) :
  before_tilde ("grp_" ++ s) = ("grp_" ++ before_tilde s)%string.
Proof. reflexivity. Qed.

(** Removing the occurrences of ["grp_"] never makes a string longer. *)
Lemma remove_grp_length (s : string) :
  (String.length (remove_grp s) <= String.length s)%nat.
Proof.
  assert (P : forall n s, (String.length s <= n)%nat ->
                          (String.length (remove_grp s) <= String.length s)%nat).
  { induction n as [|n IH]; intros t Ht.
    - destruct t; simpl in *; lia.
    - destruct t as [|c1 s1]; [simpl; lia|].
      rewrite remove_grp_eq.
      assert (Q : (String.length (String c1 (remove_grp s1))
                   <= String.length (String c1 s1))%nat).
      { simpl. apply le_n_S. apply IH. simpl in Ht. lia. }
      destruct s1 as [|c2 [|c3 [|c4 rest]]]; try exact Q.
      destruct (Ascii.eqb c1 "g" && Ascii.eqb c2 "r" && Ascii.eqb c3 "p"
                && Ascii.eqb c4 "_"); [|exact Q].
      assert (R : (String.length (remove_grp rest) <= String.length rest)%nat)
        by (apply IH; simpl in Ht; lia).
      simpl. lia. }
  apply (P (String.length s)). lia.
Qed.

(** A string without ["grp_"] is left as it is. *)
Lemma remove_grp_none (g : string) :
  contains "grp_" g = false -> remove_grp g = g.
Proof.
  unfold contains. induction g as [|c1 s1 IH]; intros H; [reflexivity|].
  destruct (re_search (literal "grp_") (String c1 s1)) eqn:R; [discriminate|].
  pose proof (re_search_none_here _ _ R) as Here.
  assert (R1 : re_search (literal "grp_") s1 = None).
  { apply re_search_none_iff. intros pre suf E.
    apply (proj1 (re_search_none_iff _ _) R (String c1 pre) suf).
    simpl. now rewrite E. }
  rewrite remove_grp_eq.
  assert (T : String c1 (remove_grp s1) = String c1 s1)
    by (f_equal; apply IH; rewrite R1; reflexivity).
  destruct s1 as [|c2 [|c3 [|c4 rest]]]; try exact T.
  destruct (Ascii.eqb c1 "g") eqn:E1; [|exact T].
  destruct (Ascii.eqb c2 "r") eqn:E2; [|exact T].
  destruct (Ascii.eqb c3 "p") eqn:E3; [|exact T].
  destruct (Ascii.eqb c4 "_") eqn:E4; [|exact T].
  apply Ascii.eqb_eq in E1, E2, E3, E4. subst. discriminate Here.
Qed.

Lemma before_tilde_app (g tail : string) :
  all_chars (fun c => negb (Ascii.eqb c "~")) g = true ->
  before_tilde tail = EmptyString ->
  before_tilde (g ++ tail) = g.
Proof.
  induction g as [|c g IH]; intros H T; [exact T|].
  simpl in H. apply andb_true_iff in H as [Hc Hg].
  simpl. destruct (Ascii.eqb c "~"); [discriminate|].
  rewrite (IH Hg T). reflexivity.
Qed.

Lemma string_length_app (a b : string) :
  String.length (a ++ b) = (String.length a + String.length b)%nat.
Proof. induction a as [|c a IH]; simpl; [reflexivity|now rewrite IH]. Qed.

(** X16.  For an instance id of the documented form, ["grp_"], a group id
    that holds neither ["grp_"] nor ['~'], then nothing or a tail that
    starts with ['~'], [is_instance_from_group] answers whether the group
    asked for is that group id. *)
Theorem documented_form_compares_bare_id
    (g tail group : string) (a : app) :
  contains "grp_" g = false ->
  all_chars (fun c => negb (Ascii.eqb c "~")) g = true ->
  before_tilde tail = EmptyString ->
  group <> EmptyString ->
  fst (is_instance_from_group (Some ("grp_" ++ g ++ tail)%string)
                              (Some group) a)
  = String.eqb g group.
Proof.
  intros Hg Ht Htail Hne.
  unfold is_instance_from_group.
  destruct group as [|c group]; [contradiction|].
  cbn [truthy negb orb append].
  change (String "g" (String "r" (String "p" (String "_" (g ++ tail)))))
    with ("grp_" ++ (g ++ tail))%string.
  replace (starts_with_grp ("grp_" ++ (g ++ tail))) with true by reflexivity.
  cbn [negb].
  rewrite before_tilde_grp, remove_grp_grp, (before_tilde_app g tail Ht Htail),
    (remove_grp_none g Hg).
  destruct (String.eqb g (String c group)); reflexivity.
Qed.

Lemma documented_form_compares_bare_id_witness :
  fst (is_instance_from_group
         (Some ("grp_" ++ "1234" ++ "~region(eu)")%string) (Some "1234")
         (mkApp logged_in []))
  = String.eqb "1234" "1234".
Proof.
  apply documented_form_compares_bare_id;
    [reflexivity | reflexivity | reflexivity | discriminate].
Defined.

(** X17.  [is_instance_from_group] never accepts the group id spelled as
    the instance id spells it, that is the text of the instance id before
    its first ['~'], ["grp_"] included. *)
Theorem prefixed_group_id_is_refused (inst : string) (a : app) :
  fst (is_instance_from_group (Some inst) (Some (before_tilde inst)) a)
  = false.
Proof.
  unfold is_instance_from_group.
  destruct (negb (truthy (Some inst)) || negb (truthy (Some (before_tilde inst))));
    [reflexivity|].
  unfold starts_with_grp.
  destruct (literal "grp_" inst) as [rest|] eqn:L; [|reflexivity].
  cbn [negb]. apply literal_grp in L. subst inst.
  rewrite before_tilde_grp, remove_grp_grp.
  destruct (String.eqb (remove_grp (before_tilde rest))
                       ("grp_" ++ before_tilde rest)) eqn:E; [|reflexivity].
  apply String.eqb_eq in E.
  pose proof (remove_grp_length (before_tilde rest)) as Hl.
  rewrite E in Hl. simpl in Hl. lia.
Qed.

Lemma after_colon_spec (s inst : string) :
  after_colon s = Some inst <->
  exists world, no_colon world = true /\ s = (world ++ ":" ++ inst)%string.
Proof.
  unfold no_colon. revert inst. induction s as [|c s IH]; intros inst.
  - split; [discriminate|].
    intros (w & _ & E). destruct w; discriminate E.
  - simpl. destruct (Ascii.eqb c ":") eqn:C.
    + apply Ascii.eqb_eq in C. subst c. split.
      * intros H. injection H as <-. exists EmptyString. split; reflexivity.
      * intros (w & Hw & E). destruct w as [|c w].
        -- simpl in E. injection E as <-. reflexivity.
        -- simpl in E. injection E as <- _. simpl in Hw. discriminate Hw.
    + split.
      * intros H. apply IH in H as (w & Hw & ->).
        exists (String c w). split; [|reflexivity].
        simpl. rewrite C. exact Hw.
      * intros (w & Hw & E). destruct w as [|c' w].
        -- simpl in E. injection E as -> _. rewrite Ascii.eqb_refl in C.
           discriminate C.
        -- simpl in E. injection E as <- ->. simpl in Hw.
           apply andb_true_iff in Hw as [_ Hw].
           apply IH. exists w. split; [exact Hw|reflexivity].
Qed.

(** What [get_current_instance] returns, and that it leaves the object. *)
Lemma get_current_instance_result
    (get_user : answer (option string)) (a : app) (inst : string) :
  (fst (get_current_instance get_user a) = Some inst <->
   is_logged_in (obj a) = true /\ current_user (obj a) <> None /\
   exists world, no_colon world = true /\
                 get_user = Returned (Some (world ++ ":" ++ inst)%string))
  /\ obj (snd (get_current_instance get_user a)) = obj a.
Proof.
  unfold get_current_instance. split.
  - split.
    + intros H.
      destruct (is_logged_in (obj a)); [|discriminate].
      destruct (current_user (obj a)) as [u|]; [|discriminate].
      destruct get_user as [[loc|]|e]; try discriminate.
      destruct loc as [|c loc]; [discriminate|].
      cbn [truthy negb fst] in H.
      destruct (after_colon (String c loc)) as [i|] eqn:A; [|discriminate].
      injection H as ->. apply after_colon_spec in A as (w & Hw & E).
      split; [reflexivity|]. split; [discriminate|].
      exists w. split; [exact Hw|]. now rewrite E.
    + intros (Hin & Hu & w & Hw & ->). rewrite Hin.
      destruct (current_user (obj a)) as [u|]; [|contradiction].
      assert (A : after_colon (w ++ ":" ++ inst) = Some inst)
        by (apply after_colon_spec; exists w; auto).
      destruct (w ++ ":" ++ inst)%string as [|c loc] eqn:E;
        [discriminate A|].
      cbn [truthy negb]. rewrite A. reflexivity.
  - destruct (is_logged_in (obj a)); [|reflexivity].
    destruct (current_user (obj a)); [|reflexivity].
    destruct get_user as [[[|c loc]|]|e]; try reflexivity.
    cbn [truthy negb]. destruct (after_colon (String c loc)); reflexivity.
Qed.

(** X18.  [get_current_instance] returns an instance id exactly when the
    client is logged in with a user and the request for the user returned
    a location that holds a colon; the id is what follows the first colon
    of the location.  The object is left as it was. *)
Theorem current_instance_follows_first_colon
    (get_user : answer (option string)) (a : app) (inst : string) :
  (fst (get_current_instance get_user a) = Some inst <->
   is_logged_in (obj a) = true /\ current_user (obj a) <> None /\
   exists world, no_colon world = true /\
                 get_user = Returned (Some (world ++ ":" ++ inst)%string))
  /\ obj (snd (get_current_instance get_user a)) = obj a.
Proof.
  unfold get_current_instance. split.
  - split.
    + intros H.
      destruct (is_logged_in (obj a)); [|discriminate].
      destruct (current_user (obj a)) as [u|]; [|discriminate].
      destruct get_user as [[loc|]|e]; try discriminate.
      destruct loc as [|c loc]; [discriminate|].
      cbn [truthy negb fst] in H.
      destruct (after_colon (String c loc)) as [i|] eqn:A; [|discriminate].
      injection H as ->. apply after_colon_spec in A as (w & Hw & E).
      split; [reflexivity|]. split; [discriminate|].
      exists w. split; [exact Hw|]. now rewrite E.
    + intros (Hin & Hu & w & Hw & ->). rewrite Hin.
      destruct (current_user (obj a)) as [u|]; [|contradiction].
      assert (A : after_colon (w ++ ":" ++ inst) = Some inst)
        by (apply after_colon_spec; exists w; auto).
      destruct (w ++ ":" ++ inst)%string as [|c loc] eqn:E;
        [discriminate A|].
      cbn [truthy negb]. rewrite A. reflexivity.
  - destruct (is_logged_in (obj a)); [|reflexivity].
    destruct (current_user (obj a)); [|reflexivity].
    destruct get_user as [[[|c loc]|]|e]; try reflexivity.
    cbn [truthy negb]. destruct (after_colon (String c loc)); reflexivity.
Qed.

(* ================================================================== *)
(** * The members of a group                                           *)
(* ================================================================== *)

Lemma firstn_nil_inv {A : Type} (n : nat) (l : list A) :
  firstn (S n) l = [] -> l = [].
Proof. destruct l; [reflexivity|discriminate]. Qed.

Lemma members_loop_paged (all : list string) :
  forall fuel offset acc,
    (0 < fuel)%nat ->
    (List.length all < offset + fuel * 100)%nat ->
    members_loop fuel (paged all) offset acc
    = Some (Returned (acc ++ skipn offset all)%list).
Proof.
  induction fuel as [|fuel IH]; intros offset acc Hpos H; [lia|].
  cbn [members_loop]. unfold paged at 1.
  pose proof (firstn_skipn 100 (skipn offset all)) as FS.
  destruct (firstn 100 (skipn offset all)) as [|u us] eqn:F.
  - apply firstn_nil_inv in F. rewrite F, app_nil_r. reflexivity.
  - destruct (List.length (u :: us) <? 100)%nat eqn:Lt.
    + apply Nat.ltb_lt in Lt.
      assert (Ls : (List.length (skipn offset all) < 100)%nat).
      { destruct (Nat.lt_ge_cases (List.length (skipn offset all)) 100)
          as [G|G]; [exact G|].
        pose proof (firstn_length_le (skipn offset all) G) as FL.
        rewrite F in FL. lia. }
      rewrite firstn_all2 in F by lia. rewrite F. reflexivity.
    + apply Nat.ltb_ge in Lt.
      assert (Ls : (100 <= List.length (skipn offset all))%nat).
      { rewrite <- F in Lt. rewrite length_firstn in Lt. lia. }
      rewrite length_skipn in Ls.
      rewrite IH by lia.
      rewrite <- FS. rewrite skipn_skipn, <- app_assoc.
      rewrite (Nat.add_comm 100 offset). reflexivity.
Qed.

(** X19.  Against a service that hands out the members of the group a
    hundred at a time, and with the client logged in,
    [get_group_members] returns all of them, in the order of the service,
    once the loop may run one more time than there are full pages. *)
Theorem paging_collects_every_member
    (all : list string) (fuel : nat) (group_id : string) (a : app) :
  is_logged_in (obj a) = true ->
  (List.length all < fuel * 100)%nat ->
  get_group_members fuel (paged all) group_id a
  = Some (Returned all, say (FoundMembers (List.length all) group_id) a).
Proof.
  intros Hin Hf. unfold get_group_members. rewrite Hin. cbn [negb].
  rewrite members_loop_paged by lia. reflexivity.
Qed.

Lemma paging_collects_every_member_witness :
  get_group_members 3 (paged (repeat "usr_m"%string 250)) "1234"
                    (mkApp logged_in [])
  = Some (Returned (repeat "usr_m"%string 250),
          say (FoundMembers (List.length (repeat "usr_m"%string 250)) "1234")
              (mkApp logged_in [])).
Proof.
  apply paging_collects_every_member; [reflexivity|].
  rewrite repeat_length. lia.
Defined.

Lemma members_loop_raised (pages : nat -> page_answer) (e : exn) :
  forall k fuel offset acc,
    (forall j, (j < k)%nat ->
               exists users, pages (offset + j * 100)%nat = Returned (Some users)
                             /\ (100 <= List.length users)%nat) ->
    pages (offset + k * 100)%nat = Raised e ->
    (k < fuel)%nat ->
    members_loop fuel pages offset acc = Some (Raised e).
Proof.
  induction k as [|k IH]; intros fuel offset acc Full Hr Hf.
  - destruct fuel as [|fuel]; [lia|]. cbn [members_loop].
    simpl in Hr. rewrite Nat.add_0_r in Hr. rewrite Hr. reflexivity.
  - destruct fuel as [|fuel]; [lia|]. cbn [members_loop].
    destruct (Full 0%nat ltac:(lia)) as (users & Hp & Hl).
    simpl in Hp. rewrite Nat.add_0_r in Hp. rewrite Hp.
    destruct users as [|u us]; [simpl in Hl; lia|].
    replace (List.length (u :: us) <? 100)%nat with false
      by (symmetry; apply Nat.ltb_ge; exact Hl).
    apply IH; [| |lia].
    + intros j Hj. destruct (Full (S j) ltac:(lia)) as (us' & Hp' & Hl').
      exists us'. split; [|exact Hl'].
      rewrite <- Hp'. f_equal. simpl. lia.
    + rewrite <- Hr. f_equal. simpl. lia.
Qed.

(** X20.  If the request for some page of members raises, after any number
    of full pages, then with an [ApiException] [get_group_members] returns
    the empty list, the members of the earlier pages dropped; any other
    exception leaves the method, the messages as they were. *)
Theorem failed_page_drops_earlier_members
    (pages : nat -> page_answer) (e : exn) (k fuel : nat)
    (group_id : string) (a : app) :
  is_logged_in (obj a) = true ->
  (forall j, (j < k)%nat ->
             exists users, pages (j * 100)%nat = Returned (Some users)
                           /\ (100 <= List.length users)%nat) ->
  pages (k * 100)%nat = Raised e ->
  (k < fuel)%nat ->
  (forall status body, e = ApiException status body ->
     get_group_members fuel pages group_id a
     = Some (Returned [], say (FailedToGetMembers e) a))
  /\ ((forall status body, e <> ApiException status body) ->
      get_group_members fuel pages group_id a = Some (Raised e, a)).
Proof.
  intros Hin Full Hr Hf.
  assert (M : members_loop fuel pages 0 [] = Some (Raised e)).
  { apply (members_loop_raised pages e k); auto. }
  unfold get_group_members. rewrite Hin, M. cbn [negb]. split.
  - intros status body ->. reflexivity.
  - intros Hne. destruct e; try reflexivity.
    exfalso. eapply Hne. reflexivity.
Qed.

Lemma failed_page_drops_earlier_members_witness :
  (forall status body, ApiException 500 None = ApiException status body ->
     get_group_members 2
       (fun offset => if (offset =? 0)%nat
                      then Returned (Some (repeat "usr_m"%string 100))
                      else Raised (ApiException 500 None))
       "1234" (mkApp logged_in [])
     = Some (Returned [],
             say (FailedToGetMembers (ApiException 500 None))
                 (mkApp logged_in [])))
  /\ ((forall status body, ApiException 500 None <> ApiException status body) ->
      get_group_members 2
        (fun offset => if (offset =? 0)%nat
                       then Returned (Some (repeat "usr_m"%string 100))
                       else Raised (ApiException 500 None))
        "1234" (mkApp logged_in [])
      = Some (Raised (ApiException 500 None), mkApp logged_in [])).
Proof.
  apply (failed_page_drops_earlier_members _ _ 1%nat).
  - reflexivity.
  - intros j Hj. assert (j = 0)%nat as -> by lia.
    exists (repeat "usr_m"%string 100). split; [reflexivity|].
    rewrite repeat_length. lia.
  - reflexivity.
  - lia.
Defined.

(** When [is_current_user_in_group] says yes, and that it leaves the
    object. *)
Lemma own_membership_result
    (membership : answer bool) (group_id : string) (a : app) :
  (fst (is_current_user_in_group membership group_id a) = true <->
   is_logged_in (obj a) = true /\ current_user (obj a) <> None
   /\ membership = Returned true)
  /\ obj (snd (is_current_user_in_group membership group_id a)) = obj a.
Proof.
  unfold is_current_user_in_group.
  destruct (is_logged_in (obj a)), (current_user (obj a)) as [u|];
    try (split; [split; [discriminate|intros (H1 & H2 & H3); congruence]
                |reflexivity]).
  destruct membership as [[|]|e].
  - split; [split; [intros _; repeat split; discriminate|reflexivity]
           |reflexivity].
  - split; [split; [discriminate|intros (_ & _ & H); discriminate H]
           |reflexivity].
  - split.
    + split.
      * intros H. exfalso.
        destruct e as [| | |status [[|c b]|]|]; try discriminate H;
          destruct (status =? 404)%nat; discriminate H.
      * intros (_ & _ & H). discriminate H.
    + destruct e as [| | |status [[|c b]|]|]; try reflexivity;
        destruct (status =? 404)%nat; reflexivity.
Qed.

(** X21.  [is_current_user_in_group] says yes exactly when the client is
    logged in with a user and the membership request returned a truthy
    value: an exception of that request, whatever it is, is a no.  The
    object is left as it was. *)
Theorem own_membership_fails_closed
    (membership : answer bool) (group_id : string) (a : app) :
  (fst (is_current_user_in_group membership group_id a) = true <->
   is_logged_in (obj a) = true /\ current_user (obj a) <> None
   /\ membership = Returned true)
  /\ obj (snd (is_current_user_in_group membership group_id a)) = obj a.
Proof.
  unfold is_current_user_in_group.
  destruct (is_logged_in (obj a)), (current_user (obj a)) as [u|];
    try (split; [split; [discriminate|intros (H1 & H2 & H3); congruence]
                |reflexivity]).
  destruct membership as [[|]|e].
  - split; [split; [intros _; repeat split; discriminate|reflexivity]
           |reflexivity].
  - split; [split; [discriminate|intros (_ & _ & H); discriminate H]
           |reflexivity].
  - split.
    + split.
      * intros H. exfalso.
        destruct e as [| | |status [[|c b]|]|]; try discriminate H;
          destruct (status =? 404)%nat; discriminate H.
      * intros (_ & _ & H). discriminate H.
    + destruct e as [| | |status [[|c b]|]|]; try reflexivity;
        destruct (status =? 404)%nat; reflexivity.
Qed.

(* ================================================================== *)
(** * Closing down                                                     *)
(* ================================================================== *)

(** X22.  [cleanup] leaves both flags cleared, [is_inviting] and the
    watcher's [is_watching], and touches nothing else of the object but
    the messages: the presence tracker, the file and the offset of the
    watcher and the attributes of the client stay.  A second [cleanup]
    changes nothing of the object. *)
Theorem cleanup_clears_both_flags (a : app) :
  is_inviting (obj (cleanup a)) = false
  /\ is_watching (log_watcher (obj (cleanup a))) = false
  /\ tracker (obj (cleanup a)) = tracker (obj a)
  /\ log_path (log_watcher (obj (cleanup a))) = log_path (log_watcher (obj a))
  /\ file_position (log_watcher (obj (cleanup a)))
     = file_position (log_watcher (obj a))
  /\ (api_client (obj (cleanup a)), auth_api (obj (cleanup a)),
      groups_api (obj (cleanup a)), users_api (obj (cleanup a)),
      worlds_api (obj (cleanup a)), current_user (obj (cleanup a)),
      is_logged_in (obj (cleanup a)))
     = (api_client (obj a), auth_api (obj a), groups_api (obj a),
        users_api (obj a), worlds_api (obj a), current_user (obj a),
        is_logged_in (obj a))
  /\ obj (cleanup (cleanup a)) = obj (cleanup a).
Proof.
  destruct a as [[ac au gr us wo cu li inv [lp fp w ci pe] jt lg] ns].
  destruct inv, w; repeat split; reflexivity.
Qed.

(* ================================================================== *)
(** * The players of the instance and their join times                 *)
(* ================================================================== *)

Lemma obj_fold_say {A : Type} (f : app -> A -> note) (l : list A) (a : app) :
  obj (fold_left (fun a' q => say (f a' q) a') l a) = obj a.
Proof.
  revert a. induction l as [|x l IH]; intros a; simpl; [reflexivity|].
  now rewrite IH.
Qed.

(** The loop of [get_players_in_instance_with_times] pairs each player
    with the stored join time, or the current time, and leaves the object
    as it was. *)
Lemma with_times_loop (current_time : moment) (join_times : dict datetime)
    (players : list player) :
  forall (acc : list (player * moment)) (a : app),
    _player_join_times (obj a) = join_times ->
    let r :=
      fold_left
        (fun (st : list (player * moment) * app) p =>
           match dict_get (id p) (_player_join_times (obj (snd st))) with
           | Some join_time =>
               ((fst st ++ [(p, of_log join_time)])%list,
                say (JoinedAt p join_time) (snd st))
           | None =>
               ((fst st ++ [(p, current_time)])%list,
                say (NoJoinTime p) (snd st))
           end)
        players (acc, a) in
    fst r = (acc ++ map (with_stored_time join_times current_time)
                        players)%list
    /\ obj (snd r) = obj a.
Proof.
  induction players as [|p ps IH]; intros acc a Hj; cbv zeta.
  - simpl. now rewrite app_nil_r.
  - cbn [fold_left map fst snd]. rewrite Hj.
    change (with_stored_time join_times current_time p)
      with (p, match dict_get (id p) join_times with
               | Some t => of_log t
               | None => current_time
               end).
    destruct (dict_get (id p) join_times) as [t|].
    + destruct (IH (acc ++ [(p, of_log t)])%list (say (JoinedAt p t) a) Hj)
        as [H1 H2].
      cbv zeta in H1, H2. rewrite H1, H2, <- app_assoc. split; reflexivity.
    + destruct (IH (acc ++ [(p, current_time)])%list (say (NoJoinTime p) a) Hj)
        as [H1 H2].
      cbv zeta in H1, H2. rewrite H1, H2, <- app_assoc. split; reflexivity.
Qed.

(** What [get_players_in_instance_with_times] returns, from what
    [get_players_in_instance] does. *)
Lemma with_times_from_players
    (gp : logic -> option string * logic) (fs : string -> file_status)
    (current_time : moment) (inst : option string) (a : app) :
  let r := get_players_in_instance gp fs inst
             (say (GettingPlayersAndTimes inst) a) in
  fst (get_players_in_instance_with_times gp fs current_time inst a)
  = map (with_stored_time (_player_join_times (obj (snd r))) current_time)
        (fst r).
Proof.
  cbv zeta. unfold get_players_in_instance_with_times.
  destruct (get_players_in_instance gp fs inst
              (say (GettingPlayersAndTimes inst) a)) as [players a2].
  cbn [fst snd]. destruct players as [|p ps]; [reflexivity|].
  destruct (with_times_loop current_time (_player_join_times (obj a2))
              (p :: ps) []
              (say (ProcessingJoinTimes (List.length (p :: ps))) a2)
              eq_refl)
    as [H _].
  cbv zeta in H. rewrite H. reflexivity.
Qed.

Lemma active_loop_from (d : dict events) :
  forall (acc : list player * dict datetime) (a : app),
    fst (active_loop d acc a) = active_from d acc.
Proof.
  induction d as [|[k ev] d IH]; intros acc a; simpl; [reflexivity|].
  destruct (List.length (leaves ev) <? List.length (joins ev))%nat;
    [|apply IH].
  destruct (py_max (joins ev)); apply IH.
Qed.

Lemma obj_active_loop (d : dict events) :
  forall (acc : list player * dict datetime) (a : app),
    obj (snd (active_loop d acc a)) = obj a.
Proof.
  induction d as [|[k ev] d IH]; intros acc a; simpl; [reflexivity|].
  destruct (List.length (leaves ev) <? List.length (joins ev))%nat;
    [|apply IH].
  destruct (py_max (joins ev)); [|apply IH]. now rewrite IH.
Qed.

(** Who the loop over the user records returns, and with which time. *)
Lemma active_from_member (d : dict events) (p : player) :
  NoDup (keys d) ->
  In p (fst (active_from d ([], []))) ->
  exists ev t, dict_get (id p) d = Some ev
               /\ dict_get (id p) (snd (active_from d ([], []))) = Some t
               /\ In t (joins ev).
Proof.
  intros ND HI.
  assert (Hid : In (id p) (map id (fst (active_from d ([], [])))))
    by (now apply in_map).
  rewrite active_from_ids in Hid. simpl in Hid.
  apply in_map_iff in Hid as ([k ev] & E & HF). simpl in E. subst k.
  apply filter_In in HF as [HF M]. simpl in M.
  pose proof (NoDup_keys_In_get _ _ _ ND HF) as G.
  destruct (more_joins_has_max _ M) as [t Ht].
  exists ev, t. split; [exact G|]. split.
  - rewrite (active_from_times _ _ _ _ ND G), M. exact Ht.
  - now apply py_max_spec in Ht as [Ht _].
Qed.

Lemma dict_get_ensure_other pid k nm (d : dict events) :
  pid <> k -> dict_get k (ensure_events pid nm d) = dict_get k d.
Proof.
  intros N. unfold ensure_events. destruct (dict_mem pid d); [reflexivity|].
  now apply dict_get_set_other.
Qed.

Lemma dict_get_append_join_other pid k t (d : dict events) :
  pid <> k -> dict_get k (append_join pid t d) = dict_get k d.
Proof.
  intros N. unfold append_join. destruct (dict_get pid d); [|reflexivity].
  now apply dict_get_set_other.
Qed.

Lemma dict_get_append_leave_other pid k t (d : dict events) :
  pid <> k -> dict_get k (append_leave pid t d) = dict_get k d.
Proof.
  intros N. unfold append_leave. destruct (dict_get pid d); [|reflexivity].
  now apply dict_get_set_other.
Qed.

Lemma parse_events_joins (all : list string) (since : datetime) :
  forall (lines : list string) (d : dict events) (a : app),
    incl lines all -> NoDup (keys d) -> joins_from all d ->
    forall a' d', parse_events since lines d a = (a', inr d') ->
                  NoDup (keys d') /\ joins_from all d'.
Proof.
  induction lines as [|line rest IH]; intros d a Hincl ND J a' d' H.
  - simpl in H. injection H as _ <-. auto.
  - assert (Hrest : incl rest all)
      by (intros x Hx; apply Hincl; now right).
    assert (Hline : In line all) by (apply Hincl; now left).
    cbn [parse_events] in H.
    destruct (timestamp_match line) as [raw|] eqn:T; [|eauto].
    destruct (strptime raw) as [t|] eqn:S; [|discriminate].
    destruct (dt_ltb t since); [eauto|].
    destruct (contains "[Behaviour] OnPlayerJoined" line) eqn:CJ.
    + destruct (player_match "OnPlayerJoined" line) as [[nm pid]|] eqn:PM;
        [|eauto].
      eapply IH; [exact Hrest| | |exact H].
      * rewrite keys_append_join. now apply keys_ensure_NoDup.
      * intros k ev t' G Ht'.
        destruct (String.eqb pid k) eqn:E.
        -- apply String.eqb_eq in E. subst k.
           rewrite dict_get_append_join_same, dict_get_ensure_same in G.
           simpl in G. injection G as <-. simpl in Ht'.
           apply in_app_or in Ht' as [Ht'|[<-|[]]].
           ++ destruct (dict_get pid d) as [e|] eqn:Gd; [|destruct Ht'].
              eapply J; eassumption.
           ++ exists line. split; [exact Hline|]. split; [exact CJ|].
              exists raw, nm. auto.
        -- apply String.eqb_neq in E.
           rewrite dict_get_append_join_other, dict_get_ensure_other in G
             by assumption.
           eapply J; eassumption.
    + destruct (contains "[Behaviour] OnPlayerLeft" line); [|eauto].
      destruct (player_match "OnPlayerLeft" line) as [[nm pid]|] eqn:PM;
        [|eauto].
      eapply IH; [exact Hrest| | |exact H].
      * rewrite keys_append_leave. now apply keys_ensure_NoDup.
      * intros k ev t' G Ht'.
        destruct (String.eqb pid k) eqn:E.
        -- apply String.eqb_eq in E. subst k.
           rewrite dict_get_append_leave_same, dict_get_ensure_same in G.
           simpl in G. injection G as <-. simpl in Ht'.
           destruct (dict_get pid d) as [e|] eqn:Gd; [|destruct Ht'].
           eapply J; eassumption.
        -- apply String.eqb_neq in E.
           rewrite dict_get_append_leave_other, dict_get_ensure_other in G
             by assumption.
           eapply J; eassumption.
Qed.

(** Whom the one-time parse returns: players for whom it has stored the
    time of one of their join lines in the file. *)
Lemma parse_result (f : file_status) (path : string) (inst : option string)
    (a : app) (p : player) :
  In p (fst (_parse_vrchat_logs_for_players f path inst a)) ->
  exists c t line,
    f = Readable c
    /\ dict_get (id p)
         (_player_join_times
            (obj (snd (_parse_vrchat_logs_for_players f path inst a))))
       = Some t
    /\ In line (readlines c) /\ join_line_of (id p) t line.
Proof.
  unfold _parse_vrchat_logs_for_players, parse_failed.
  destruct f as [|n|c]; try (intros []).
  destruct (last_instance (readlines c) None _) as [a3 [e|[[ci since]|]]];
    try (intros []).
  destruct (negb (truthy (Some ci))); [intros []|].
  match goal with
  | |- context [parse_events since (readlines c) [] ?a6] =>
      destruct (parse_events since (readlines c) [] a6)
        as [a7 [e|d]] eqn:PE; [intros []|]
  end.
  destruct (parse_events_joins (readlines c) since (readlines c) [] _
              (incl_refl _) (NoDup_nil _)
              ltac:(intros k ev t G; discriminate G) _ _ PE) as [ND J].
  pose proof (active_loop_from d ([], []) a7) as AF.
  destruct (active_loop d ([], []) a7) as [[ps jt] a8]. simpl in AF.
  cbn [fst snd]. intros HI.
  assert (HI' : In p (fst (active_from d ([], []))))
    by (rewrite <- AF; exact HI).
  destruct (active_from_member d p ND HI') as (ev & t & G & Gt & Ht).
  destruct (J _ _ _ G Ht) as (line & Hl & JL).
  exists c, t, line. split; [reflexivity|]. split; [|auto].
  rewrite <- AF in Gt. simpl in Gt.
  destruct ps; exact Gt.
Qed.

(** X23.  Without the watcher, [get_players_in_instance_with_times] pairs
    every player it returns with the time of a join line of that player
    in the log file it parsed; the current time is never put in its
    place. *)
Theorem one_time_scan_times_are_join_times
    (gp : logic -> option string * logic) (fs : string -> file_status)
    (current_time : moment) (inst : option string) (a : app)
    (p : player) (m : moment) :
  is_log_watching (obj a) = false ->
  In (p, m)
     (fst (get_players_in_instance_with_times gp fs current_time inst a)) ->
  exists path c line t,
    fs path = Readable c /\ In line (readlines c)
    /\ m = of_log t /\ join_line_of (id p) t line.
Proof.
  intros W HI. rewrite with_times_from_players in HI.
  apply in_map_iff in HI as (q & E & HI). unfold with_stored_time in E.
  injection E as -> E.
  unfold get_players_in_instance in HI, E. cbn [obj say] in HI, E.
  destruct (is_logged_in (obj a)); [|destruct HI].
  cbn [negb] in HI, E. rewrite W in HI, E. cbn [negb] in HI, E.
  destruct (gp (obj a)) as [[[|ch path]|] L1]; try (destruct HI).
  destruct (parse_result _ _ _ _ _ HI) as (c & t' & line & F & G & Hl & JL).
  rewrite G in E. subst m.
  exists (String ch path), c, line, t'. auto.
Qed.

Lemma one_time_scan_times_are_join_times_witness :
  exists path c line t,
    fs_session path = Readable c /\ In line (readlines c)
    /\ of_log t1045 = of_log t
    /\ join_line_of (id (mkPlayer "usr_bob" "Bob")) t line.
Proof.
  apply (one_time_scan_times_are_join_times finds_log fs_session past_noon
           None (mkApp logged_in [])).
  - reflexivity.
  - vm_compute. right. left. reflexivity.
Defined.

(** X24.  With the watcher running, a player whose leave line has just
    been applied and who still counts as present (more joins than leaves)
    has lost the entry in [_player_join_times]:
    [get_players_in_instance_with_times] returns the player with the
    current time as join time. *)
Theorem present_after_leave_is_timed_now
    (gp : logic -> option string * logic) (fs : string -> file_status)
    (current_time : moment) (inst : option string)
    (line pid nm raw : string) (t : datetime) (L : logic)
    (ns : list note) :
  is_logged_in L = true ->
  is_watching (log_watcher L) = true ->
  NoDup (keys (player_events (log_watcher L))) ->
  NoDup (keys (_player_join_times L)) ->
  extract line = Some (UserLeft pid nm t raw) ->
  present pid (player_events (log_watcher (_process_log_line line L))) = true ->
  exists nm',
    In (mkPlayer pid nm', current_time)
       (fst (get_players_in_instance_with_times gp fs current_time inst
               (mkApp (_process_log_line line L) ns))).
Proof.
  intros Hin Hw NP NJ E P.
  pose proof (outside_process line L) as O. unfold outside_tracker in O.
  injection O as _ _ Ow _ _ _ _ _ _ Oin _.
  rewrite Hin in Oin. rewrite Hw in Ow.
  assert (NP' : NoDup (keys (player_events
                               (log_watcher (_process_log_line line L)))))
    by (now apply process_line_keys_NoDup).
  assert (G : dict_get pid (_player_join_times (_process_log_line line L))
              = None).
  { rewrite (process_extract_some _ _ _ E), join_times_apply.
    destruct (dict_mem pid (_player_join_times L)) eqn:M.
    - now apply dict_get_del_same.
    - unfold dict_mem in M.
      now destruct (dict_get pid (_player_join_times L)). }
  apply (snapshot_ids_iff _ pid NP') in P.
  unfold snapshot_ids in P. apply in_map_iff in P as ([i nm'] & Ei & HI).
  simpl in Ei. subst i.
  exists nm'. rewrite with_times_from_players.
  unfold get_players_in_instance. cbn [obj say].
  rewrite Oin. unfold is_log_watching. rewrite Ow. cbn [negb].
  destruct (fst (get_active_players (_process_log_line line L)))
    as [|p0 ps] eqn:A; [destruct HI|].
  cbn [fst snd]. rewrite obj_fold_say. cbn [obj say].
  apply in_map_iff. exists (mkPlayer pid nm'). split; [|exact HI].
  unfold with_stored_time. cbn [id]. now rewrite G.
Qed.

Lemma present_after_leave_is_timed_now_witness :
  exists nm',
    In (mkPlayer "usr_bob" nm', past_noon)
       (fst (get_players_in_instance_with_times finds_log fs_session
               past_noon
               None
               (mkApp (_process_log_line bob_leaves_1100
                         (process_lines [bob_joins_1030; bob_joins_1045]
                            (with_watcher (set_is_watching true) logged_in)))
                      []))).
Proof.
  apply (present_after_leave_is_timed_now finds_log fs_session past_noon
           None
           bob_leaves_1100 "usr_bob" "Bob" "2024.01.01 11:00:00" t1100).
  - reflexivity.
  - reflexivity.
  - vm_compute. repeat constructor; simpl; tauto.
  - vm_compute. repeat constructor; simpl; tauto.
  - vm_compute. reflexivity.
  - vm_compute. reflexivity.
Defined.

(* ================================================================== *)
(** * The one-time parse against the watcher's full scan               *)
(* ================================================================== *)

Lemma last_instance_none (lines : list string) :
  forallb (fun l => negb (is_instance_line l)) lines = true ->
  forall found a, last_instance lines found a = (a, inr found).
Proof.
  induction lines as [|line rest IH]; simpl; intros H found a;
    [reflexivity|].
  apply andb_true_iff in H as [H1 H2].
  destruct (is_instance_line line); [discriminate|]. now apply IH.
Qed.

Lemma no_instance_line_no_change (lines : list string) :
  forallb (fun l => negb (is_instance_line l)) lines = true ->
  existsb is_change lines = false.
Proof.
  induction lines as [|line rest IH]; simpl; intros H; [reflexivity|].
  apply andb_true_iff in H as [H1 H2]. unfold is_change at 1.
  destruct (is_instance_line line); [discriminate|]. simpl. now apply IH.
Qed.

Lemma first_match_nonempty (pats : list string) (line tok : string) :
  first_instance_match pats line = Some tok -> tok <> EmptyString.
Proof.
  induction pats as [|lit pats IH]; simpl; [discriminate|].
  destruct (re_search (room_pattern lit) line) as [tok'|] eqn:R; [|exact IH].
  intros H. injection H as ->.
  destruct (re_search_some _ _ _ R) as (pre & suf & _ & Hm).
  unfold room_pattern in Hm.
  destruct (literal lit suf) as [s1|]; [|discriminate].
  destruct (spaces1 s1) as [s2|]; [|discriminate].
  destruct (nonspace1 s2) as [[tok' s3]|] eqn:N; [|discriminate].
  injection Hm as <-. exact (proj1 (nonspace1_spec _ _ _ N)).
Qed.

(** On lines that are no instance lines and whose timestamps are dates,
    the second pass of the one-time parse builds the user records that
    applying the lines not before [since] builds in the watcher. *)
Lemma parse_events_as_process (since : datetime) :
  forall (lines : list string) (L : logic) (a : app),
    forallb (fun l => negb (is_instance_line l)) lines = true ->
    forallb dates_ok lines = true ->
    exists a',
      parse_events since lines (player_events (log_watcher L)) a
      = (a', inr (player_events
                    (log_watcher
                       (process_lines (filter (not_before since) lines) L)))).
Proof.
  induction lines as [|line rest IH]; intros L a HI HD.
  - exists a. reflexivity.
  - simpl in HI, HD. apply andb_true_iff in HI as [HI1 HI2].
    apply andb_true_iff in HD as [HD1 HD2].
    cbn [parse_events filter]. unfold not_before at 1.
    unfold dates_ok in HD1.
    destruct (timestamp_match line) as [raw|] eqn:T; [|now apply IH].
    destruct (strptime raw) as [t|] eqn:S; [|discriminate].
    destruct (dt_ltb t since); cbn [negb]; [now apply IH|].
    unfold process_lines. cbn [fold_left].
    fold (process_lines (filter (not_before since) rest)
                        (_process_log_line line L)).
    destruct (is_instance_line line) eqn:IL; [discriminate|].
    destruct (contains "[Behaviour] OnPlayerJoined" line) eqn:CJ.
    + destruct (player_match "OnPlayerJoined" line) as [[nm pid]|] eqn:PM.
      * assert (E : extract line = Some (UserEntered pid nm t raw))
          by (unfold extract; now rewrite IL, CJ, T, PM, S).
        destruct (IH (_process_log_line line L)
                     (say (FoundPlayerJoin nm pid raw) a) HI2 HD2)
          as [a' Ha'].
        rewrite (process_extract_some _ _ _ E), player_events_apply in Ha'.
        exists a'. rewrite (process_extract_some _ _ _ E) at 1. exact Ha'.
      * assert (E : extract line = None)
          by (unfold extract; now rewrite IL, CJ, T, PM).
        destruct (IH (_process_log_line line L) a HI2 HD2) as [a' Ha'].
        pose proof (process_extract_none _ L E) as Tr. unfold tracker in Tr.
        injection Tr as _ Tr _. rewrite Tr in Ha'. eauto.
    + destruct (contains "[Behaviour] OnPlayerLeft" line) eqn:CL.
      * destruct (player_match "OnPlayerLeft" line) as [[nm pid]|] eqn:PM.
        -- assert (E : extract line = Some (UserLeft pid nm t raw))
             by (unfold extract; now rewrite IL, CJ, CL, T, PM, S).
           destruct (IH (_process_log_line line L)
                        (say (FoundPlayerLeave nm pid raw) a) HI2 HD2)
             as [a' Ha'].
           rewrite (process_extract_some _ _ _ E), player_events_apply in Ha'.
           exists a'. rewrite (process_extract_some _ _ _ E) at 1. exact Ha'.
        -- assert (E : extract line = None)
             by (unfold extract; now rewrite IL, CJ, CL, T, PM).
           destruct (IH (_process_log_line line L) a HI2 HD2) as [a' Ha'].
           pose proof (process_extract_none _ L E) as Tr. unfold tracker in Tr.
           injection Tr as _ Tr _. rewrite Tr in Ha'. eauto.
      * assert (E : extract line = None)
          by (unfold extract; now rewrite IL, CJ, CL).
        destruct (IH (_process_log_line line L) a HI2 HD2) as [a' Ha'].
        pose proof (process_extract_none _ L E) as Tr. unfold tracker in Tr.
        injection Tr as _ Tr _. rewrite Tr in Ha'. eauto.
Qed.

(** X25.  On the log of one session, with every timestamp a date, the
    one-time parse and the full scan of the watcher agree: the players
    [_parse_vrchat_logs_for_players] returns and the join times it stores
    are the snapshot [get_active_players] gives after
    [_scan_entire_log], whatever the watcher held before. *)
Theorem one_time_scan_agrees_with_full_scan
    (c path : string) (inst : option string) (L : logic) (a : app) :
  one_session (readlines c) = true ->
  forallb dates_ok (readlines c) = true ->
  get_active_players (_scan_entire_log (Readable c) L)
  = (fst (_parse_vrchat_logs_for_players (Readable c) path inst a),
     _player_join_times
       (obj (snd (_parse_vrchat_logs_for_players (Readable c) path inst a)))).
Proof.
  intros HS HD.
  destruct (readlines c) as [|l0 rest] eqn:RL; [discriminate|].
  unfold one_session in HS.
  apply andb_true_iff in HS as [HS HR].
  apply andb_true_iff in HS as [HS HL].
  apply andb_true_iff in HS as [HC HJ].
  apply negb_true_iff in HJ, HL.
  unfold is_change in HC. apply andb_true_iff in HC as [IL HC].
  destruct (instance_change l0) as [[raw0 inst0]|] eqn:IC; [|discriminate].
  assert (TM : timestamp_match l0 = Some raw0).
  { unfold instance_change in IC.
    destruct (timestamp_match l0); [|discriminate].
    destruct (instance_id_found l0); [|discriminate]. now injection IC as ->. }
  assert (NE : inst0 <> EmptyString).
  { unfold instance_change in IC.
    destruct (timestamp_match l0); [|discriminate].
    destruct (instance_id_found l0) as [i|] eqn:F; [|discriminate].
    injection IC as _ <-. exact (first_match_nonempty _ _ _ F). }
  pose proof HD as HD'. simpl in HD'.
  apply andb_true_iff in HD' as [HD0 HDR].
  unfold dates_ok in HD0. rewrite TM in HD0.
  destruct (strptime raw0) as [t0|] eqn:SP; [|discriminate].
  (* the watcher *)
  assert (ICs : instance_changes (readlines c) = inr [(t0, inst0)]).
  { rewrite RL. simpl. rewrite IL, IC, SP.
    now rewrite (instance_changes_no_change rest
                   (no_instance_line_no_change rest HR)). }
  assert (HDc : forallb dates_ok (readlines c) = true)
    by (rewrite RL; exact HD).
  pose proof (scan_tracker c L _ _ ICs HDc) as ST.
  cbn [latest_from fst snd] in ST. rewrite RL in ST.
  cbn [filter] in ST. unfold not_before at 1 in ST.
  rewrite TM, SP, dt_ltb_irrefl in ST. cbn [negb] in ST.
  unfold process_lines in ST. cbn [fold_left] in ST.
  fold (process_lines (filter (not_before t0) rest)
          (_process_log_line l0
             (with_watcher (set_current_instance (Some inst0)) L))) in ST.
  assert (E0 : extract l0 = Some (SessionChanged inst0 raw0))
    by (unfold extract; now rewrite IL, IC).
  set (L1 := _process_log_line l0
               (with_watcher (set_current_instance (Some inst0)) L)) in *.
  assert (P1 : player_events (log_watcher L1) = []).
  { unfold L1. rewrite (process_extract_some _ _ _ E0).
    now rewrite player_events_apply. }
  unfold tracker in ST. injection ST as _ ST _.
  unfold get_active_players. rewrite ST.
  (* the one-time parse *)
  unfold _parse_vrchat_logs_for_players. rewrite RL.
  cbn [last_instance]. rewrite IL, IC, SP.
  rewrite (last_instance_none rest HR).
  destruct inst0 as [|ch inst0]; [contradiction|].
  cbn [truthy negb].
  cbn [parse_events]. rewrite TM, SP, dt_ltb_irrefl, HJ, HL.
  match goal with
  | |- context [parse_events t0 rest [] ?a6] =>
      destruct (parse_events_as_process t0 rest L1 a6 HR HDR) as [a7 PE]
  end.
  rewrite P1 in PE. rewrite PE.
  pose proof (active_loop_from
                (player_events
                   (log_watcher
                      (process_lines (filter (not_before t0) rest) L1)))
                ([], []) a7) as AF.
  destruct (active_loop _ ([], []) a7) as [[ps jt] a8]. simpl in AF.
  rewrite <- AF. cbn [fst snd]. destruct ps; reflexivity.
Qed.

Lemma one_time_scan_agrees_with_full_scan_witness :
  get_active_players (_scan_entire_log (Readable session_file) logged_in)
  = (fst (_parse_vrchat_logs_for_players (Readable session_file)
            "output_log.txt" None (mkApp logged_in [])),
     _player_join_times
       (obj (snd (_parse_vrchat_logs_for_players (Readable session_file)
                    "output_log.txt" None (mkApp logged_in []))))).
Proof.
  apply one_time_scan_agrees_with_full_scan; vm_compute; reflexivity.
Defined.

(* ================================================================== *)
(** * The log file that is chosen                                      *)
(* ================================================================== *)

Lemma first_existing_spec (path_exists : string -> bool)
    (paths : list string) (d : string) :
  first_existing path_exists paths = Some d ->
  exists before after,
    paths = (before ++ d :: after)%list
    /\ path_exists d = true
    /\ forall x, In x before -> path_exists x = false.
Proof.
  induction paths as [|x paths IH]; simpl; [discriminate|].
  destruct (path_exists x) eqn:E.
  - intros H. injection H as ->. exists [], paths.
    split; [reflexivity|]. split; [exact E|]. intros y [].
  - intros H. destruct (IH H) as (before & after & -> & Hd & Hb).
    exists (x :: before), after. split; [reflexivity|].
    split; [exact Hd|]. intros y [<-|Hy]; auto.
Qed.

Lemma collect_info_spec (path_join : string -> string -> string)
    (getmtime : string -> answer Z) (getsize : string -> answer nat)
    (log_dir : string) :
  forall (files : list string) (info : list file_info),
    collect_info path_join getmtime getsize log_dir files = inr info ->
    Forall2 (fun f x => full_path x = path_join log_dir f
                        /\ getmtime (path_join log_dir f)
                           = Returned (mod_time x))
            files info.
Proof.
  induction files as [|f files IH]; simpl; intros info H.
  - injection H as <-. constructor.
  - destruct (getmtime (path_join log_dir f)) as [m|e] eqn:M; [|discriminate].
    destruct (getsize (path_join log_dir f)) as [sz|e]; [|discriminate].
    destruct (collect_info path_join getmtime getsize log_dir files)
      as [e|l]; [discriminate|].
    injection H as <-. constructor; [|now apply IH].
    split; [reflexivity|exact M].
Qed.

Lemma sort_newest_first_length (l : list file_info) :
  List.length (sort_newest_first l) = List.length l.
Proof.
  assert (I : forall x l', List.length (insert_newest x l')
                           = S (List.length l')).
  { intros x l'. induction l' as [|y l' IH]; simpl; [reflexivity|].
    destruct (mod_time x <? mod_time y)%Z; simpl; now rewrite ?IH. }
  induction l as [|x l IH]; simpl; [reflexivity|]. now rewrite I, IH.
Qed.

Lemma Forall2_in_left {A B : Type} (R : A -> B -> Prop) (l : list A)
    (l' : list B) :
  Forall2 R l l' -> forall x, In x l -> exists y, In y l' /\ R x y.
Proof.
  induction 1 as [|a b l l' Hab H IH]; intros x Hx; [destruct Hx|].
  destruct Hx as [<-|Hx].
  - exists b. split; [now left|exact Hab].
  - destruct (IH x Hx) as (y & Hy & Hr). exists y. split; [now right|exact Hr].
Qed.

(** The head of the sorted list is the first of the newest elements. *)
Lemma sort_newest_first_head (l : list file_info) (x : file_info)
    (r : list file_info) :
  sort_newest_first l = x :: r ->
  exists pre post,
    l = (pre ++ x :: post)%list
    /\ Forall (fun y => (mod_time y < mod_time x)%Z) pre
    /\ Forall (fun y => (mod_time y <= mod_time x)%Z) post.
Proof.
  revert x r. induction l as [|h t IH]; intros x r H; [discriminate|].
  simpl in H.
  destruct (sort_newest_first t) as [|y r'] eqn:ST.
  - simpl in H. injection H as <- <-.
    assert (t = []) as ->.
    { pose proof (sort_newest_first_length t) as Hl. rewrite ST in Hl.
      destruct t; [reflexivity|discriminate]. }
    exists [], []. repeat split; constructor.
  - destruct (IH y r' eq_refl) as (pre & post & -> & Hpre & Hpost).
    simpl in H. destruct (mod_time h <? mod_time y)%Z eqn:E.
    + apply Z.ltb_lt in E. injection H as <- <-.
      exists (h :: pre), post. split; [reflexivity|].
      split; [constructor; assumption|assumption].
    + apply Z.ltb_ge in E. injection H as <- <-.
      exists [], (pre ++ y :: post)%list. split; [reflexivity|].
      split; [constructor|].
      apply Forall_app. split; [|constructor].
      * eapply Forall_impl; [|exact Hpre]. intros z Hz. simpl in Hz. lia.
      * exact E.
      * eapply Forall_impl; [|exact Hpost]. intros z Hz. simpl in Hz. lia.
Qed.

(** X26.  The path [_get_vrchat_log_path] returns is that of a log file
    (a name that starts with "output_log_" and ends with ".txt") in the
    first of the possible directories that exists, and of the newest such
    file there: every log file listed before it is strictly older, and
    none listed after it is newer. *)
Theorem log_path_is_newest_log_file
    (possible_paths : list string) (path_exists : string -> bool)
    (listdir : string -> answer (list string))
    (path_join : string -> string -> string)
    (getmtime : string -> answer Z) (getsize : string -> answer nat)
    (stale : bool) (a : app) (p : string) :
  fst (_get_vrchat_log_path possible_paths path_exists listdir path_join
                            getmtime getsize stale a) = Some p ->
  exists before log_dir after names pre f post m,
    possible_paths = (before ++ log_dir :: after)%list
    /\ path_exists log_dir = true
    /\ (forall d, In d before -> path_exists d = false)
    /\ listdir log_dir = Returned names
    /\ filter is_log_name names = (pre ++ f :: post)%list
    /\ p = path_join log_dir f
    /\ getmtime p = Returned m
    /\ (forall g, In g pre ->
          exists m', getmtime (path_join log_dir g) = Returned m'
                     /\ (m' < m)%Z)
    /\ (forall g, In g post ->
          exists m', getmtime (path_join log_dir g) = Returned m'
                     /\ (m' <= m)%Z).
Proof.
  unfold _get_vrchat_log_path.
  destruct (first_existing path_exists possible_paths) as [log_dir|] eqn:FE;
    [|discriminate].
  destruct (negb (truthy (Some log_dir))); [discriminate|].
  destruct (listdir log_dir) as [names|e] eqn:LD; [|discriminate].
  destruct (filter is_log_name names) as [|f0 rest] eqn:FL; [discriminate|].
  destruct (collect_info path_join getmtime getsize log_dir (f0 :: rest))
    as [e|info] eqn:CI; [discriminate|].
  destruct (sort_newest_first info) as [|latest others] eqn:SO;
    [discriminate|].
  cbn [fst]. intros H. injection H as <-.
  destruct (first_existing_spec _ _ _ FE) as (before & after & Hp & He & Hb).
  destruct (sort_newest_first_head _ _ _ SO) as (pre' & post' & -> & Hpre & Hpost).
  apply collect_info_spec in CI.
  apply Forall2_app_inv_r in CI as (pre & tl & Fpre & Ftl & Efiles).
  inversion Ftl as [|f x post post'' [Hf Hm] Fpost]; subst.
  exists before, log_dir, after, names, pre, f, post, (mod_time latest).
  repeat split; try assumption.
  - now rewrite FL.
  - now rewrite Hf.
  - intros g Hg.
    destruct (Forall2_in_left _ _ _ Fpre g Hg) as (y & Hy & _ & Hmy).
    exists (mod_time y). split; [exact Hmy|].
    rewrite Forall_forall in Hpre. now apply Hpre.
  - intros g Hg.
    destruct (Forall2_in_left _ _ _ Fpost g Hg) as (y & Hy & _ & Hmy).
    exists (mod_time y). split; [exact Hmy|].
    rewrite Forall_forall in Hpost. now apply Hpost.
Qed.

Lemma log_path_is_newest_log_file_witness :
  exists before log_dir after names pre f post m,
    three_dirs = (before ++ log_dir :: after)%list
    /\ only_linux log_dir = true
    /\ (forall d, In d before -> only_linux d = false)
    /\ four_names log_dir = Returned names
    /\ filter is_log_name names = (pre ++ f :: post)%list
    /\ "/linux/output_log_2.txt"%string = slash_join log_dir f
    /\ first_is_older "/linux/output_log_2.txt" = Returned m
    /\ (forall g, In g pre ->
          exists m', first_is_older (slash_join log_dir g) = Returned m'
                     /\ (m' < m)%Z)
    /\ (forall g, In g post ->
          exists m', first_is_older (slash_join log_dir g) = Returned m'
                     /\ (m' <= m)%Z).
Proof.
  apply (log_path_is_newest_log_file three_dirs only_linux four_names
           slash_join first_is_older one_kilobyte false
           (mkApp logic_init [])).
  vm_compute. reflexivity.
Defined.

(* ================================================================== *)
(** * invite_players and its thread                                    *)
(* ================================================================== *)

Import Sequential.

(** When [is_instance_from_group] says yes, and that it leaves the
    object. *)
Lemma instance_from_group_result (inst group : string) (a : app) :
  (fst (is_instance_from_group (Some inst) (Some group) a) = true <->
   starts_with_grp inst = true
   /\ remove_grp (before_tilde inst) = group
   /\ group <> EmptyString)
  /\ obj (snd (is_instance_from_group (Some inst) (Some group) a)) = obj a.
Proof.
  unfold is_instance_from_group.
  destruct inst as [|c inst].
  { split; [|reflexivity]. split; [discriminate|].
    intros (H & _). discriminate H. }
  destruct group as [|c' group].
  { split; [|reflexivity]. split; [discriminate|].
    intros (_ & _ & H). contradiction. }
  cbn [truthy negb orb].
  destruct (starts_with_grp (String c inst)); cbn [negb].
  - destruct (String.eqb (remove_grp (before_tilde (String c inst)))
                         (String c' group)) eqn:E.
    + apply String.eqb_eq in E. split; [|reflexivity].
      split; [intros _|reflexivity]. repeat split; [exact E|discriminate].
    + apply String.eqb_neq in E. split; [|reflexivity].
      split; [discriminate|]. intros (_ & H & _). contradiction.
  - split; [|reflexivity]. split; [discriminate|].
    intros (H & _). discriminate H.
Qed.

(** X27.  [invite_players] starts its thread exactly when the client is
    logged in with a user, VRChat is found running, the membership request
    for the user returned a truthy value, the location of the user holds a
    colon and what follows the first colon begins with "grp_" and, cut at
    its first ['~'] and with every "grp_" removed, is the group id, which
    is not empty, and no invitation run is going on.  It then sets
    [is_inviting] and hands the players it was given to the thread.
    Otherwise [is_inviting] stays as it was and no thread is started. *)
Theorem invite_players_starts_one_run
    (vrchat_running : bool) (membership : answer bool)
    (get_user : answer (option string)) (group_id : string)
    (players : list player) (a : app) :
  (fst (fst (invite_players vrchat_running membership get_user group_id
                            players a)) = true <->
   is_logged_in (obj a) = true
   /\ vrchat_running = true
   /\ current_user (obj a) <> None
   /\ membership = Returned true
   /\ (exists world inst,
          no_colon world = true
          /\ get_user = Returned (Some (world ++ ":" ++ inst)%string)
          /\ starts_with_grp inst = true
          /\ remove_grp (before_tilde inst) = group_id)
   /\ group_id <> EmptyString
   /\ is_inviting (obj a) = false)
  /\ (fst (fst (invite_players vrchat_running membership get_user group_id
                               players a)) = true ->
      is_inviting
        (obj (snd (fst (invite_players vrchat_running membership get_user
                                       group_id players a)))) = true
      /\ snd (invite_players vrchat_running membership get_user group_id
                             players a) = Some players)
  /\ (fst (fst (invite_players vrchat_running membership get_user group_id
                               players a)) = false ->
      is_inviting
        (obj (snd (fst (invite_players vrchat_running membership get_user
                                       group_id players a))))
      = is_inviting (obj a)
      /\ snd (invite_players vrchat_running membership get_user group_id
                             players a) = None).
Proof.
  unfold invite_players.
  destruct (is_logged_in (obj a)) eqn:Hin; cbn [negb].
  2:{ split; [split; [discriminate|intros (H & _); discriminate H]|].
      split; [discriminate|]. intros _. split; reflexivity. }
  destruct vrchat_running; cbn [negb].
  2:{ split; [split; [discriminate|intros (_ & H & _); discriminate H]|].
      split; [discriminate|]. intros _. split; reflexivity. }
  destruct (own_membership_result membership group_id a) as [Mt Mo].
  destruct (is_current_user_in_group membership group_id a) as [member a1].
  cbn [fst snd] in Mt, Mo.
  destruct member; cbn [negb].
  2:{ split; [split; [discriminate|]|].
      - intros (_ & _ & Hu & Hm & _). cbn [fst].
        apply (proj2 Mt). auto.
      - split; [discriminate|]. intros _. cbn [fst snd obj Further.say].
        rewrite Mo. split; reflexivity. }
  destruct (proj1 Mt eq_refl) as (_ & Hu & Hm).
  destruct (get_current_instance get_user a1) as [instance_id a2] eqn:GI.
  assert (Go : obj a2 = obj a1).
  { pose proof (proj2 (get_current_instance_result get_user a1 EmptyString))
      as H. rewrite GI in H. exact H. }
  assert (Gt : forall inst, instance_id = Some inst <->
                 exists world, no_colon world = true /\
                   get_user = Returned (Some (world ++ ":" ++ inst)%string)).
  { intros inst.
    pose proof (proj1 (get_current_instance_result get_user a1 inst)) as H.
    rewrite GI in H. cbn [fst] in H. rewrite H, Mo, Hin. split.
    - intros (_ & _ & H'). exact H'.
    - intros H'. repeat split; assumption. }
  destruct instance_id as [inst|].
  2:{ cbn [truthy negb].
      split; [split; [discriminate|]|].
      - intros (_ & _ & _ & _ & (w & i & Hw & Hg & _) & _).
        assert (C : None = Some i) by (apply Gt; eauto). discriminate C.
      - split; [discriminate|]. intros _. cbn [fst snd obj Further.say].
        rewrite Go, Mo. split; reflexivity. }
  destruct (proj1 (Gt inst) eq_refl) as (world & Hw & Hg).
  assert (Uniq : forall w i, no_colon w = true ->
                   get_user = Returned (Some (w ++ ":" ++ i)%string) ->
                   i = inst).
  { intros w i Hw' Hg'.
    assert (C : Some inst = Some i) by (apply Gt; eauto).
    now injection C. }
  destruct (instance_from_group_result inst group_id a2) as [It Io].
  destruct inst as [|c inst].
  { cbn [truthy negb].
    split; [split; [discriminate|]|].
    - intros (_ & _ & _ & _ & (w & i & Hw' & Hg' & Hs & _) & _).
      rewrite (Uniq w i Hw' Hg') in Hs. discriminate Hs.
    - split; [discriminate|]. intros _. cbn [fst snd obj Further.say].
      rewrite Go, Mo. split; reflexivity. }
  cbn [truthy negb].
  destruct (is_instance_from_group (Some (String c inst)) (Some group_id) a2)
    as [from_group a3].
  cbn [fst snd] in It, Io.
  destruct from_group; cbn [negb].
  2:{ split; [split; [discriminate|]|].
      - intros (_ & _ & _ & _ & (w & i & Hw' & Hg' & Hs & Hr) & Hne & _).
        rewrite (Uniq w i Hw' Hg') in Hs, Hr. cbn [fst].
        apply (proj2 It). auto.
      - split; [discriminate|]. intros _. cbn [fst snd obj Further.say].
        rewrite Io, Go, Mo. split; reflexivity. }
  destruct (proj1 It eq_refl) as (Hs & Hr & Hne).
  rewrite Io, Go, Mo.
  destruct (is_inviting (obj a)) eqn:Inv.
  - split; [split; [discriminate|]|].
    + intros (_ & _ & _ & _ & _ & _ & H). discriminate H.
    + split; [discriminate|]. intros _. cbn [fst snd obj Further.say].
      rewrite Io, Go, Mo. split; [exact Inv|reflexivity].
  - split; [split; [intros _|reflexivity]|].
    + repeat split; try assumption. exists world, (String c inst). auto.
    + split; [|discriminate]. intros _. split; reflexivity.
Qed.

Lemma pc_eq_Exited (c : pc) : c = Exited \/ c <> Exited.
Proof. destruct c; (now left) || (right; discriminate). Qed.

Lemma pc_eq_AtWhile (c : pc) : c = AtWhile \/ c <> AtWhile.
Proof. destruct c; (now left) || (right; discriminate). Qed.

Section ThreadFacts.

Variable group_id : string.
Variable total_players : nat.
Variable delay : nat.
Variable r : remote.

Lemma alone_exited (fuel : nat) (S : shared) :
  alone group_id total_players delay r fuel Exited S = (S, Exited).
Proof. destruct fuel; reflexivity. Qed.

Lemma thread_alone_next (v : bool) (fuel : nat) (c c' : spc)
    (T T' : thread) :
  c <> Of Exited ->
  thread_step group_id total_players delay r v c T = (T', c') ->
  thread_alone group_id total_players delay r v (Datatypes.S fuel) c T
  = thread_alone group_id total_players delay r v fuel c' T'.
Proof.
  intros Hc Hs. cbn [thread_alone]. rewrite Hs.
  destruct c as [|[]]; try reflexivity. contradiction.
Qed.

(** With VRChat running at every check, the loop of the thread reaches
    every state a worker of the pool reaches from the same state. *)
Lemma thread_follows_worker (fuel : nat) :
  forall (c : pc) (S : shared) (ns : list note),
    exists fuel',
      thread_alone group_id total_players delay r true fuel' (Of c) (S, ns)
      = ((fst (alone group_id total_players delay r fuel c S), ns),
         Of (snd (alone group_id total_players delay r fuel c S))).
Proof.
  induction fuel as [|fuel IH]; intros c S ns.
  - exists 0%nat. reflexivity.
  - destruct (pc_eq_Exited c) as [->|Hc].
    + exists 0%nat. reflexivity.
    + destruct (worker_step group_id total_players delay r c S)
        as [S' c'] eqn:WS.
      rewrite (alone_next group_id total_players delay r fuel c c' S S' Hc WS).
      destruct (IH c' S' ns) as [fuel' Hf].
      destruct (pc_eq_AtWhile c) as [->|Hw].
      * cbn [worker_step] in WS.
        destruct (player_queue S) as [|p q] eqn:HQ.
        { injection WS as <- <-. exists 1%nat.
          rewrite alone_exited. cbn [thread_alone thread_step fst snd].
          now rewrite HQ. }
        destruct (is_inviting (self S)) eqn:HF.
        { injection WS as <- <-. exists (Datatypes.S (Datatypes.S fuel')).
          rewrite <- Hf.
          rewrite (thread_alone_next true (Datatypes.S fuel') (Of AtWhile)
                     AtRunningCheck (S, ns) (S, ns));
            [|discriminate|cbn [thread_step fst snd]; now rewrite HQ, HF].
          apply thread_alone_next; [discriminate|].
          cbn [thread_step fst snd].
          destruct (invited_count S mod 5 =? 0)%nat; reflexivity. }
        { injection WS as <- <-. exists 1%nat.
          rewrite alone_exited. cbn [thread_alone thread_step fst snd].
          now rewrite HQ, HF. }
      * exists (Datatypes.S fuel'). rewrite <- Hf.
        apply thread_alone_next; [congruence|].
        destruct c; try contradiction; cbn [thread_step fst snd];
          rewrite WS; reflexivity.
Qed.

End ThreadFacts.

(** X28.  With VRChat found running at every check and nobody cancelling,
    [_invite_players_thread] comes to its end with the queue empty and
    every player counted once, and reports the run as completed; it
    leaves the queue, the counters, the calls issued and the object,
    messages included, exactly as one worker of the pool that runs alone
    on the same players leaves them. *)
Theorem sequential_thread_as_one_worker
    (group_id : string) (delay : nat) (r : remote) (players : list player)
    (L : logic) (ns : list note) :
  is_inviting L = true ->
  exists (fuel : nat) (T : thread),
    thread_alone group_id (List.length players) delay r true fuel
                 (Of AtWhile) (thread_start group_id players L ns)
    = (T, Of Exited)
    /\ fst T = fst (alone group_id (List.length players) delay r
                          (7 * List.length players + 1) AtWhile
                          (mkShared L players 0 0 0 []))
    /\ snd T = StartingToInvite (List.length players) group_id :: ns
    /\ player_queue (fst T) = []
    /\ (invited_count (fst T) + failed_count (fst T) + skipped_count (fst T)
        = List.length players)%nat
    /\ hd_error (logged (self (fst (thread_finish (List.length players) T))))
       = Some (InvitationCompleted (invited_count (fst T))
                                   (List.length players)
                                   (failed_count (fst T))
                                   (skipped_count (fst T))).
Proof.
  intros HL.
  destruct (thread_follows_worker group_id (List.length players) delay r
              (7 * List.length players + 1) AtWhile
              (mkShared L players 0 0 0 [])
              (StartingToInvite (List.length players) group_id :: ns))
    as [fuel Hf].
  pose proof (alone_drains group_id (List.length players) delay r players
                (mkShared L players 0 0 0 []) eq_refl HL) as HD.
  cbv zeta in HD. revert Hf HD.
  generalize (alone group_id (List.length players) delay r
                    (7 * List.length players + 1) AtWhile
                    (mkShared L players 0 0 0 [])).
  intros A Hf (E & HQ & HF & HC).
  exists fuel, (fst A, StartingToInvite (List.length players) group_id :: ns).
  rewrite E in Hf. cbn [fst snd].
  split; [exact Hf|]. split; [reflexivity|]. split; [reflexivity|].
  split; [exact HQ|]. split; [simpl in HC; lia|].
  unfold thread_finish, completion_message. cbn [fst snd].
  rewrite HF. reflexivity.
Qed.

Lemma sequential_thread_as_one_worker_witness :
  exists (fuel : nat) (T : thread),
    thread_alone "1234" (List.length [dora; carl]) 2 nobody_member true fuel
                 (Of AtWhile) (thread_start "1234" [dora; carl] inviting [])
    = (T, Of Exited)
    /\ fst T = fst (alone "1234" (List.length [dora; carl]) 2 nobody_member
                          (7 * List.length [dora; carl] + 1) AtWhile
                          (mkShared inviting [dora; carl] 0 0 0 []))
    /\ snd T = [StartingToInvite (List.length [dora; carl]) "1234"]
    /\ player_queue (fst T) = []
    /\ (invited_count (fst T) + failed_count (fst T) + skipped_count (fst T)
        = List.length [dora; carl])%nat
    /\ hd_error (logged (self (fst (thread_finish (List.length [dora; carl])
                                                  T))))
       = Some (InvitationCompleted (invited_count (fst T))
                                   (List.length [dora; carl])
                                   (failed_count (fst T))
                                   (skipped_count (fst T))).
Proof.
  apply (sequential_thread_as_one_worker "1234" 2 nobody_member [dora; carl]
           inviting []).
  reflexivity.
Defined.

(** X29.  [_invite_players_thread] asks whether VRChat is running only in
    a turn of the loop that begins with [invited_count] a multiple of
    five.  If VRChat is then found closed the loop is left at once: the
    flag is cleared, and the queue, the counters and the calls stay as
    they were.  In any other turn the loop goes on to its first check of
    the flag, whatever the answer would be.  So a thread started while
    VRChat is closed, on players and with the flag set, issues no call at
    all, leaves every player in the queue and reports the run as stopped,
    with nobody invited. *)
Theorem closed_vrchat_ends_the_thread :
  (forall (group_id : string) (total delay : nat) (r : remote) (T : thread),
      (invited_count (fst T) mod 5 = 0)%nat ->
      thread_step group_id total delay r false AtRunningCheck T
      = ((set_self (set_is_inviting false (self (fst T))) (fst T),
          VRChatClosed :: snd T),
         Of Exited))
  /\ (forall (group_id : string) (total delay : nat) (r : remote)
             (answer : bool) (T : thread),
         (invited_count (fst T) mod 5 <> 0)%nat ->
         thread_step group_id total delay r answer AtRunningCheck T
         = (T, Of AtCheckBeforeGet))
  /\ (forall (group_id : string) (delay : nat) (r : remote)
             (players : list player) (L : logic) (ns : list note),
         players <> [] -> is_inviting L = true ->
         exists T : thread,
           thread_alone group_id (List.length players) delay r false 2
                        (Of AtWhile) (thread_start group_id players L ns)
           = (T, Of Exited)
           /\ calls (fst T) = []
           /\ player_queue (fst T) = players
           /\ is_inviting (self (fst T)) = false
           /\ logged (self (fst T)) = logged L
           /\ snd T = VRChatClosed
                      :: StartingToInvite (List.length players) group_id :: ns
           /\ hd_error (logged (self (fst (thread_finish (List.length players)
                                                         T))))
              = Some (InvitationStopped 0 (List.length players) 0 0)).
Proof.
  split; [|split].
  - intros group_id total delay r T H. cbn [thread_step].
    apply Nat.eqb_eq in H. now rewrite H.
  - intros group_id total delay r answer T H. cbn [thread_step].
    apply Nat.eqb_neq in H. now rewrite H.
  - intros group_id delay r players L ns HN HL.
    destruct players as [|p q]; [contradiction|].
    eexists. split.
    + unfold thread_start. cbn [thread_alone thread_step fst snd player_queue
                                 self invited_count].
      rewrite HL. cbn [thread_step fst snd invited_count Nat.modulo].
      reflexivity.
    + cbn [fst snd]. repeat split; reflexivity.
Qed.

Lemma closed_vrchat_ends_the_thread_witness :
  thread_step "1234" 2 2 nobody_member false AtRunningCheck
              (thread_start "1234" [dora; carl] inviting [])
  = ((set_self (set_is_inviting false
                  (self (fst (thread_start "1234" [dora; carl] inviting []))))
               (fst (thread_start "1234" [dora; carl] inviting [])),
      VRChatClosed :: snd (thread_start "1234" [dora; carl] inviting [])),
     Of Exited).
Proof.
  apply (proj1 closed_vrchat_ends_the_thread). reflexivity.
Defined.

(* ================================================================== *)
(** * invite_instance_players_to_group                                 *)
(* ================================================================== *)

Import Instance.

(** The messages play no part in what the two passes of the one-time
    parse find. *)
Lemma last_instance_indep (lines : list string) :
  forall (found : option (string * datetime)) (a b : app),
    snd (last_instance lines found a) = snd (last_instance lines found b).
Proof.
  induction lines as [|line rest IH]; intros found a b; simpl; [reflexivity|].
  destruct (is_instance_line line); [|apply IH].
  destruct (instance_change line) as [[ts inst]|]; [|apply IH].
  destruct (strptime ts); [apply IH|reflexivity].
Qed.

Lemma obj_last_instance (lines : list string) :
  forall (found : option (string * datetime)) (a : app),
    obj (fst (last_instance lines found a)) = obj a.
Proof.
  induction lines as [|line rest IH]; intros found a; simpl; [reflexivity|].
  destruct (is_instance_line line); [|apply IH].
  destruct (instance_change line) as [[ts inst]|]; [|apply IH].
  destruct (strptime ts); [|reflexivity]. now rewrite IH.
Qed.

Lemma parse_events_indep (since : datetime) (lines : list string) :
  forall (d : dict events) (a b : app),
    snd (parse_events since lines d a) = snd (parse_events since lines d b).
Proof.
  induction lines as [|line rest IH]; intros d a b; simpl; [reflexivity|].
  destruct (timestamp_match line) as [ts|]; [|apply IH].
  destruct (strptime ts) as [t|]; [|reflexivity].
  destruct (dt_ltb t since); [apply IH|].
  destruct (contains "[Behaviour] OnPlayerJoined" line).
  - destruct (player_match "OnPlayerJoined" line) as [[nm pid]|]; apply IH.
  - destruct (contains "[Behaviour] OnPlayerLeft" line); [|apply IH].
    destruct (player_match "OnPlayerLeft" line) as [[nm pid]|]; apply IH.
Qed.

Lemma obj_parse_events (since : datetime) (lines : list string) :
  forall (d : dict events) (a : app),
    obj (fst (parse_events since lines d a)) = obj a.
Proof.
  induction lines as [|line rest IH]; intros d a; simpl; [reflexivity|].
  destruct (timestamp_match line) as [ts|]; [|apply IH].
  destruct (strptime ts) as [t|]; [|reflexivity].
  destruct (dt_ltb t since); [apply IH|].
  destruct (contains "[Behaviour] OnPlayerJoined" line).
  - destruct (player_match "OnPlayerJoined" line) as [[nm pid]|];
      [now rewrite IH|apply IH].
  - destruct (contains "[Behaviour] OnPlayerLeft" line); [|apply IH].
    destruct (player_match "OnPlayerLeft" line) as [[nm pid]|];
      [now rewrite IH|apply IH].
Qed.

(** The one-time parse, the messages left aside. *)
Lemma parse_pure (f : file_status) (path : string) (inst : option string)
    (a : app) :
  fst (_parse_vrchat_logs_for_players f path inst a)
  = match one_time_snapshot f with
    | Some (players, _) => players
    | None => []
    end
  /\ obj (snd (_parse_vrchat_logs_for_players f path inst a))
     = match one_time_snapshot f with
       | Some (_, join_times) => set_join_times join_times (obj a)
       | None => obj a
       end.
Proof.
  unfold _parse_vrchat_logs_for_players, one_time_snapshot, parse_failed.
  destruct f as [|n|c]; try (split; reflexivity).
  set (A2 := say ScanningForInstance
                 (say LogLastModified (say (ParsingLogFile path) a))).
  assert (O2 : obj A2 = obj a) by reflexivity.
  pose proof (obj_last_instance (readlines c) None A2) as O3.
  rewrite (last_instance_indep (readlines c) None (mkApp logic_init []) A2).
  destruct (last_instance (readlines c) None A2) as [a3 r].
  cbn [fst snd] in *. rewrite O2 in O3.
  destruct r as [e|[[ci since]|]]; try (split; [reflexivity|exact O3]).
  destruct (truthy (Some ci)); cbn [negb]; [|split; [reflexivity|exact O3]].
  set (A5 := match inst with
             | Some given =>
                 if truthy inst && negb (String.eqb given ci)
                 then say (UsingInstanceFromLogs ci)
                          (say (InstanceMismatch given ci)
                               (say (InstanceFromLogs ci) a3))
                 else say (InstanceFromLogs ci) a3
             | None => say (InstanceFromLogs ci) a3
             end).
  assert (O5 : obj A5 = obj a).
  { unfold A5. destruct inst as [given|]; [|exact O3].
    destruct (truthy (Some given) && negb (String.eqb given ci)); exact O3. }
  set (I1 := match inst with
             | Some given => if truthy inst then given else ci
             | None => ci
             end).
  set (A6 := say (ScanningForEvents I1) A5).
  pose proof (obj_parse_events since (readlines c) [] A6) as O7.
  rewrite (parse_events_indep since (readlines c) [] (mkApp logic_init []) A6).
  destruct (parse_events since (readlines c) [] A6) as [a7 r2].
  cbn [fst snd] in *.
  assert (O7' : obj a7 = obj a) by (rewrite O7; exact O5).
  destruct r2 as [e|d]; [split; [reflexivity|exact O7']|].
  pose proof (active_loop_from d ([], []) a7) as AF.
  pose proof (obj_active_loop d ([], []) a7) as OA.
  destruct (active_loop d ([], []) a7) as [[ps jt] a8].
  cbn [fst snd] in *. rewrite <- AF. split; [reflexivity|].
  destruct ps; cbn [obj on_obj say]; rewrite OA, O7'; reflexivity.
Qed.

(** [get_players_in_instance], the messages left aside. *)
Lemma players_found_spec (gp : logic -> option string * logic)
    (fs : string -> file_status) (inst : option string) (a : app) :
  fst (get_players_in_instance gp fs inst a) = fst (players_found gp fs (obj a))
  /\ obj (snd (get_players_in_instance gp fs inst a))
     = snd (players_found gp fs (obj a)).
Proof.
  unfold get_players_in_instance, players_found.
  destruct (is_logged_in (obj a)); cbn [negb]; [|split; reflexivity].
  destruct (is_log_watching (obj a)); cbn [negb].
  - destruct (fst (get_active_players (obj a))) as [|p ps];
      [split; reflexivity|].
    cbn [fst snd]. split; [reflexivity|]. now rewrite obj_fold_say.
  - cbn [obj say]. destruct (gp (obj a)) as [[[|ch path]|] L1];
      try (split; reflexivity).
    cbn [fst snd].
    match goal with
    | |- context [_parse_vrchat_logs_for_players ?f ?q ?i ?x] =>
        destruct (parse_pure f q i x) as [P1 P2]
    end.
    rewrite P1, P2. cbn [obj].
    destruct (one_time_snapshot (fs (String ch path))) as [[ps jt]|];
      split; reflexivity.
Qed.

(** [get_players_in_instance_with_times], the messages left aside. *)
Lemma with_times_spec (gp : logic -> option string * logic)
    (fs : string -> file_status) (now : moment) (inst : option string)
    (a : app) :
  fst (get_players_in_instance_with_times gp fs now inst a)
  = map (with_stored_time
           (_player_join_times (snd (players_found gp fs (obj a)))) now)
        (fst (players_found gp fs (obj a)))
  /\ obj (snd (get_players_in_instance_with_times gp fs now inst a))
     = snd (players_found gp fs (obj a)).
Proof.
  destruct (players_found_spec gp fs inst
              (say (GettingPlayersAndTimes inst) a)) as [P1 P2].
  cbn [obj say] in P1, P2.
  unfold get_players_in_instance_with_times.
  destruct (get_players_in_instance gp fs inst
              (say (GettingPlayersAndTimes inst) a)) as [players a2].
  cbn [fst snd] in P1, P2. rewrite <- P1, <- P2.
  destruct players as [|p ps]; [split; reflexivity|].
  destruct (with_times_loop now (_player_join_times (obj a2)) (p :: ps) []
              (say (ProcessingJoinTimes (List.length (p :: ps))) a2) eq_refl)
    as [H1 H2].
  cbv zeta in H1, H2. rewrite H1, H2. split; reflexivity.
Qed.

Lemma players_found_client (gp : logic -> option string * logic)
    (fs : string -> file_status) (L : logic) :
  (forall L', snd (gp L') = L') ->
  is_logged_in (snd (players_found gp fs L)) = is_logged_in L
  /\ current_user (snd (players_found gp fs L)) = current_user L.
Proof.
  intros Hgp. unfold players_found.
  destruct (negb (is_logged_in L)); [split; reflexivity|].
  destruct (negb (is_log_watching L)); [|split; reflexivity].
  rewrite (Hgp L).
  destruct (fst (gp L)) as [[|ch path]|]; try (split; reflexivity).
  destruct (one_time_snapshot (fs (String ch path))) as [[ps jt]|];
    split; reflexivity.
Qed.

Lemma pending_invites_of_spec (group_invites : answer (option (list string)))
    (group_id : string) (a : app) :
  fst (pending_invites_of group_invites group_id a)
  = pending_fetched group_invites
  /\ obj (snd (pending_invites_of group_invites group_id a)) = obj a.
Proof.
  unfold pending_invites_of, pending_fetched.
  destruct group_invites as [[data|]|e]; split; reflexivity.
Qed.

Lemma obj_log_status (current_time : moment) (uid : string)
    (members pending : list string) (delay : Z) (inst : option string)
    (pwt : list (player * moment)) (a : app) :
  obj (log_status current_time uid members pending delay inst pwt a) = obj a.
Proof. unfold log_status. now rewrite obj_fold_say. Qed.

Lemma eligible_nil self_id members pending now min_dwell :
  eligible self_id members pending now min_dwell [] = [].
Proof. reflexivity. Qed.

Lemma members_fetched_unique (fuel : nat) (pages : nat -> page_answer)
    (m1 m2 : list string) :
  members_fetched fuel pages m1 -> members_fetched fuel pages m2 -> m1 = m2.
Proof.
  unfold members_fetched.
  intros [H1|(-> & s1 & b1 & H1)] [H2|(-> & s2 & b2 & H2)];
    rewrite H1 in H2; congruence.
Qed.

(** How [get_group_members] ends, with the client logged in. *)
Lemma get_group_members_cases (fuel : nat) (pages : nat -> page_answer)
    (group_id : string) (a : app) :
  is_logged_in (obj a) = true ->
  match get_group_members fuel pages group_id a with
  | None => members_loop fuel pages 0 [] = None
  | Some (Returned ms, a') => members_fetched fuel pages ms /\ obj a' = obj a
  | Some (Raised e, a') =>
      members_loop fuel pages 0 [] = Some (Raised e)
      /\ forall status body, e <> ApiException status body
  end.
Proof.
  intros Hin. unfold get_group_members, members_fetched. rewrite Hin.
  cbn [negb].
  destruct (members_loop fuel pages 0 []) as [[ms|e]|]; [| |reflexivity].
  - split; [now left|reflexivity].
  - destruct e as [ts| | |st b|];
      try (split; [reflexivity|intros st' b'; discriminate]).
    split; [|reflexivity]. right. split; [reflexivity|]. eauto.
Qed.

(** X30.  [invite_instance_players_to_group] starts a run, and hands
    players to [_invite_thread_pool], exactly when the client is logged in
    with a user, the group id is not empty, VRChat is found running, the
    membership request for the user returned a truthy value, the location
    of the user holds a colon and what follows the first colon begins with
    "grp_" and, cut at its first ['~'] and with every "grp_" removed, is
    the group id, and some player found in the instance is eligible.  The
    players handed over are the eligible ones among the players
    [get_players_in_instance_with_times] finds: not the user, no member
    that [get_group_members] came back with, nobody with a pending invite,
    nobody who joined less than [delay] seconds before; this for a
    [delay] from 0 to 2^34 seconds, where the float of [total_seconds]
    decides as the exact time does.  The run is started whether or not
    another one is going on, and [is_inviting] is set.  (The lookup of the
    log file is taken to change nothing of the object.) *)
Theorem instance_invite_hands_over_the_eligible
    (vrchat_running : bool) (membership : answer bool)
    (get_user : answer (option string))
    (gp : logic -> option string * logic) (fs : string -> file_status)
    (now_for_players : moment) (fuel : nat) (pages : nat -> page_answer)
    (group_invites : answer (option (list string))) (current_time : moment)
    (group_id : string) (max_threads : nat) (delay : Z) (a : app)
    (handed : list player) :
  (forall L, snd (gp L) = L) ->
  (0 <= delay <= 2 ^ 34)%Z ->
  ((exists a',
       invite_instance_players_to_group vrchat_running membership get_user
         gp fs now_for_players fuel pages group_invites current_time
         group_id max_threads delay a
       = Some (Returned (true, Some handed), a'))
   <->
   is_logged_in (obj a) = true
   /\ group_id <> EmptyString
   /\ vrchat_running = true
   /\ membership = Returned true
   /\ exists uid world inst members,
        current_user (obj a) = Some uid
        /\ no_colon world = true
        /\ get_user = Returned (Some (world ++ ":" ++ inst)%string)
        /\ starts_with_grp inst = true
        /\ remove_grp (before_tilde inst) = group_id
        /\ members_fetched fuel pages members
        /\ handed
           = eligible uid members (pending_fetched group_invites)
               (to_instant current_time) delay
               (on_time_line
                  (fst (get_players_in_instance_with_times gp fs
                          now_for_players (Some inst) a)))
        /\ handed <> [])
  /\ (forall a',
         invite_instance_players_to_group vrchat_running membership get_user
           gp fs now_for_players fuel pages group_invites current_time
           group_id max_threads delay a
         = Some (Returned (true, Some handed), a') ->
         is_inviting (obj a') = true).
Proof.
  intros Hgp Hd. unfold invite_instance_players_to_group.
  destruct (is_logged_in (obj a)) eqn:Hin; cbn [negb].
  2:{ split; [split|]; [intros (a' & H); discriminate H
                       |intros (H & _); discriminate H
                       |intros a' H; discriminate H]. }
  destruct group_id as [|g0 gid].
  { cbn [truthy negb].
    split; [split|]; [intros (a' & H); discriminate H
                     |intros (_ & H & _); contradiction
                     |intros a' H; discriminate H]. }
  cbn [truthy negb]. set (group_id := String g0 gid).
  destruct vrchat_running; cbn [negb].
  2:{ split; [split|]; [intros (a' & H); discriminate H
                       |intros (_ & _ & H & _); discriminate H
                       |intros a' H; discriminate H]. }
  destruct (own_membership_result membership group_id a) as [Mt Mo].
  destruct (is_current_user_in_group membership group_id a) as [member a1].
  cbn [fst snd] in Mt, Mo.
  destruct member; cbn [negb].
  2:{ split; [split|]; [intros (a' & H); discriminate H| |
                        intros a' H; discriminate H].
      intros (_ & _ & _ & Hm & uid & _ & _ & _ & Hu & _).
      assert (C : false = true)
        by (apply (proj2 Mt); split; [exact Hin|split; [congruence|exact Hm]]).
      discriminate C. }
  destruct (proj1 Mt eq_refl) as (_ & Hu & Hm).
  set (a2 := if negb (is_log_watching (obj a1))
             then say OneTimeScanForDetection a1 else a1).
  assert (O2 : obj a2 = obj a).
  { unfold a2. destruct (negb (is_log_watching (obj a1))); exact Mo. }
  destruct (get_current_instance get_user a2) as [instance_id a3] eqn:GI.
  assert (Go : obj a3 = obj a).
  { pose proof (proj2 (get_current_instance_result get_user a2 EmptyString))
      as H. rewrite GI in H. cbn [snd] in H. now rewrite H. }
  assert (Gt : forall inst, instance_id = Some inst <->
                 exists world, no_colon world = true /\
                   get_user = Returned (Some (world ++ ":" ++ inst)%string)).
  { intros inst.
    pose proof (proj1 (get_current_instance_result get_user a2 inst)) as H.
    rewrite GI in H. cbn [fst] in H. rewrite H, O2, Hin. split.
    - intros (_ & _ & H'). exact H'.
    - intros H'. repeat split; assumption. }
  destruct instance_id as [inst|].
  2:{ cbn [truthy negb].
      split; [split|]; [intros (a' & H); discriminate H| |
                        intros a' H; discriminate H].
      intros (_ & _ & _ & _ & uid & w & i & ms & _ & Hw & Hg & _).
      assert (C : None = Some i) by (apply Gt; eauto). discriminate C. }
  assert (Uniq : forall w i, no_colon w = true ->
                   get_user = Returned (Some (w ++ ":" ++ i)%string) ->
                   i = inst).
  { intros w i Hw' Hg'.
    assert (C : Some inst = Some i) by (apply Gt; eauto).
    now injection C. }
  destruct (proj1 (Gt inst) eq_refl) as (world & Hw & Hg).
  destruct (instance_from_group_result inst group_id a3) as [It Io].
  destruct inst as [|c0 inst0].
  { cbn [truthy negb].
    split; [split|]; [intros (a' & H); discriminate H| |
                      intros a' H; discriminate H].
    intros (_ & _ & _ & _ & uid & w & i & ms & _ & Hw' & Hg' & Hs & _).
    rewrite (Uniq w i Hw' Hg') in Hs. discriminate Hs. }
  cbn [truthy negb]. set (inst := String c0 inst0) in *.
  destruct (is_instance_from_group (Some inst) (Some group_id) a3)
    as [from_group a4].
  cbn [fst snd] in It, Io.
  destruct from_group; cbn [negb].
  2:{ split; [split|]; [intros (a' & H); discriminate H| |
                        intros a' H; discriminate H].
      intros (_ & Hne & _ & _ & uid & w & i & ms & _ & Hw' & Hg' & Hs & Hr
              & _).
      rewrite (Uniq w i Hw' Hg') in Hs, Hr.
      assert (C : false = true) by (apply (proj2 It); auto).
      discriminate C. }
  destruct (proj1 It eq_refl) as (Hs & Hr & Hne).
  assert (O4 : obj a4 = obj a) by (rewrite Io; exact Go).
  destruct (with_times_spec gp fs now_for_players (Some inst) a4) as [W1 W2].
  destruct (with_times_spec gp fs now_for_players (Some inst) a) as [V1 _].
  rewrite O4 in W1, W2. rewrite <- V1 in W1. clear V1.
  destruct (players_found_client gp fs (obj a) Hgp) as [PL PU].
  rewrite <- W2 in PL, PU.
  destruct (get_players_in_instance_with_times gp fs now_for_players
              (Some inst) a4) as [pwt a5].
  cbn [fst snd] in W1, PL, PU.
  destruct pwt as [|e0 pwt0].
  { split; [split|]; [intros (a' & H); discriminate H| |
                      intros a' H; discriminate H].
    intros (_ & _ & _ & _ & uid & w & i & ms & _ & Hw' & Hg' & _ & _ & _
            & He & Hn).
    rewrite (Uniq w i Hw' Hg'), <- W1 in He. exfalso. apply Hn. exact He. }
  set (pwt := e0 :: pwt0) in *.
  assert (RHS_inv :
            forall uid' w i ms',
              current_user (obj a) = Some uid' ->
              no_colon w = true ->
              get_user = Returned (Some (w ++ ":" ++ i)%string) ->
              eligible uid' ms' (pending_fetched group_invites)
                (to_instant current_time) delay
                (on_time_line
                   (fst (get_players_in_instance_with_times gp fs
                           now_for_players (Some i) a)))
              = eligible uid' ms' (pending_fetched group_invites)
                  (to_instant current_time) delay (on_time_line pwt)).
  { intros uid' w i ms' _ Hw' Hg'. now rewrite (Uniq w i Hw' Hg'), <- W1. }
  pose proof (get_group_members_cases fuel pages group_id
                (say (GettingMembers group_id) a5)) as GM.
  cbn [obj say] in GM. specialize (GM (eq_trans PL Hin)).
  destruct (get_group_members fuel pages group_id
              (say (GettingMembers group_id) a5)) as [[[ms|e] a6]|].
  3:{ split; [split|]; [intros (a' & H); discriminate H| |
                        intros a' H; discriminate H].
      intros (_ & _ & _ & _ & uid & w & i & ms & _ & _ & _ & _ & _
              & [C|(_ & st & b & C)] & _); rewrite GM in C; discriminate C. }
  2:{ destruct GM as [GM GN].
      split; [split|]; [intros (a' & H); discriminate H| |
                        intros a' H; discriminate H].
      intros (_ & _ & _ & _ & uid & w & i & ms & _ & _ & _ & _ & _
              & [C|(_ & st & b & C)] & _); rewrite GM in C;
        [discriminate C|].
      injection C as ->. exfalso. now apply (GN st b). }
  destruct GM as [GM O6]. cbn [obj say] in O6.
  destruct (pending_invites_of_spec group_invites group_id a6) as [P1 P2].
  destruct (pending_invites_of group_invites group_id a6) as [pending a7].
  cbn [fst snd] in P1, P2. subst pending.
  assert (U7 : current_user (obj a7) = current_user (obj a))
    by (rewrite P2, O6; exact PU).
  rewrite U7.
  destruct (current_user (obj a)) as [uid|] eqn:CU; [|contradiction].
  unfold invite_filtered.
  rewrite (filtered_players_eligible uid ms (pending_fetched group_invites)
             (to_instant current_time) delay (on_time_line pwt) Hd).
  destruct (eligible uid ms (pending_fetched group_invites)
              (to_instant current_time) delay (on_time_line pwt))
    as [|p ps] eqn:EL.
  - split; [split|]; [intros (a' & H); discriminate H| |
                      intros a' H; discriminate H].
    intros (_ & _ & _ & _ & uid' & w & i & ms' & Hu' & Hw' & Hg' & _ & _
            & Hf & He & Hn).
    injection Hu' as <-.
    rewrite (members_fetched_unique _ _ _ _ Hf GM) in He.
    rewrite (RHS_inv uid w i ms eq_refl Hw' Hg'), EL in He.
    exfalso. apply Hn. exact He.
  - split; [split|].
    + intros (a' & H).
      assert (E : handed = p :: ps) by congruence. subst handed. clear H.
      split; [reflexivity|]. split; [discriminate|].
      split; [reflexivity|]. split; [exact Hm|].
      exists uid, world, inst, ms.
      split; [reflexivity|]. split; [exact Hw|]. split; [exact Hg|].
      split; [exact Hs|]. split; [exact Hr|]. split; [exact GM|].
      split; [|discriminate].
      rewrite (RHS_inv uid world inst ms eq_refl Hw Hg). now rewrite EL.
    + intros (_ & _ & _ & _ & uid' & w & i & ms' & Hu' & Hw' & Hg' & _ & _
              & Hf & He & Hn).
      injection Hu' as <-.
      rewrite (members_fetched_unique _ _ _ _ Hf GM) in He.
      rewrite (RHS_inv uid w i ms eq_refl Hw' Hg'), EL in He.
      subst handed. eexists. reflexivity.
    + intros a' H.
      match type of H with
      | Some (_, ?x) = _ => assert (E : x = a') by congruence
      end.
      rewrite <- E. reflexivity.
Qed.

Lemma instance_invite_hands_over_the_eligible_witness :
  (0 <= 5 <= 2 ^ 34)%Z
  /\
  ((exists a',
       invite_instance_players_to_group true (Returned true)
         (Returned (Some "wrld_1:grp_1234~region(eu)"%string))
         finds_log fs_session past_noon 1 (paged ["usr_alice"%string])
         (Returned None) past_noon "1234" 5 5 (mkApp logged_in [])
       = Some (Returned (true, Some [mkPlayer "usr_bob" "Bob"]), a'))
   <->
   is_logged_in (obj (mkApp logged_in [])) = true
   /\ "1234"%string <> EmptyString
   /\ true = true
   /\ Returned true = Returned true
   /\ exists uid world inst members,
        current_user (obj (mkApp logged_in [])) = Some uid
        /\ no_colon world = true
        /\ Returned (Some "wrld_1:grp_1234~region(eu)"%string)
           = Returned (Some (world ++ ":" ++ inst)%string)
        /\ starts_with_grp inst = true
        /\ remove_grp (before_tilde inst) = "1234"%string
        /\ members_fetched 1 (paged ["usr_alice"%string]) members
        /\ [mkPlayer "usr_bob" "Bob"]
           = eligible uid members (pending_fetched (Returned None))
               (to_instant past_noon) 5
               (on_time_line
                  (fst (get_players_in_instance_with_times finds_log
                          fs_session past_noon (Some inst)
                          (mkApp logged_in []))))
        /\ [mkPlayer "usr_bob" "Bob"] <> [])
  /\ (forall a',
         invite_instance_players_to_group true (Returned true)
           (Returned (Some "wrld_1:grp_1234~region(eu)"%string))
           finds_log fs_session past_noon 1 (paged ["usr_alice"%string])
           (Returned None) past_noon "1234" 5 5 (mkApp logged_in [])
         = Some (Returned (true, Some [mkPlayer "usr_bob" "Bob"]), a') ->
         is_inviting (obj a') = true).
Proof.
  assert (Hd : (0 <= 5 <= 2 ^ 34)%Z) by (split; discriminate).
  split; [exact Hd|].
  apply (instance_invite_hands_over_the_eligible true (Returned true)
           (Returned (Some "wrld_1:grp_1234~region(eu)"%string))
           finds_log fs_session past_noon 1 (paged ["usr_alice"%string])
           (Returned None) past_noon "1234" 5 5 (mkApp logged_in [])
           [mkPlayer "usr_bob" "Bob"]).
  - intros L. reflexivity.
  - exact Hd.
Defined.

(** The run of the sample: Alice is a member, Bob is handed over. *)
Example instance_invite_sample :
  option_map fst
    (invite_instance_players_to_group true (Returned true)
       (Returned (Some "wrld_1:grp_1234~region(eu)"%string))
       finds_log fs_session past_noon 1 (paged ["usr_alice"%string])
       (Returned None) past_noon "1234" 5 5 (mkApp logged_in []))
  = Some (Returned (true, Some [mkPlayer "usr_bob" "Bob"])).
Proof. vm_compute. reflexivity. Qed.
